(** * iqoptionbot: indicator pipeline, signal strategies and trading state

    A shallow embedding of [src/indicators.py], [src/trade.py],
    [src/assets.py] and the reconnection loop of [src/main.py].

    Numbers.  Balances, amounts, percentages and thresholds are Python
    floats that come from the configuration or the broker; they are modelled
    as rationals ([Q]), so [0.3] is [3/10] and [round(x, 2)] rounds half to
    even on the exact value.  Indicator values and prices come out of numpy
    arrays and may be non-finite; they are modelled by [num], the rationals
    extended with the two infinities and NaN, with the comparison rules of
    IEEE 754 (every comparison with NaN is false).  Where a verdict turns
    on how a result rounds, as the daily loss gate does at its limit, the
    code is given on binary64 values as well (module [Binary64]).

    Collaborators.  The broker client, [talib] and the clock are not part of
    the program; they appear as functions ([Talib], [CandleSource]), as the
    observations made in one turn of a loop ([order_obs], [entry_obs]) and
    as the time [now] at which a call runs.  [settings.py] is not part of
    the sources either: its constants are the fields of [Settings].
    Strings are byte strings, whose order is the code point order of the
    text they encode. *)

From Stdlib Require Import QArith Qround Lqa.
From Stdlib Require Floats.PrimFloat Floats.SpecFloat Floats.FloatOps.
From stdpp Require Import gmap strings list sorting pretty.

Open Scope Z_scope.

(* ===================================================================== *)
(** ** Python values *)
(* ===================================================================== *)

(** A call either returns or raises. *)
Inductive result (A : Type) : Type :=
| Ok (a : A)
| Raised.
Arguments Ok {A} a.
Arguments Raised {A}.

(** A Python [float] (numpy's [float64] is a subclass of it). *)
Inductive num : Type :=
| Fin (q : Q)
| PInf
| NInf
| NaN.

Definition Qltb (a b : Q) : bool := negb (Qle_bool b a).

(** [x < y] on floats. *)
Definition num_ltb (x y : num) : bool :=
  match x, y with
  | NaN, _ | _, NaN => false
  | Fin a, Fin b => Qltb a b
  | NInf, NInf => false
  | NInf, _ => true
  | PInf, _ => false
  | Fin _, PInf => true
  | Fin _, NInf => false
  end.

(** [x <= y] on floats. *)
Definition num_leb (x y : num) : bool :=
  match x, y with
  | NaN, _ | _, NaN => false
  | Fin a, Fin b => Qle_bool a b
  | NInf, _ => true
  | _, PInf => true
  | _, _ => false
  end.

(** [x * c] for a positive finite constant [c]. *)
Definition num_scale (x : num) (c : Q) : num :=
  match x with
  | Fin a => Fin (a * c)
  | other => other
  end.

(** [math.isfinite]. *)
Definition num_finite (x : num) : bool :=
  match x with Fin _ => true | _ => false end.

(** The objects the pipeline handles: [None], a number, a [dict] with string
    keys, or anything else. *)
#[local] Set Warnings "-register-all".
Inductive pyval : Type :=
| VNone
| VNum (x : num)
| VOther
| VDict (kv : list (string * pyval)).

(** [d.get(k)] on a dict kept as an association list; a missing key gives
    [None]. *)
Fixpoint dict_find {V : Type} (kv : list (string * V)) (k : string) : option V :=
  match kv with
  | [] => None
  | (k', v) :: rest => if String.eqb k k' then Some v else dict_find rest k
  end.

(** [d[k] = v]: overwrite in place, or append a new key. *)
Fixpoint dict_set {V : Type} (kv : list (string * V)) (k : string) (v : V)
  : list (string * V) :=
  match kv with
  | [] => [(k, v)]
  | (k', v') :: rest =>
      if String.eqb k k' then (k, v) :: rest else (k', v') :: dict_set rest k v
  end.

Definition dict_get (kv : list (string * pyval)) (k : string) : pyval :=
  match dict_find kv k with Some v => v | None => VNone end.

(** [x.get(k)] on an arbitrary object: only a dict has the method. *)
Definition py_get (x : pyval) (k : string) : result pyval :=
  match x with
  | VDict kv => Ok (dict_get kv k)
  | _ => Raised
  end.

(** [d.get(outer, {}).get(inner)]. *)
Definition dict_get2 (kv : list (string * pyval)) (outer inner : string)
  : result pyval :=
  match dict_find kv outer with
  | None => Ok VNone
  | Some x => py_get x inner
  end.

Definition is_none (x : pyval) : bool :=
  match x with VNone => true | _ => false end.

(** [isinstance(v, (int, float))]. *)
Definition is_number (x : pyval) : bool :=
  match x with VNum _ => true | _ => false end.

(** [isinstance(v, dict)]. *)
Definition is_dict (x : pyval) : bool :=
  match x with VDict _ => true | _ => false end.

(** [x < y]; ordering a number against a non-number raises [TypeError]. *)
Definition py_lt (x y : pyval) : result bool :=
  match x, y with
  | VNum a, VNum b => Ok (num_ltb a b)
  | _, _ => Raised
  end.

Definition py_le (x y : pyval) : result bool :=
  match x, y with
  | VNum a, VNum b => Ok (num_leb a b)
  | _, _ => Raised
  end.

(** Python's [max(a, b)] and [min(a, b)] on finite floats: the first argument
    wins ties. *)
Definition py_max (a b : Q) : Q := if Qltb a b then b else a.
Definition py_min (a b : Q) : Q := if Qltb b a then b else a.

(** [round(x, 2)]: to the nearest hundredth, ties to even. *)
Definition round_half_even (y : Q) : Z :=
  let f := Qfloor y in
  let r := (y - inject_Z f)%Q in
  if Qltb r (1 # 2) then f
  else if Qltb (1 # 2) r then f + 1
  else if Z.even f then f else f + 1.

Definition py_round2 (x : Q) : Q :=
  (inject_Z (round_half_even (x * 100)) / 100)%Q.

(* ===================================================================== *)
(** ** Configuration ([settings.py]) *)
(* ===================================================================== *)

Inductive direction : Type := Call | Put.

Record Settings : Type := {
  TRADE_ENABLED : bool;
  TRADE_PERCENTAGE : Q;
  TRADE_PERCENTAGE_MIN : Q;
  TRADE_PERCENTAGE_MAX : Q;
  TRADE_DURATION : Z;
  TRADE_COOLDOWN : Z;
  DAILY_LOSS_LIMIT : Q;
  CONSECUTIVE_LOSSES_THRESHOLD : Z;
  CONSECUTIVE_WINS_THRESHOLD : Z;
  STRATEGY : string;
  RSI_BUY_THRESHOLD : Q;
  RSI_SELL_THRESHOLD : Q;
  STOCHASTIC_BUY_THRESHOLD : Q;
  STOCHASTIC_SELL_THRESHOLD : Q;
  RSI_INDICATOR : bool; RSI_PERIOD : Z; RSI_MIN : Q; RSI_MAX : Q;
  SMA_INDICATOR : bool; SMA_PERIOD : Z; SMA_MIN : Q; SMA_MAX : Q;
  EMA_INDICATOR : bool; EMA_PERIOD : Z; EMA_MIN : Q; EMA_MAX : Q;
  STOCHASTIC_INDICATOR : bool; STOCHASTIC_K_PERIOD : Z; STOCHASTIC_D_PERIOD : Z;
  MACD_INDICATOR : bool;
  MACD_FAST_PERIOD : Z; MACD_SLOW_PERIOD : Z; MACD_SIGNAL_PERIOD : Z
}.

(* ===================================================================== *)
(** ** [TradingState] *)
(* ===================================================================== *)

(** What the broker hands back as an order id: an integer, a message, or
    nothing. *)
Inductive broker_id : Type :=
| IdInt (z : Z)
| IdStr (s : string)
| IdNone.

Definition broker_id_eqb (a b : broker_id) : bool :=
  match a, b with
  | IdInt x, IdInt y => Z.eqb x y
  | IdStr x, IdStr y => String.eqb x y
  | IdNone, IdNone => true
  | _, _ => false
  end.

(** Truth value of an id: zero, the empty string and [None] are falsy. *)
Definition broker_id_truthy (a : broker_id) : bool :=
  match a with
  | IdInt z => negb (Z.eqb z 0)
  | IdStr s => negb (String.eqb s EmptyString)
  | IdNone => false
  end.

(** The dict built at [add_order]'s call site:
    [{'id', 'asset', 'direction', 'amount', 'open_price'}]. *)
Record Order : Type := {
  order_id : broker_id;
  order_asset : string;
  order_direction : direction;
  order_amount : Q;
  order_open_price : num
}.

Definition direction_eqb (a b : direction) : bool :=
  match a, b with
  | Call, Call | Put, Put => true
  | _, _ => false
  end.

(** Equality of two floats as [list.remove] and [dict.__eq__] see it: they
    try identity before [==], so a stored NaN still matches itself. *)
Definition num_eqb (x y : num) : bool :=
  match x, y with
  | Fin a, Fin b => Qeq_bool a b
  | PInf, PInf | NInf, NInf | NaN, NaN => true
  | _, _ => false
  end.

(** [==] on two order dicts: key by key. *)
Definition order_eqb (a b : Order) : bool :=
  broker_id_eqb (order_id a) (order_id b)
  && String.eqb (order_asset a) (order_asset b)
  && direction_eqb (order_direction a) (order_direction b)
  && Qeq_bool (order_amount a) (order_amount b)
  && num_eqb (order_open_price a) (order_open_price b).

Record TradingState : Type := {
  open_orders : list Order;
  last_trade_time : gmap string Z;
  daily_loss : Q;
  initial_daily_balance : Q;
  last_reset_time : option Z;
  consecutive_losses : Z;
  consecutive_wins : Z;
  current_trade_percentage : Q
}.

Section TradingStateMethods.
Variable cfg : Settings.

(** [TradingState.__init__] *)
Definition new_trading_state : TradingState :=
  {| open_orders := [];
     last_trade_time := ∅;
     daily_loss := 0;
     initial_daily_balance := 0;
     last_reset_time := None;
     consecutive_losses := 0;
     consecutive_wins := 0;
     current_trade_percentage := TRADE_PERCENTAGE cfg |}.

Definition reset_daily (s : TradingState) (balance : Q) (current_time : Z)
  : TradingState :=
  {| open_orders := open_orders s;
     last_trade_time := last_trade_time s;
     daily_loss := 0;
     initial_daily_balance := balance;
     last_reset_time := Some current_time;
     consecutive_losses := 0;
     consecutive_wins := 0;
     current_trade_percentage := TRADE_PERCENTAGE cfg |}.

Definition set_open_orders (s : TradingState) (l : list Order) : TradingState :=
  {| open_orders := l;
     last_trade_time := last_trade_time s;
     daily_loss := daily_loss s;
     initial_daily_balance := initial_daily_balance s;
     last_reset_time := last_reset_time s;
     consecutive_losses := consecutive_losses s;
     consecutive_wins := consecutive_wins s;
     current_trade_percentage := current_trade_percentage s |}.

Definition set_current_trade_percentage (s : TradingState) (p : Q)
  : TradingState :=
  {| open_orders := open_orders s;
     last_trade_time := last_trade_time s;
     daily_loss := daily_loss s;
     initial_daily_balance := initial_daily_balance s;
     last_reset_time := last_reset_time s;
     consecutive_losses := consecutive_losses s;
     consecutive_wins := consecutive_wins s;
     current_trade_percentage := p |}.

Definition add_order (s : TradingState) (order_details : Order) : TradingState :=
  set_open_orders s (open_orders s ++ [order_details]).

(** [list.remove(x)]: drop the first element equal to [x]; [None] when
    there is none ([ValueError]). *)
Fixpoint list_remove (l : list Order) (x : Order) : option (list Order) :=
  match l with
  | [] => None
  | y :: rest =>
      if order_eqb y x then Some rest
      else match list_remove rest x with
           | Some rest' => Some (y :: rest')
           | None => None
           end
  end.

(** [remove_order]: the [ValueError] is caught and only logged. *)
Definition remove_order (s : TradingState) (order : Order) : TradingState :=
  match list_remove (open_orders s) order with
  | Some l => set_open_orders s l
  | None => s
  end.

Definition update_trade_time (s : TradingState) (asset : string)
    (current_time : Z) : TradingState :=
  {| open_orders := open_orders s;
     last_trade_time := <[asset := current_time]> (last_trade_time s);
     daily_loss := daily_loss s;
     initial_daily_balance := initial_daily_balance s;
     last_reset_time := last_reset_time s;
     consecutive_losses := consecutive_losses s;
     consecutive_wins := consecutive_wins s;
     current_trade_percentage := current_trade_percentage s |}.

Definition update_loss (s : TradingState) (amount : Q) : TradingState :=
  {| open_orders := open_orders s;
     last_trade_time := last_trade_time s;
     daily_loss := (daily_loss s + amount)%Q;
     initial_daily_balance := initial_daily_balance s;
     last_reset_time := last_reset_time s;
     consecutive_losses := consecutive_losses s + 1;
     consecutive_wins := 0;
     current_trade_percentage := current_trade_percentage s |}.

Definition update_win (s : TradingState) (profit : Q) : TradingState :=
  {| open_orders := open_orders s;
     last_trade_time := last_trade_time s;
     daily_loss := (daily_loss s - profit)%Q;
     initial_daily_balance := initial_daily_balance s;
     last_reset_time := last_reset_time s;
     consecutive_losses := 0;
     consecutive_wins := consecutive_wins s + 1;
     current_trade_percentage := current_trade_percentage s |}.

Definition adjust_trade_percentage (s : TradingState) : TradingState :=
  let old := current_trade_percentage s in
  if CONSECUTIVE_LOSSES_THRESHOLD cfg <=? consecutive_losses s then
    set_current_trade_percentage s
      (py_max (TRADE_PERCENTAGE_MIN cfg) (old * (3 # 10)))
  else if CONSECUTIVE_WINS_THRESHOLD cfg <=? consecutive_wins s then
    set_current_trade_percentage s
      (py_min (TRADE_PERCENTAGE_MAX cfg) (old * (12 # 10)))
  else
    set_current_trade_percentage s (TRADE_PERCENTAGE cfg).

(** [loss_pct] of [check_daily_loss_limit], on exact values;
    [Binary64.loss_pct] is the value the interpreter computes. *)
Definition loss_pct (s : TradingState) : Q :=
  (daily_loss s / initial_daily_balance s * 100)%Q.

(** Returns the verdict together with the state it leaves behind. *)
Definition check_daily_loss_limit (s : TradingState) (balance : Q)
  : bool * TradingState :=
  if Qltb 0 (initial_daily_balance s) then
    if Qle_bool (DAILY_LOSS_LIMIT cfg) (loss_pct s)
       || (3 <=? consecutive_losses s)
    then
      (false,
       set_current_trade_percentage s
         (py_max (TRADE_PERCENTAGE_MIN cfg)
                 (current_trade_percentage s * (3 # 10))))
    else (true, s)
  else (true, s).

End TradingStateMethods.

(* ===================================================================== *)
(** ** The daily loss gate on binary64 values *)
(* ===================================================================== *)

(** Whether [check_daily_loss_limit] stops the day when the loss stands at
    the limit depends on how the quotient and the product round, which the
    rationals above cannot show.  Here the method is given once more on
    binary64 values, with the operations the interpreter applies to a
    [float]. *)
Module Binary64.
Import PrimFloat.

(** The two constants of [settings.py] the method reads. *)
Record Limits : Type := {
  DAILY_LOSS_LIMIT : float;
  TRADE_PERCENTAGE_MIN : float
}.

(** The fields of [TradingState.__init__]; the orders are carried along. *)
Record TradingState : Type := {
  open_orders : list Order;
  last_trade_time : gmap string Z;
  daily_loss : float;
  initial_daily_balance : float;
  last_reset_time : option Z;
  consecutive_losses : Z;
  consecutive_wins : Z;
  current_trade_percentage : float
}.

Definition set_current_trade_percentage (s : TradingState) (p : float)
  : TradingState :=
  {| open_orders := open_orders s;
     last_trade_time := last_trade_time s;
     daily_loss := daily_loss s;
     initial_daily_balance := initial_daily_balance s;
     last_reset_time := last_reset_time s;
     consecutive_losses := consecutive_losses s;
     consecutive_wins := consecutive_wins s;
     current_trade_percentage := p |}.

(** [max(a, b)]: the first argument, unless the second is greater. *)
Definition py_max (a b : float) : float := if ltb a b then b else a.

(** [(self.daily_loss / self.initial_daily_balance) * 100] *)
Definition loss_pct (s : TradingState) : float :=
  mul (div (daily_loss s) (initial_daily_balance s)) 100%float.

(** [self.current_trade_percentage * 0.3]; the literal is the binary64
    value nearest to three tenths. *)
Definition three_tenths : float := 0x1.3333333333333p-2%float.

(** Lines 73-80: the verdict together with the state left behind. *)
Definition check_daily_loss_limit (cfg : Limits) (s : TradingState)
    (balance : float) : bool * TradingState :=
  if ltb zero (initial_daily_balance s) then
    if leb (DAILY_LOSS_LIMIT cfg) (loss_pct s) || (3 <=? consecutive_losses s)
    then
      (false,
       set_current_trade_percentage s
         (py_max (TRADE_PERCENTAGE_MIN cfg)
                 (mul (current_trade_percentage s) three_tenths)))
    else (true, s)
  else (true, s).

(** The rational a finite binary64 value stands for. *)
Definition exact (x : float) : Q :=
  match FloatOps.Prim2SF x with
  | SpecFloat.S754_finite sign m e =>
      ((if sign then -1 else 1) * inject_Z (Z.pos m) * 2 ^ e)%Q
  | _ => 0%Q
  end.





End Binary64.

(* ===================================================================== *)
(** ** [cachetools.TTLCache] *)
(* ===================================================================== *)

(** Entries are kept oldest first, each with the time at which it expires.
    An entry is live while [now < expires]. *)
Record TTLCache (V : Type) : Type := {
  cache_maxsize : nat;
  cache_ttl : Z;
  cache_items : list (string * (V * Z))
}.
Arguments cache_maxsize {V} _.
Arguments cache_ttl {V} _.
Arguments cache_items {V} _.

Definition cache_new {V : Type} (maxsize : nat) (ttl : Z) : TTLCache V :=
  {| cache_maxsize := maxsize; cache_ttl := ttl; cache_items := [] |}.

(** [key in cache] *)
Definition cache_contains {V : Type} (c : TTLCache V) (now : Z) (key : string)
  : bool :=
  match dict_find (cache_items c) key with
  | Some (_, expires) => now <? expires
  | None => false
  end.

(** [cache[key]]; [None] stands for [KeyError]. *)
Definition cache_getitem {V : Type} (c : TTLCache V) (now : Z) (key : string)
  : option V :=
  match dict_find (cache_items c) key with
  | Some (v, expires) => if now <? expires then Some v else None
  | None => None
  end.

Definition cache_live {V : Type} (now : Z) (items : list (string * (V * Z)))
  : list (string * (V * Z)) :=
  filter (λ e, now < snd (snd e)) items.

(** [cache[key] = value]: expired entries go first, then the oldest ones
    while a new key would not fit, and the entry is linked in as the
    newest. *)
Definition cache_setitem {V : Type} (c : TTLCache V) (now : Z) (key : string)
    (value : V) : TTLCache V :=
  let live := cache_live now (cache_items c) in
  let kept :=
    match dict_find live key with
    | Some _ => live
    | None => drop (length live + 1 - cache_maxsize c)%nat live
    end in
  let others := filter (λ e, fst e ≠ key) kept in
  {| cache_maxsize := cache_maxsize c;
     cache_ttl := cache_ttl c;
     cache_items := others ++ [(key, (value, now + cache_ttl c))] |}.

(* ===================================================================== *)
(** ** The indicator pipeline ([indicators.py]) *)
(* ===================================================================== *)

Record Candle : Type := { close : num; cmax : num; cmin : num }.

(** One call of [client.getcandles]: data, an error of a retried class
    (timeout, connection error, cancellation), or any other error. *)
Inductive fetch_outcome : Type :=
| FetchData (data : list Candle)
| FetchTransient
| FetchFatal.

(** [talib]: each function gives the last element of its output arrays, or
    raises. *)
Record Talib : Type := {
  talib_RSI : list num → Z → result pyval;
  talib_SMA : list num → Z → result pyval;
  talib_EMA : list num → Z → result pyval;
  talib_STOCH : list num → list num → list num → Z → Z → result (pyval * pyval);
  talib_MACD : list num → Z → Z → Z → result (pyval * pyval);
  talib_BBANDS : list num → Z → Z → Z → result (pyval * pyval)
}.

(** The market-data side of the client: asset, timeframe, history size and
    the number of the attempt within one retried call. *)
Definition CandleSource : Type := string → Z → Z → nat → fetch_outcome.

(** An indicator snapshot ([results[asset]]) and a batch ([results]). *)
Definition snapshot : Type := list (string * pyval).
Definition batch : Type := list (string * snapshot).

Definition get_indicator_cache (timeframe : Z) : TTLCache batch :=
  let ttl := timeframe * 5 in
  cache_new 100 ttl.

(** The module-level [candle_cache] before its first use. *)
Definition candle_cache_init : TTLCache (list Candle) := cache_new 100 300.

(** The tenacity wrapper: up to [left] attempts, only transient errors are
    retried.  The second component counts the calls made to the client. *)
Fixpoint retry_loop (fetch : nat → fetch_outcome) (attempt left : nat)
  : result (list Candle) * nat :=
  match left with
  | O => (Raised, O)
  | S left' =>
      match fetch attempt with
      | FetchData data => (Ok data, 1%nat)
      | FetchFatal => (Raised, 1%nat)
      | FetchTransient =>
          let '(r, n) := retry_loop fetch (S attempt) left' in (r, S n)
      end
  end.

Definition get_candles_with_retry (client : CandleSource) (asset : string)
    (timeframe history_size : Z) : result (list Candle) * nat :=
  retry_loop (client asset timeframe history_size) 0 5.

(** [sorted(assets)]: strings compare by code point. *)
Definition string_le (a b : string) : Prop := String.leb a b = true.

Global Instance string_le_dec : RelDecision string_le.
Proof. intros a b. unfold string_le. apply _. Defined.

Definition sorted (assets : list string) : list string :=
  merge_sort string_le assets.

(** [f"{timeframe}_{','.join(sorted(assets))}"] *)
Definition cache_key (timeframe : Z) (assets : list string) : string :=
  pretty timeframe +:+ "_" +:+ String.concat "," (sorted assets).

(** [f"{asset}_{timeframe}_{history_size}"] *)
Definition cache_key_candles (asset : string) (timeframe history_size : Z)
  : string :=
  asset +:+ "_" +:+ pretty timeframe +:+ "_" +:+ pretty history_size.

Inductive indicator_params : Type :=
| ParamsPeriod (period : Z)
| ParamsStochastic (k_period d_period : Z)
| ParamsMacd (fast_period slow_period signal_period : Z)
| ParamsBollinger (period deviation : Z).

(** One tuple of [indicators_config]. *)
Record indicator_config : Type := {
  ic_name : string;
  ic_params : indicator_params;
  ic_min : num;
  ic_max : num;
  ic_period : Z
}.

Section Pipeline.
Variable cfg : Settings.
Variable tl : Talib.

Definition indicators_config : list indicator_config :=
  (if RSI_INDICATOR cfg then
     [ {| ic_name := "RSI"; ic_params := ParamsPeriod (RSI_PERIOD cfg);
          ic_min := Fin (RSI_MIN cfg); ic_max := Fin (RSI_MAX cfg);
          ic_period := RSI_PERIOD cfg |} ] else [])
  ++ (if SMA_INDICATOR cfg then
     [ {| ic_name := "SMA"; ic_params := ParamsPeriod (SMA_PERIOD cfg);
          ic_min := Fin (SMA_MIN cfg); ic_max := Fin (SMA_MAX cfg);
          ic_period := SMA_PERIOD cfg |} ] else [])
  ++ (if EMA_INDICATOR cfg then
     [ {| ic_name := "EMA"; ic_params := ParamsPeriod (EMA_PERIOD cfg);
          ic_min := Fin (EMA_MIN cfg); ic_max := Fin (EMA_MAX cfg);
          ic_period := EMA_PERIOD cfg |} ] else [])
  ++ (if STOCHASTIC_INDICATOR cfg then
     [ {| ic_name := "STOCHASTIC";
          ic_params := ParamsStochastic (STOCHASTIC_K_PERIOD cfg)
                                        (STOCHASTIC_D_PERIOD cfg);
          ic_min := NInf; ic_max := PInf;
          ic_period := STOCHASTIC_K_PERIOD cfg |} ] else [])
  ++ (if MACD_INDICATOR cfg then
     [ {| ic_name := "MACD";
          ic_params := ParamsMacd (MACD_FAST_PERIOD cfg) (MACD_SLOW_PERIOD cfg)
                                  (MACD_SIGNAL_PERIOD cfg);
          ic_min := NInf; ic_max := PInf;
          ic_period := MACD_SLOW_PERIOD cfg |} ] else [])
  ++ [ {| ic_name := "BOLLINGER"; ic_params := ParamsBollinger 50 2;
          ic_min := NInf; ic_max := PInf; ic_period := 50 |} ].

(** The [if/elif] chain on [indicator_name]; a [params] lookup that finds
    no such key raises. *)
Definition compute_value (closes highs lows : list num) (c : indicator_config)
  : result pyval :=
  if String.eqb (ic_name c) "RSI" then
    match ic_params c with
    | ParamsPeriod p => talib_RSI tl closes p
    | _ => Raised
    end
  else if String.eqb (ic_name c) "SMA" then
    match ic_params c with
    | ParamsPeriod p => talib_SMA tl closes p
    | _ => Raised
    end
  else if String.eqb (ic_name c) "EMA" then
    match ic_params c with
    | ParamsPeriod p => talib_EMA tl closes p
    | _ => Raised
    end
  else if String.eqb (ic_name c) "STOCHASTIC" then
    match ic_params c with
    | ParamsStochastic kp dp =>
        match talib_STOCH tl highs lows closes kp dp with
        | Ok (k, d) => Ok (VDict [("k", k); ("d", d)])
        | Raised => Raised
        end
    | _ => Raised
    end
  else if String.eqb (ic_name c) "MACD" then
    match ic_params c with
    | ParamsMacd fp sp gp =>
        match talib_MACD tl closes fp sp gp with
        | Ok (macd, signal) => Ok (VDict [("macd", macd); ("signal", signal)])
        | Raised => Raised
        end
    | _ => Raised
    end
  else if String.eqb (ic_name c) "BOLLINGER" then
    match ic_params c with
    | ParamsBollinger p dev =>
        match talib_BBANDS tl closes p dev dev with
        | Ok (upper, lower) =>
            Ok (VDict [("BB_upper", upper); ("BB_lower", lower)])
        | Raised => Raised
        end
    | _ => Raised
    end
  else Raised.

(** [all(v is not None and isinstance(v, (int, float)) for v in
    value.values())] *)
Definition all_numbers (kv : list (string * pyval)) : bool :=
  forallb (λ e, negb (is_none (snd e)) && is_number (snd e)) kv.

(** What is written to [results[asset][indicator_name]] for a computed
    [value] (lines 108-117). *)
Definition stored_value (value : pyval) (min_val max_val : num) : pyval :=
  match value with
  | VDict kv => if all_numbers kv then value else VNone
  | VNum x =>
      if num_leb min_val x && num_leb x max_val then value else VNone
  | _ => VNone
  end.

(** One turn of the inner loop, with its [try/except]. *)
Definition indicator_step (closes highs lows : list num) (snap : snapshot)
    (c : indicator_config) : snapshot :=
  match compute_value closes highs lows c with
  | Ok value => dict_set snap (ic_name c) (stored_value value (ic_min c) (ic_max c))
  | Raised => dict_set snap (ic_name c) VNone
  end.

Definition compute_snapshot (candles : list Candle) (snap : snapshot)
  : snapshot :=
  let closes := map close candles in
  let highs := map cmax candles in
  let lows := map cmin candles in
  fold_left (indicator_step closes highs lows) indicators_config snap.

Definition max_period : Z :=
  match map ic_period indicators_config with
  | [] => 0
  | p :: ps => fold_left Z.max ps p
  end.

Definition history_size (timeframe : Z) : Z :=
  Z.max 1800 (timeframe * (max_period * 3)).

(** The state threaded through the loop over [assets]. *)
Record pipeline_state : Type := {
  ps_results : batch;
  ps_candle_cache : TTLCache (list Candle);
  ps_fetch_calls : nat
}.

(** One turn of the loop over [assets] (lines 70-124). *)
Definition asset_step (client : CandleSource) (timeframe now : Z)
    (st : pipeline_state) (asset : string) : pipeline_state :=
  let key := cache_key_candles asset timeframe (history_size timeframe) in
  let '(fetched, cache, calls) :=
    match cache_getitem (ps_candle_cache st) now key with
    | Some candles => (Ok candles, ps_candle_cache st, O)
    | None =>
        match get_candles_with_retry client asset timeframe
                (history_size timeframe) with
        | (Ok candles, n) =>
            (Ok candles, cache_setitem (ps_candle_cache st) now key candles, n)
        | (Raised, n) => (Raised, ps_candle_cache st, n)
        end
    end in
  let results :=
    match fetched with
    | Raised => ps_results st
    | Ok candles =>
        if (length candles =? 0)%nat
           || (Z.of_nat (length candles) <? max_period)
        then ps_results st
        else
          let snap :=
            match dict_find (ps_results st) asset with
            | Some s => s
            | None => []
            end in
          dict_set (ps_results st) asset (compute_snapshot candles snap)
    end in
  {| ps_results := results;
     ps_candle_cache := cache;
     ps_fetch_calls := (ps_fetch_calls st + calls)%nat |}.

(** What one call leaves behind: the value returned, whether it came from
    the batch cache, the calls made to the client, the module-level candle
    cache, and the call's own batch cache at the time it returns. *)
Record calc_output : Type := {
  co_results : batch;
  co_cache_hit : bool;
  co_fetch_calls : nat;
  co_candle_cache : TTLCache (list Candle);
  co_indicator_cache : TTLCache batch
}.

(** [{asset: {} for asset in assets}] *)
Definition empty_results (assets : list string) : batch :=
  fold_left (λ acc asset, dict_set acc asset []) assets [].

Definition calculate_indicators (client : CandleSource) (assets : list string)
    (timeframe now : Z) (candle_cache : TTLCache (list Candle)) : calc_output :=
  match assets with
  | [] =>
      {| co_results := []; co_cache_hit := false; co_fetch_calls := O;
         co_candle_cache := candle_cache;
         co_indicator_cache := get_indicator_cache timeframe |}
  | _ =>
      let indicator_cache := get_indicator_cache timeframe in
      let key := cache_key timeframe assets in
      match (if cache_contains indicator_cache now key
             then cache_getitem indicator_cache now key else None) with
      | Some cached =>
          {| co_results := cached; co_cache_hit := true; co_fetch_calls := O;
             co_candle_cache := candle_cache;
             co_indicator_cache := indicator_cache |}
      | None =>
          match indicators_config with
          | [] =>
              {| co_results := empty_results assets; co_cache_hit := false;
                 co_fetch_calls := O;
                 co_candle_cache := candle_cache;
                 co_indicator_cache := indicator_cache |}
          | _ =>
              let st :=
                fold_left (asset_step client timeframe now) assets
                  {| ps_results := empty_results assets;
                     ps_candle_cache := candle_cache;
                     ps_fetch_calls := O |} in
              {| co_results := ps_results st; co_cache_hit := false;
                 co_fetch_calls := ps_fetch_calls st;
                 co_candle_cache := ps_candle_cache st;
                 co_indicator_cache :=
                   cache_setitem indicator_cache now key (ps_results st) |}
          end
      end
  end.

End Pipeline.

(* ===================================================================== *)
(** ** Signal strategies ([trade.py]) *)
(* ===================================================================== *)

(** Sequencing of calls that may raise. *)
Global Instance result_ret : MRet result := λ A a, Ok a.
Global Instance result_bind : MBind result := λ A B k r,
  match r with
  | Ok a => k a
  | Raised => Raised
  end.

(** [a and b] where either side may raise; [b] is evaluated only when [a]
    holds. *)
Definition and_then (a b : result bool) : result bool :=
  match a with
  | Ok true => b
  | Ok false => Ok false
  | Raised => Raised
  end.

Infix "&&&" := and_then (at level 40, left associativity).

Definition threshold (q : Q) : pyval := VNum (Fin q).

(** [x * 0.99] *)
Definition py_scale (x : pyval) (c : Q) : result pyval :=
  match x with
  | VNum a => Ok (VNum (num_scale a c))
  | _ => Raised
  end.

(** [if buy: return "call"] then [if sell: return "put"] then
    [return None]; the second test is evaluated only when the first fails. *)
Definition first_signal (buy sell : result bool) : result (option direction) :=
  match buy with
  | Raised => Raised
  | Ok true => Ok (Some Call)
  | Ok false =>
      match sell with
      | Raised => Raised
      | Ok true => Ok (Some Put)
      | Ok false => Ok None
      end
  end.

Section Strategies.
Variable cfg : Settings.

Definition is_trade_signal_trend (indicators : snapshot) (price : num)
  : result (option direction) :=
  let rsi := dict_get indicators "RSI" in
  let sma := dict_get indicators "SMA" in
  stoch_k ← dict_get2 indicators "STOCHASTIC" "k";
  stoch_d ← dict_get2 indicators "STOCHASTIC" "d";
  macd ← dict_get2 indicators "MACD" "macd";
  signal ← dict_get2 indicators "MACD" "signal";
  let bb_upper := dict_get indicators "BB_upper" in
  let bb_lower := dict_get indicators "BB_lower" in
  if existsb is_none [rsi; sma; stoch_k; stoch_d; bb_upper; bb_lower] then
    Ok None
  else if MACD_INDICATOR cfg && (is_none macd || is_none signal) then
    Ok None
  else
    let buy_core :=
      py_lt rsi (threshold (RSI_BUY_THRESHOLD cfg))
      &&& py_lt stoch_k (threshold (STOCHASTIC_BUY_THRESHOLD cfg))
      &&& (floor ← py_scale sma (99 # 100); py_le floor (VNum price))
      &&& py_lt bb_lower (VNum price) in
    let sell_core :=
      py_lt (threshold (RSI_SELL_THRESHOLD cfg)) rsi
      &&& py_lt (threshold (STOCHASTIC_SELL_THRESHOLD cfg)) stoch_k
      &&& py_lt (VNum price) bb_upper in
    if MACD_INDICATOR cfg then
      first_signal (buy_core &&& py_lt signal macd)
                   (sell_core &&& py_lt macd signal)
    else
      first_signal buy_core sell_core.

Definition is_trade_signal_reversal (indicators : snapshot) (price : num)
  : result (option direction) :=
  let rsi := dict_get indicators "RSI" in
  stoch_k ← dict_get2 indicators "STOCHASTIC" "k";
  if is_none rsi || is_none stoch_k then Ok None
  else
    first_signal
      (py_le rsi (threshold 20) &&& py_le stoch_k (threshold 20))
      (py_le (threshold 80) rsi &&& py_le (threshold 80) stoch_k).

Definition is_trade_signal_breakout (indicators : snapshot) (price : num)
  : result (option direction) :=
  let sma := dict_get indicators "SMA" in
  let ema := dict_get indicators "EMA" in
  if is_none sma || is_none ema then Ok None
  else
    first_signal
      (py_lt sma (VNum price) &&& py_lt ema (VNum price))
      (py_lt (VNum price) sma &&& py_lt (VNum price) ema).

Definition get_signal_for_strategy (strategy : string) (indicators : snapshot)
    (price : num) : result (option direction) :=
  if String.eqb strategy "trend" then is_trade_signal_trend indicators price
  else if String.eqb strategy "reversal" then
    is_trade_signal_reversal indicators price
  else if String.eqb strategy "breakout" then
    is_trade_signal_breakout indicators price
  else Ok None.

End Strategies.

(* ===================================================================== *)
(** ** [execute_trades] *)
(* ===================================================================== *)

(** One entry of the broker's order record
    ([client.getprofile().json()['result']['orders']]). *)
Record broker_order : Type := {
  bo_id : broker_id;
  bo_status : string;
  bo_profit : option Q
}.

(** What the collaborators answer while one open order is checked: the
    indicator batch for its asset, the price read after subscribing, and the
    broker's order record. *)
Record order_obs : Type := {
  oo_indicators : result batch;
  oo_price : result (option num);
  oo_orders : result (list broker_order)
}.

(** What [client.buy] does. *)
Inductive buy_outcome : Type :=
| BuyRaised
| BuyReturned (check : bool) (order_id : broker_id).

(** What the collaborators answer while one candidate asset is tried: the
    price read, the outcome of opening [signals_log.csv] and writing to it,
    the balance read and what [client.buy] does. *)
Record entry_obs : Type := {
  eo_price : result (option num);
  eo_audit : result unit;
  eo_balance : result Q;
  eo_buy : Q → direction → buy_outcome
}.

(** Everything outside the program during one call of [execute_trades]. *)
Record World : Type := {
  w_now : Z;
  w_reset_balance : result Q;
  w_order_obs : nat → order_obs;
  w_entry_obs : nat → entry_obs
}.

(** [not current_price] *)
Definition price_falsy (p : option num) : bool :=
  match p with
  | None => true
  | Some (Fin q) => Qeq_bool q 0
  | Some _ => false
  end.

(** [next((o for o in order_status if o['id'] == order['id']), None)] *)
Definition find_order_info (order_status : list broker_order) (id : broker_id)
  : option broker_order :=
  List.find (λ o, broker_id_eqb (bo_id o) id) order_status.

Section ExecuteTrades.
Variable cfg : Settings.

(** Lines 168-175: the trailing stop. *)
Definition trailing_stop (order : Order) (current_price : num)
    (bb_upper bb_lower : pyval) (acc : TradingState * list Order)
  : result (TradingState * list Order) :=
  let '(st, to_remove) := acc in
  hit_call ← (match order_direction order with
              | Call => py_lt (VNum current_price) bb_lower
              | Put => Ok false
              end);
  match hit_call with
  | true => Ok (update_loss st (order_amount order), to_remove ++ [order])
  | false =>
      hit_put ← (match order_direction order with
                 | Put => py_lt bb_upper (VNum current_price)
                 | Call => Ok false
                 end);
      match hit_put with
      | true => Ok (update_loss st (order_amount order), to_remove ++ [order])
      | false => Ok (st, to_remove)
      end
  end.

(** Lines 177-185: reconciliation against the broker's record. *)
Definition reconcile (order : Order) (order_status : list broker_order)
    (acc : TradingState * list Order) : TradingState * list Order :=
  let '(st, to_remove) := acc in
  match find_order_info order_status (order_id order) with
  | Some order_info =>
      if String.eqb (bo_status order_info) "closed" then
        let profit := match bo_profit order_info with Some p => p | None => 0%Q end in
        let st' := if Qltb 0 profit then update_win st profit
                   else update_loss st (order_amount order) in
        (st', to_remove ++ [order])
      else (st, to_remove)
  | None => (st, to_remove)
  end.

(** The [try] block of the monitoring loop (lines 156-185): the state and
    [to_remove] as they are when the block ends, and whether it ended by
    raising.  Whatever was done before an exception stays done. *)
Definition check_order_body (obs : order_obs) (order : Order)
    (acc : TradingState * list Order) : TradingState * list Order * bool :=
  let '(st, to_remove) := acc in
  let asset := order_asset order in
  match oo_indicators obs with
  | Raised => (st, to_remove, true)
  | Ok current_indicators =>
      let snap := match dict_find current_indicators asset with
                  | Some s => s
                  | None => []
                  end in
      let bb_upper := dict_get snap "BB_upper" in
      let bb_lower := dict_get snap "BB_lower" in
      match oo_price obs with
      | Raised => (st, to_remove, true)
      | Ok current_price =>
          if price_falsy current_price || is_none bb_upper || is_none bb_lower
          then (st, to_remove, false)
          else
            match current_price with
            | None => (st, to_remove, false)
            | Some p =>
                match trailing_stop order p bb_upper bb_lower (st, to_remove) with
                | Raised => (st, to_remove, true)
                | Ok (st1, rem1) =>
                    match oo_orders obs with
                    | Raised => (st1, rem1, true)
                    | Ok order_status =>
                        (reconcile order order_status (st1, rem1), false)
                    end
                end
            end
      end
  end.

(** One turn of the monitoring loop (lines 155-188): the [try] block, then
    the handler, which adds the order to [to_remove]. *)
Definition check_order (obs : order_obs) (order : Order)
    (acc : TradingState * list Order) : TradingState * list Order :=
  let '(st, to_remove, raised) := check_order_body obs order acc in
  if raised then (st, to_remove ++ [order]) else (st, to_remove).

(** The loop over [trading_state.open_orders]; [i] is the position of the
    next order. *)
Fixpoint monitor_orders (obs : nat → order_obs) (i : nat) (orders : list Order)
    (acc : TradingState * list Order) : TradingState * list Order :=
  match orders with
  | [] => acc
  | order :: rest => monitor_orders obs (S i) rest (check_order (obs i) order acc)
  end.

(** Lines 153-190. *)
Definition monitoring_pass (obs : nat → order_obs) (st : TradingState)
  : TradingState :=
  let '(st1, to_remove) := monitor_orders obs 0 (open_orders st) (st, []) in
  fold_left remove_order to_remove st1.

(** Lines 229-230. *)
Definition stake_amount (st : TradingState) (balance : Q) : Q :=
  let amount := py_round2 (current_trade_percentage st / 100 * balance) in
  py_max 1 (py_min 5000 amount).

(** Line 232: [amount < 1.0 or not check_daily_loss_limit(balance)].  The
    verdict is [true] when the entry is rejected. *)
Definition entry_rejected (st : TradingState) (balance amount : Q)
  : bool * TradingState :=
  if Qltb amount 1 then (true, st)
  else
    let '(ok, st') := check_daily_loss_limit cfg st balance in
    (negb ok, st').

(** Lines 236-247: the submission step. *)
Definition submit_order (outcome : buy_outcome) (now : Z) (asset : string)
    (dir : direction) (amount : Q) (price : num) (st : TradingState)
  : TradingState :=
  match outcome with
  | BuyRaised => st
  | BuyReturned check oid =>
      if check && broker_id_truthy oid then
        update_trade_time
          (add_order st
             {| order_id := oid; order_asset := asset; order_direction := dir;
                order_amount := amount; order_open_price := price |})
          asset now
      else st
  end.

(** Lines 212-222: the row appended to [signals_log.csv].  Building the row
    reads the stochastic and MACD lines of the snapshot once more, which
    raises on a recorded value that is not a dict; [written] is the outcome
    of opening the file and writing to it.  Nothing here is inside a
    [try]. *)
Definition audit_row (written : result unit) (data : snapshot) : result unit :=
  _ ← written;
  _ ← dict_get2 data "STOCHASTIC" "k";
  _ ← dict_get2 data "STOCHASTIC" "d";
  _ ← dict_get2 data "MACD" "macd";
  _ ← dict_get2 data "MACD" "signal";
  Ok tt.

(** The body of the loop over [assets] (lines 195-247).  An exception
    outside the [try] around [client.buy] leaves the function; none of
    them can follow a change of state within the same turn. *)
Definition try_entry (now : Z) (obs : entry_obs) (indicators : batch)
    (asset : string) (st : TradingState) : result TradingState :=
  if existsb (λ o, String.eqb (order_asset o) asset) (open_orders st) then Ok st
  else if now - default 0 (last_trade_time st !! asset) <? TRADE_COOLDOWN cfg
  then Ok st
  else
    let data := match dict_find indicators asset with
                | Some s => s
                | None => []
                end in
    price ← eo_price obs;
    match price with
    | None => Ok st
    | Some price =>
        signal ← get_signal_for_strategy cfg (STRATEGY cfg) data price;
        _ ← audit_row (eo_audit obs) data;
        match signal with
        | None => Ok st
        | Some dir =>
            balance ← eo_balance obs;
            let amount := stake_amount st balance in
            match entry_rejected st balance amount with
            | (true, st') => Ok st'
            | (false, st') =>
                Ok (submit_order (eo_buy obs amount dir) now asset dir amount
                      price st')
            end
        end
    end.

(** The loop over [assets]; the flag tells whether it ran to its end. *)
Fixpoint entry_pass (now : Z) (obs : nat → entry_obs) (indicators : batch)
    (i : nat) (assets : list string) (st : TradingState) : TradingState * bool :=
  match assets with
  | [] => (st, true)
  | asset :: rest =>
      match try_entry now (obs i) indicators asset st with
      | Ok st' => entry_pass now obs indicators (S i) rest st'
      | Raised => (st, false)
      end
  end.

Definition reset_due (st : TradingState) (now : Z) : bool :=
  match last_reset_time st with
  | None => true
  | Some t => 86400 <=? now - t
  end.

Definition execute_trades (w : World) (assets : list string)
    (indicators : batch) (st : TradingState) : TradingState * bool :=
  if negb (TRADE_ENABLED cfg) || (length assets =? 0)%nat then (st, true)
  else
    let now := w_now w in
    match (if reset_due st now
           then balance ← w_reset_balance w; Ok (reset_daily cfg st balance now)
           else Ok st) with
    | Raised => (st, false)
    | Ok st0 =>
        let st1 := monitoring_pass (w_order_obs w) st0 in
        let st2 := adjust_trade_percentage cfg st1 in
        entry_pass now (w_entry_obs w) indicators 0 assets st2
    end.

End ExecuteTrades.

(* ===================================================================== *)
(** ** Sequences of state operations *)
(* ===================================================================== *)

(** The operations of [TradingState] that touch the streak counters or the
    trade percentage, in the order a run applies them. *)
Inductive state_op : Type :=
| OpLoss (amount : Q)
| OpWin (profit : Q)
| OpAdjust
| OpCheck (balance : Q)
| OpReset (balance : Q) (current_time : Z).

Definition apply_op (cfg : Settings) (s : TradingState) (op : state_op)
  : TradingState :=
  match op with
  | OpLoss amount => update_loss s amount
  | OpWin profit => update_win s profit
  | OpAdjust => adjust_trade_percentage cfg s
  | OpCheck balance => snd (check_daily_loss_limit cfg s balance)
  | OpReset balance t => reset_daily cfg s balance t
  end.

Definition run_ops (cfg : Settings) (ops : list state_op) (s : TradingState)
  : TradingState :=
  fold_left (apply_op cfg) ops s.

(** [MIN <= current_trade_percentage <= MAX] *)
Definition percentage_in_range (cfg : Settings) (s : TradingState) : Prop :=
  (TRADE_PERCENTAGE_MIN cfg <= current_trade_percentage s)%Q
  ∧ (current_trade_percentage s <= TRADE_PERCENTAGE_MAX cfg)%Q.

(* ===================================================================== *)
(** ** A concrete configuration and concrete collaborators *)
(* ===================================================================== *)

Definition sample_settings : Settings :=
  {| TRADE_ENABLED := true;
     TRADE_PERCENTAGE := 2; TRADE_PERCENTAGE_MIN := 1; TRADE_PERCENTAGE_MAX := 5;
     TRADE_DURATION := 1; TRADE_COOLDOWN := 60;
     DAILY_LOSS_LIMIT := 10;
     CONSECUTIVE_LOSSES_THRESHOLD := 2; CONSECUTIVE_WINS_THRESHOLD := 2;
     STRATEGY := "trend";
     RSI_BUY_THRESHOLD := 30; RSI_SELL_THRESHOLD := 70;
     STOCHASTIC_BUY_THRESHOLD := 20; STOCHASTIC_SELL_THRESHOLD := 80;
     RSI_INDICATOR := true; RSI_PERIOD := 14; RSI_MIN := 0; RSI_MAX := 100;
     SMA_INDICATOR := true; SMA_PERIOD := 20; SMA_MIN := 0; SMA_MAX := 1000000;
     EMA_INDICATOR := false; EMA_PERIOD := 20; EMA_MIN := 0; EMA_MAX := 1000000;
     STOCHASTIC_INDICATOR := true;
     STOCHASTIC_K_PERIOD := 14; STOCHASTIC_D_PERIOD := 3;
     MACD_INDICATOR := false;
     MACD_FAST_PERIOD := 12; MACD_SLOW_PERIOD := 26; MACD_SIGNAL_PERIOD := 9 |}.

(** A [talib] whose outputs end in RSI 25, SMA 100, %K 15, %D 20 and the
    bands 105 and 95. *)
Definition sample_talib : Talib :=
  {| talib_RSI := λ _ _, Ok (VNum (Fin 25));
     talib_SMA := λ _ _, Ok (VNum (Fin 100));
     talib_EMA := λ _ _, Ok (VNum (Fin 100));
     talib_STOCH := λ _ _ _ _ _, Ok (VNum (Fin 15), VNum (Fin 20));
     talib_MACD := λ _ _ _ _, Ok (VNum (Fin 0), VNum (Fin 0));
     talib_BBANDS := λ _ _ _ _, Ok (VNum (Fin 105), VNum (Fin 95)) |}.

(** The same, except that the last %K is NaN. *)
Definition nan_talib : Talib :=
  {| talib_RSI := talib_RSI sample_talib;
     talib_SMA := talib_SMA sample_talib;
     talib_EMA := talib_EMA sample_talib;
     talib_STOCH := λ _ _ _ _ _, Ok (VNum NaN, VNum (Fin 20));
     talib_MACD := talib_MACD sample_talib;
     talib_BBANDS := talib_BBANDS sample_talib |}.

Definition sample_candle : Candle :=
  {| close := Fin 100; cmax := Fin 101; cmin := Fin 99 |}.

(** A market-data source that answers every request with fifty candles. *)
Definition sample_source : CandleSource :=
  λ _ _ _ _, FetchData (replicate 50 sample_candle).

(** The batch the pipeline computes for one asset from the sample
    collaborators. *)
Definition sample_batch : batch :=
  co_results
    (calculate_indicators sample_settings sample_talib sample_source
       ["EURUSD-OTC"] 60 0 candle_cache_init).

(** The snapshot of the testable-property example, written with the bands as
    top-level keys (the layout [trade.py] reads). *)
Definition flat_snapshot : snapshot :=
  [("RSI", VNum (Fin 25)); ("SMA", VNum (Fin 100));
   ("STOCHASTIC", VDict [("k", VNum (Fin 15)); ("d", VNum (Fin 20))]);
   ("BB_upper", VNum (Fin 105)); ("BB_lower", VNum (Fin 95))].

Definition sample_order : Order :=
  {| order_id := IdInt 7; order_asset := "EURUSD-OTC"; order_direction := Call;
     order_amount := 10; order_open_price := Fin 100 |}.

(** A state after a daily reset at balance 1000 with [sample_order] open. *)
Definition sample_state : TradingState :=
  {| open_orders := [sample_order];
     last_trade_time := {[ "EURUSD-OTC" := 0 ]};
     daily_loss := 0;
     initial_daily_balance := 1000;
     last_reset_time := Some 0;
     consecutive_losses := 0;
     consecutive_wins := 1;
     current_trade_percentage := 2 |}.

(** A market-data source whose every call fails with an error that is not
    retried. *)
Definition failing_source : CandleSource := λ _ _ _ _, FetchFatal.

(** A batch that carries the bands as top-level keys of the snapshot. *)
Definition flat_batch : batch := [("EURUSD-OTC", flat_snapshot)].

(** While [sample_order] is checked: the pipeline's batch, a price of 94
    (under the lower band of 95), and a broker record without the order. *)
Definition stop_obs (indicators : batch) : nat → order_obs :=
  λ _, {| oo_indicators := Ok indicators;
          oo_price := Ok (Some (Fin 94));
          oo_orders := Ok [] |}.

(** While an order is checked: the broker's record cannot be read. *)
Definition broken_profile_obs : nat → order_obs :=
  λ _, {| oo_indicators := Ok flat_batch;
          oo_price := Ok (Some (Fin 100));
          oo_orders := Raised |}.

(** How many entries of [l] equal [o]. *)
Definition count_order (o : Order) (l : list Order) : nat :=
  length (List.filter (order_eqb o) l).

(** Whether the check of the order at position [i] of [open_orders] ends in
    the exception handler during the monitoring pass that starts in [st]. *)
Definition check_raised (obs : nat → order_obs) (st : TradingState) (i : nat)
    (order : Order) : bool :=
  snd (check_order_body (obs i) order
         (monitor_orders obs 0 (take i (open_orders st)) (st, []))).

(** Every sub-value of a structured indicator value is finite. *)
Definition all_finite (kv : list (string * pyval)) : bool :=
  forallb (λ e, match snd e with VNum x => num_finite x | _ => false end) kv.

(** The keys the pipeline can write into a snapshot. *)
Definition indicator_names : list string :=
  ["RSI"; "SMA"; "EMA"; "STOCHASTIC"; "MACD"; "BOLLINGER"].

(** What holds of every entry the pipeline writes: its key is an indicator
    name, and a structured value has passed the test of its sub-values. *)
Definition entry_ok (name : string) (v : pyval) : Prop :=
  name ∈ indicator_names
  ∧ ∀ kv, v = VDict kv → all_numbers kv = true.

Definition snapshot_inv (P : string → pyval → Prop) (snap : snapshot) : Prop :=
  ∀ name v, dict_find snap name = Some v → P name v.

Definition batch_inv (P : string → pyval → Prop) (b : batch) : Prop :=
  ∀ asset snap, dict_find b asset = Some snap → snapshot_inv P snap.

(** How the monitoring loop moves its accumulator: the order list of the
    state stays as it is and [to_remove] only grows at its end. *)
Definition acc_extends (acc acc' : TradingState * list Order) : Prop :=
  open_orders (fst acc') = open_orders (fst acc)
  ∧ ∃ extra, snd acc' = snd acc ++ extra.

(** [remove_order] seen on the order list alone. *)
Definition remove_from (l : list Order) (x : Order) : list Order :=
  match list_remove l x with
  | Some l' => l'
  | None => l
  end.

(** The two conditions under which [check_daily_loss_limit] stops trading:
    [loss_pct >= DAILY_LOSS_LIMIT or consecutive_losses >= 3]. *)
Definition loss_limit_hit (cfg : Settings) (s : TradingState) : Prop :=
  (DAILY_LOSS_LIMIT cfg <= loss_pct s)%Q ∨ 3 <= consecutive_losses s.

(** A state whose recorded initial balance is negative, after three losses
    in a row. *)
Definition overdrawn_state : TradingState :=
  {| open_orders := [];
     last_trade_time := ∅;
     daily_loss := 0;
     initial_daily_balance := -100;
     last_reset_time := Some 0;
     consecutive_losses := 3;
     consecutive_wins := 0;
     current_trade_percentage := 2 |}.

(* ===================================================================== *)
(** ** Vocabulary for the properties of the state machine *)
(* ===================================================================== *)

(** Both streak counters are natural numbers and at most one of them is
    running. *)
Definition streaks_exclusive (s : TradingState) : Prop :=
  0 <= consecutive_losses s ∧ 0 <= consecutive_wins s
  ∧ (consecutive_losses s = 0 ∨ consecutive_wins s = 0).




(* ===================================================================== *)
(** ** Vocabulary for the properties of the pipeline *)
(* ===================================================================== *)

(** The acceptance range configured for a single-valued indicator. *)
Definition scalar_bounds (cfg : Settings) (name : string) : option (Q * Q) :=
  if String.eqb name "RSI" then Some (RSI_MIN cfg, RSI_MAX cfg)
  else if String.eqb name "SMA" then Some (SMA_MIN cfg, SMA_MAX cfg)
  else if String.eqb name "EMA" then Some (EMA_MIN cfg, EMA_MAX cfg)
  else None.

(** What holds of a number the pipeline writes under [name]: it passed the
    range test of a configured indicator of that name. *)
Definition scalar_ok (cfg : Settings) (name : string) (v : pyval) : Prop :=
  ∀ x, v = VNum x →
    ∃ c, c ∈ indicators_config cfg ∧ ic_name c = name
         ∧ num_leb (ic_min c) x && num_leb x (ic_max c) = true.

(** What one turn of the inner loop writes under the name of [c]. *)
Definition recorded_value (tl : Talib) (closes highs lows : list num)
    (c : indicator_config) : pyval :=
  match compute_value tl closes highs lows c with
  | Ok value => stored_value value (ic_min c) (ic_max c)
  | Raised => VNone
  end.

(** A [talib] whose stochastic oscillator raises. *)
Definition broken_stoch_talib : Talib :=
  {| talib_RSI := talib_RSI sample_talib;
     talib_SMA := talib_SMA sample_talib;
     talib_EMA := talib_EMA sample_talib;
     talib_STOCH := λ _ _ _ _ _, Raised;
     talib_MACD := talib_MACD sample_talib;
     talib_BBANDS := talib_BBANDS sample_talib |}.

(* ===================================================================== *)
(** ** Vocabulary for the properties of the strategies and of a cycle *)
(* ===================================================================== *)




(** A snapshot in which the stochastic oscillator is recorded as
    unavailable. *)
Definition no_stoch_snapshot : snapshot :=
  [("RSI", VNum (Fin 25)); ("SMA", VNum (Fin 100)); ("STOCHASTIC", VNone);
   ("BOLLINGER",
    VDict [("BB_upper", VNum (Fin 105)); ("BB_lower", VNum (Fin 95))])].

(** While a candidate is tried: a price of 101, a balance of 1000, and a
    broker that accepts every order under the id 9. *)
Definition willing_entry_obs : nat → entry_obs :=
  λ _, {| eo_price := Ok (Some (Fin 101));
          eo_audit := Ok tt;
          eo_balance := Ok 1000%Q;
          eo_buy := λ _ _, BuyReturned true (IdInt 9) |}.

(** [sample_settings] with the reversal strategy. *)
Definition reversal_settings : Settings :=
  {| TRADE_ENABLED := true;
     TRADE_PERCENTAGE := 2; TRADE_PERCENTAGE_MIN := 1; TRADE_PERCENTAGE_MAX := 5;
     TRADE_DURATION := 1; TRADE_COOLDOWN := 60;
     DAILY_LOSS_LIMIT := 10;
     CONSECUTIVE_LOSSES_THRESHOLD := 2; CONSECUTIVE_WINS_THRESHOLD := 2;
     STRATEGY := "reversal";
     RSI_BUY_THRESHOLD := 30; RSI_SELL_THRESHOLD := 70;
     STOCHASTIC_BUY_THRESHOLD := 20; STOCHASTIC_SELL_THRESHOLD := 80;
     RSI_INDICATOR := true; RSI_PERIOD := 14; RSI_MIN := 0; RSI_MAX := 100;
     SMA_INDICATOR := true; SMA_PERIOD := 20; SMA_MIN := 0; SMA_MAX := 1000000;
     EMA_INDICATOR := false; EMA_PERIOD := 20; EMA_MIN := 0; EMA_MAX := 1000000;
     STOCHASTIC_INDICATOR := true;
     STOCHASTIC_K_PERIOD := 14; STOCHASTIC_D_PERIOD := 3;
     MACD_INDICATOR := false;
     MACD_FAST_PERIOD := 12; MACD_SLOW_PERIOD := 26; MACD_SIGNAL_PERIOD := 9 |}.

(** What the monitoring pass leaves alone: the cooldown clock, the figures
    of the daily reset and the trade percentage. *)
Definition monitoring_frame (s s' : TradingState) : Prop :=
  last_trade_time s' = last_trade_time s
  ∧ initial_daily_balance s' = initial_daily_balance s
  ∧ last_reset_time s' = last_reset_time s
  ∧ current_trade_percentage s' = current_trade_percentage s.

(** What the entry pass leaves alone: the loss ledger, the figures of the
    daily reset and the streak counters. *)
Definition entry_frame (s s' : TradingState) : Prop :=
  daily_loss s' = daily_loss s
  ∧ initial_daily_balance s' = initial_daily_balance s
  ∧ last_reset_time s' = last_reset_time s
  ∧ consecutive_losses s' = consecutive_losses s
  ∧ consecutive_wins s' = consecutive_wins s.

(** No two tracked orders are on the same instrument. *)
Definition one_order_per_asset (s : TradingState) : Prop :=
  NoDup (map order_asset (open_orders s)).

(** An order as the entry pass places it: on a candidate instrument, with a
    stake between 1 and 5000. *)
Definition placed_order (assets : list string) (o : Order) : Prop :=
  order_asset o ∈ assets
  ∧ (1 <= order_amount o)%Q ∧ (order_amount o <= 5000)%Q.

(** While [sample_order] is checked: bands as top-level keys, a price of 94
    under the lower band, and a broker record that lists the order as closed
    with a profit of zero. *)
Definition stopped_and_closed_obs : order_obs :=
  {| oo_indicators := Ok flat_batch;
     oo_price := Ok (Some (Fin 94));
     oo_orders := Ok [ {| bo_id := IdInt 7; bo_status := "closed";
                          bo_profit := Some 0%Q |} ] |}.

(** A world for one cycle at time 90000: the balance read for the daily
    reset is 1000, every order check sees the pipeline's batch and a price of
    94, every candidate sees [willing_entry_obs]. *)
Definition sample_world : World :=
  {| w_now := 90000;
     w_reset_balance := Ok 1000%Q;
     w_order_obs := stop_obs sample_batch;
     w_entry_obs := willing_entry_obs |}.

(* ===================================================================== *)
(** ** The outer loop ([main.py]) *)
(* ===================================================================== *)

(** The test that opens the loop body (line 93): [22 <= utc_hour <= 2]. *)
Definition low_liquidity_period (utc_hour : Z) : bool :=
  (22 <=? utc_hour) && (utc_hour <=? 2).

(** [min(5 * (2 ** attempt), 60)] (line 62). *)
Definition reconnect_delay (attempt : Z) : Z := Z.min (5 * 2 ^ attempt) 60.

(** One attempt of [reconnect]: [client.connect()], [check_connection] and
    the profile reads made for the log.  It succeeds, or the check answers
    false, or something raises (which the loop catches). *)
Inductive attempt_outcome : Type :=
| AttemptOk
| AttemptCheckFailed
| AttemptRaised.

(** The loop of [reconnect] from attempt number [attempt] on, with [left]
    attempts to go: whether it reconnected, and the delays it slept, in
    order.  It sleeps after every attempt that did not succeed. *)
Fixpoint reconnect_loop (outcome : Z → attempt_outcome) (attempt : Z) (left : nat)
  : bool * list Z :=
  match left with
  | O => (false, [])
  | S left' =>
      match outcome attempt with
      | AttemptOk => (true, [])
      | _ =>
          let '(r, slept) := reconnect_loop outcome (attempt + 1) left' in
          (r, reconnect_delay attempt :: slept)
      end
  end.

(** [for attempt in range(1, max_attempts + 1)] *)
Definition reconnect (outcome : Z → attempt_outcome) (max_attempts : Z)
  : bool * list Z :=
  reconnect_loop outcome 1 (Z.to_nat max_attempts).

(* ===================================================================== *)
(** ** Listing the tradable instruments ([assets.py]) *)
(* ===================================================================== *)

(** The settings [assets.py] reads besides the thresholds. *)
Record AssetSettings : Type := {
  MIN_PAYOUT : Q;
  ASSETS : list string;
  SORT_BY : string;
  SORT_ORDER : string
}.

(** [name.endswith(suffix)] *)
Definition ends_with (name suffix : string) : bool :=
  let n := String.length name in
  let m := String.length suffix in
  (m <=? n)%nat && String.eqb (String.substring (n - m) m name) suffix.

(** [a in names] *)
Definition name_in (a : string) (names : list string) : bool :=
  existsb (String.eqb a) names.

(** The truth value of a string. *)
Definition nonempty (a : string) : bool := negb (String.eqb a EmptyString).

(** [get_realtime_prices]: one [fetch_price] task per asset.  The [i]-th task
    ends with the float [extract_price] made of the last candle's close, with
    nothing, or with an exception, which the task swallows; only a number is
    stored. *)
Fixpoint fetch_prices (fetch_price : nat → result (option num)) (i : nat)
    (assets : list string) (prices : list (string * num)) : list (string * num) :=
  match assets with
  | [] => prices
  | asset :: rest =>
      let prices' :=
        match fetch_price i with
        | Ok (Some price) => dict_set prices asset price
        | _ => prices
        end in
      fetch_prices fetch_price (S i) rest prices'
  end.

Definition get_realtime_prices (fetch_price : nat → result (option num))
    (assets : list string) : list (string * num) :=
  fetch_prices fetch_price O assets [].

(** What [list_open_otc_assets] obtains from the broker and from the
    pipeline: the [open] table of the profile (or an exception), for the
    [i]-th call of [client.billing] the payout under [result] ([None] when
    [result] is falsy, or an exception), the outcome of the [i]-th price
    task, and the batch [calculate_indicators] returns within the timeout
    (or an exception). *)
Record AssetsWorld : Type := {
  aw_open_assets : result (list (string * bool));
  aw_billing : nat → result (option pyval);
  aw_fetch_price : nat → result (option num);
  aw_indicators : result batch
}.

(** Why a candidate is kept or discarded by the loop of lines 82-116. *)
Inductive verdict : Type :=
| Tradable
| PriceInvalid
| MissingIndicators
| InvalidStochastic
| NoSignal.

(** [tradable.sort(key=..., reverse=...)]: a stable sort that compares keys
    with [<] only.  On keys that [<] orders totally (no NaN among them) the
    stable order is the one outcome, and insertion gives it. *)
Fixpoint sort_insert {A : Type} (key : A → num) (reverse : bool) (x : A)
    (l : list A) : list A :=
  match l with
  | [] => [x]
  | y :: rest =>
      if (if reverse then num_ltb (key x) (key y) else num_ltb (key y) (key x))
      then y :: sort_insert key reverse x rest
      else x :: l
  end.

Definition list_sort {A : Type} (key : A → num) (reverse : bool) (l : list A)
  : list A :=
  fold_right (sort_insert key reverse) [] l.

Section AssetListing.
Variable cfg : Settings.
Variable acfg : AssetSettings.
(** [str.strip] *)
Variable strip : string → string.

(** [[name for name, is_open in open_assets.items()
      if name.endswith('-OTC') and is_open]] *)
Definition otc_names_of (open_assets : list (string * bool)) : list string :=
  map fst (List.filter (λ e, ends_with (fst e) "-OTC" && snd e) open_assets).

(** Lines 54-56. *)
Definition apply_assets_filter (otc_names : list string) : list string :=
  if negb (match ASSETS acfg with [] => true | _ => false end)
     && existsb (λ a, nonempty (strip a)) (ASSETS acfg)
  then
    let selected :=
      map strip (List.filter (λ a, nonempty (strip a)) (ASSETS acfg)) in
    List.filter (λ a, name_in a otc_names) selected
  else otc_names.

(** Line 63: the payout read from the answer, [0] when [result] is falsy. *)
Definition billed_payout (answer : result (option pyval)) : result pyval :=
  match answer with
  | Ok (Some payout) => Ok payout
  | Ok None => Ok (VNum (Fin 0))
  | Raised => Raised
  end.

(** Lines 61-69 for one asset: the payout under which it becomes a
    candidate, if it does. *)
Definition candidate_payout (answer : result (option pyval)) : option num :=
  match billed_payout answer with
  | Ok (VNum payout) =>
      if num_leb (Fin (MIN_PAYOUT acfg)) payout then Some payout else None
  | _ => None
  end.

(** The loop of lines 60-69; [i] counts the calls of [client.billing]. *)
Fixpoint collect_candidates (billing : nat → result (option pyval)) (i : nat)
    (otc_names : list string) : list (string * num) :=
  match otc_names with
  | [] => []
  | asset :: rest =>
      match candidate_payout (billing i) with
      | Some payout => (asset, payout) :: collect_candidates billing (S i) rest
      | None => collect_candidates billing (S i) rest
      end
  end.

(** [not MACD_INDICATOR or (macd is not None and signal is not None and
    <comparison>)] *)
Definition macd_guard (macd signal : pyval) (comparison : result bool)
  : result bool :=
  if negb (MACD_INDICATOR cfg) then Ok true
  else if is_none macd then Ok false
  else if is_none signal then Ok false
  else comparison.

(** [band is None or <comparison>] *)
Definition band_guard (band : pyval) (comparison : result bool) : result bool :=
  if is_none band then Ok true else comparison.

(** The body of the loop of lines 82-116 for one candidate, given its
    snapshot [vals] and [prices.get(asset)]. *)
Definition prefilter (vals : snapshot) (price : option num) : result verdict :=
  let rsi := dict_get vals "RSI" in
  let sma := dict_get vals "SMA" in
  stoch_k ← dict_get2 vals "STOCHASTIC" "k";
  stoch_d ← dict_get2 vals "STOCHASTIC" "d";
  macd ← dict_get2 vals "MACD" "macd";
  signal ← dict_get2 vals "MACD" "signal";
  let bb_upper := dict_get vals "BB_upper" in
  let bb_lower := dict_get vals "BB_lower" in
  match price with
  | None => Ok PriceInvalid
  | Some price =>
      if num_ltb price (Fin (1 # 10000)) then Ok PriceInvalid
      else if is_none rsi || is_none sma then Ok MissingIndicators
      else if is_none stoch_k || is_none stoch_d then Ok InvalidStochastic
      else
        buy ← py_lt rsi (threshold (RSI_BUY_THRESHOLD cfg))
              &&& py_lt stoch_k (threshold (STOCHASTIC_BUY_THRESHOLD cfg))
              &&& macd_guard macd signal (py_lt signal macd)
              &&& band_guard bb_lower (py_lt bb_lower (VNum price));
        sell ← py_lt (threshold (RSI_SELL_THRESHOLD cfg)) rsi
               &&& py_lt (threshold (STOCHASTIC_SELL_THRESHOLD cfg)) stoch_k
               &&& macd_guard macd signal (py_lt macd signal)
               &&& band_guard bb_upper (py_lt (VNum price) bb_upper);
        Ok (if buy || sell then Tradable else NoSignal)
  end.

(** [indicators.get(asset, {})] *)
Definition vals_of (indicators : batch) (asset : string) : snapshot :=
  match dict_find indicators asset with
  | Some vals => vals
  | None => []
  end.

(** The loop of lines 82-116: the candidates that are kept, in order; an
    exception raised for one candidate leaves the function. *)
Fixpoint prefilter_candidates (indicators : batch) (prices : list (string * num))
    (candidates : list (string * num)) : result (list (string * num)) :=
  match candidates with
  | [] => Ok []
  | (asset, payout) :: rest =>
      v ← prefilter (vals_of indicators asset) (dict_find prices asset);
      tradable ← prefilter_candidates indicators prices rest;
      Ok (match v with
          | Tradable => (asset, payout) :: tradable
          | _ => tradable
          end)
  end.

(** [x[1] if sort_by == 'payout' else prices.get(x[0], 0)] *)
Definition sort_key (sort_by : string) (prices : list (string * num))
    (x : string * num) : num :=
  if String.eqb sort_by "payout" then snd x
  else match dict_find prices (fst x) with
       | Some price => price
       | None => Fin 0
       end.

(** The candidates of lines 59-69 for an [open] table. *)
Definition candidates_of (w : AssetsWorld) (open_assets : list (string * bool))
  : list (string * num) :=
  collect_candidates (aw_billing w) O
    (apply_assets_filter (otc_names_of open_assets)).

Definition list_open_otc_assets (w : AssetsWorld)
  : result (list (string * num)) :=
  let sort_by :=
    if String.eqb (SORT_BY acfg) "payout" || String.eqb (SORT_BY acfg) "price"
    then SORT_BY acfg else "payout" in
  let sort_order :=
    if String.eqb (SORT_ORDER acfg) "asc" || String.eqb (SORT_ORDER acfg) "desc"
    then SORT_ORDER acfg else "desc" in
  match aw_open_assets w with
  | Raised => Ok []
  | Ok open_assets =>
      let candidates := candidates_of w open_assets in
      match candidates with
      | [] => Ok []
      | _ =>
          let assets_list := map fst candidates in
          let prices := get_realtime_prices (aw_fetch_price w) assets_list in
          indicators ← aw_indicators w;
          tradable ← prefilter_candidates indicators prices candidates;
          Ok (list_sort (sort_key sort_by prices)
                (String.eqb sort_order "desc") tradable)
      end
  end.

End AssetListing.

(** Two instruments are wanted, payouts of at least 80 are asked for, and the
    listing is by payout, highest first. *)
Definition sample_asset_settings : AssetSettings :=
  {| MIN_PAYOUT := 80;
     ASSETS := [" EURUSD-OTC"; "GBPUSD-OTC "; " "];
     SORT_BY := "payout";
     SORT_ORDER := "desc" |}.

(** A [strip] for entries padded with blanks. *)
Fixpoint drop_blanks (a : string) : string :=
  match a with
  | String c rest => if Ascii.eqb c (Ascii.ascii_of_nat 32) then drop_blanks rest else a
  | EmptyString => a
  end.

Fixpoint string_rev (a acc : string) : string :=
  match a with
  | EmptyString => acc
  | String c rest => string_rev rest (String c acc)
  end.

Definition strip_blanks (a : string) : string :=
  string_rev (drop_blanks (string_rev (drop_blanks a) EmptyString)) EmptyString.

(** The indicators of the sample collaborators for the two instruments. *)
Definition two_asset_batch (tl : Talib) : batch :=
  co_results
    (calculate_indicators sample_settings tl sample_source
       ["EURUSD-OTC"; "GBPUSD-OTC"] 60 0 candle_cache_init).

(** A broker with three open instruments, one of them not OTC, that pays 85
    on the first billing call and 90 on the second, and quotes 101. *)
Definition sample_assets_world (tl : Talib) : AssetsWorld :=
  {| aw_open_assets :=
       Ok [("EURUSD-OTC", true); ("EURUSD", true); ("GBPUSD-OTC", true);
           ("USDJPY-OTC", false)];
     aw_billing := λ i, Ok (Some (VNum (Fin (if (i =? 0)%nat then 85 else 90))));
     aw_fetch_price := λ _, Ok (Some (Fin 101));
     aw_indicators := Ok (two_asset_batch tl) |}.

(* ===================================================================== *)
(** * Properties *)
(* ===================================================================== *)

(** ** Comparisons, [max] and [min] *)

Lemma Qltb_lt (a b : Q) : Qltb a b = true ↔ (a < b)%Q.
Proof.
  unfold Qltb. rewrite negb_true_iff, <- not_true_iff_false, Qle_bool_iff.
  split; [apply Qnot_le_lt | apply Qlt_not_le].
Qed.

Lemma Qltb_ge (a b : Q) : Qltb a b = false ↔ (b <= a)%Q.
Proof.
  unfold Qltb. rewrite negb_false_iff. apply Qle_bool_iff.
Qed.

Lemma py_max_lower (a b : Q) : (a <= py_max a b)%Q.
Proof.
  unfold py_max. destruct (Qltb a b) eqn:E.
  - apply Qltb_lt in E. lra.
  - lra.
Qed.

Lemma py_max_upper (a b c : Q) : (a <= c)%Q → (b <= c)%Q → (py_max a b <= c)%Q.
Proof. unfold py_max. destruct (Qltb a b); auto. Qed.

Lemma py_max_right (a b : Q) : (b <= py_max a b)%Q.
Proof.
  unfold py_max. destruct (Qltb a b) eqn:E.
  - lra.
  - apply Qltb_ge in E. lra.
Qed.

Lemma py_min_upper (a b : Q) : (py_min a b <= a)%Q.
Proof.
  unfold py_min. destruct (Qltb b a) eqn:E.
  - apply Qltb_lt in E. lra.
  - lra.
Qed.

Lemma py_min_lower (a b c : Q) : (c <= a)%Q → (c <= b)%Q → (c <= py_min a b)%Q.
Proof. unfold py_min. destruct (Qltb b a); auto. Qed.

(** ** The stake and the entry gate *)

Lemma stake_amount_bounds (st : TradingState) (balance : Q) :
  (1 <= stake_amount st balance)%Q ∧ (stake_amount st balance <= 5000)%Q.
Proof.
  unfold stake_amount. split.
  - apply py_max_lower.
  - apply py_max_upper; [lra | apply py_min_upper].
Qed.

(** C10.  Whatever the balance and the current trade percentage, the stake
    computed by rounding to two decimals and clamping lies in the closed
    interval from 1.00 to 5000.00; hence the test [amount < 1.0] of the
    entry gate is never true, and the gate rejects an entry exactly when
    [check_daily_loss_limit] returns false, leaving the state that call
    leaves. *)
Theorem C10_stake_within_bounds (cfg : Settings) (st : TradingState) (balance : Q) :
  let amount := stake_amount st balance in
  (1 <= amount)%Q ∧ (amount <= 5000)%Q
  ∧ Qltb amount 1 = false
  ∧ entry_rejected cfg st balance amount
    = (negb (fst (check_daily_loss_limit cfg st balance)),
       snd (check_daily_loss_limit cfg st balance)).
Proof.
  intros amount.
  destruct (stake_amount_bounds st balance) as [Hlo Hhi].
  assert (Hnot : Qltb amount 1 = false) by (apply Qltb_ge; exact Hlo).
  repeat split; try assumption.
  unfold entry_rejected. rewrite Hnot.
  destruct (check_daily_loss_limit cfg st balance); reflexivity.
Qed.

(** ** The daily loss gate *)

Lemma loss_limit_hit_bool (cfg : Settings) (s : TradingState) :
  Qle_bool (DAILY_LOSS_LIMIT cfg) (loss_pct s) || (3 <=? consecutive_losses s) = true
  ↔ loss_limit_hit cfg s.
Proof.
  unfold loss_limit_hit.
  rewrite orb_true_iff, Qle_bool_iff, Z.leb_le. reflexivity.
Qed.




(** ** Streak-based sizing *)

Lemma adjust_in_range (cfg : Settings) (s : TradingState) :
  (0 <= TRADE_PERCENTAGE_MIN cfg)%Q →
  (TRADE_PERCENTAGE_MIN cfg <= TRADE_PERCENTAGE cfg)%Q →
  (TRADE_PERCENTAGE cfg <= TRADE_PERCENTAGE_MAX cfg)%Q →
  percentage_in_range cfg s →
  percentage_in_range cfg (adjust_trade_percentage cfg s).
Proof.
  intros Hmin Hlo Hhi [Hs1 Hs2]. unfold adjust_trade_percentage, percentage_in_range.
  destruct (CONSECUTIVE_LOSSES_THRESHOLD cfg <=? consecutive_losses s); simpl.
  - split; [apply py_max_lower | apply py_max_upper; lra].
  - destruct (CONSECUTIVE_WINS_THRESHOLD cfg <=? consecutive_wins s); simpl.
    + split; [apply py_min_lower; lra | apply py_min_upper].
    + split; assumption.
Qed.

Lemma check_in_range (cfg : Settings) (s : TradingState) (balance : Q) :
  (0 <= TRADE_PERCENTAGE_MIN cfg)%Q →
  (TRADE_PERCENTAGE_MIN cfg <= TRADE_PERCENTAGE_MAX cfg)%Q →
  percentage_in_range cfg s →
  percentage_in_range cfg (snd (check_daily_loss_limit cfg s balance)).
Proof.
  intros Hmin Hmm [Hs1 Hs2]. unfold check_daily_loss_limit, percentage_in_range.
  destruct (Qltb 0 (initial_daily_balance s)); simpl; [| tauto].
  destruct (Qle_bool _ _ || _); simpl; [| tauto].
  split; [apply py_max_lower | apply py_max_upper; lra].
Qed.

Lemma apply_op_in_range (cfg : Settings) (s : TradingState) (op : state_op) :
  (0 <= TRADE_PERCENTAGE_MIN cfg)%Q →
  (TRADE_PERCENTAGE_MIN cfg <= TRADE_PERCENTAGE cfg)%Q →
  (TRADE_PERCENTAGE cfg <= TRADE_PERCENTAGE_MAX cfg)%Q →
  percentage_in_range cfg s →
  percentage_in_range cfg (apply_op cfg s op).
Proof.
  intros Hmin Hlo Hhi Hs. destruct op; simpl.
  - exact Hs.
  - exact Hs.
  - by apply adjust_in_range.
  - apply check_in_range; [assumption | lra | assumption].
  - split; simpl; assumption.
Qed.

(** C6.  With a base percentage between the minimum and the maximum (stake
    percentages, none of them negative), the trading state the program
    creates keeps its current trade percentage between the minimum and the
    maximum under every sequence of [update_loss], [update_win] and
    [adjust_trade_percentage] (and also of [check_daily_loss_limit] and
    [reset_daily]): losses never push it under the minimum and wins never
    lift it over the maximum.  The same holds from any state whose
    percentage is in that range.  A single win sets [consecutive_losses] to
    0, whatever streak came before. *)
Theorem C6_percentage_stays_in_range (cfg : Settings) (ops : list state_op) :
  (0 <= TRADE_PERCENTAGE_MIN cfg)%Q →
  (TRADE_PERCENTAGE_MIN cfg <= TRADE_PERCENTAGE cfg)%Q →
  (TRADE_PERCENTAGE cfg <= TRADE_PERCENTAGE_MAX cfg)%Q →
  percentage_in_range cfg (run_ops cfg ops (new_trading_state cfg))
  ∧ (∀ s, percentage_in_range cfg s → percentage_in_range cfg (run_ops cfg ops s))
  ∧ ∀ s profit, consecutive_losses (update_win (run_ops cfg ops s) profit) = 0.
Proof.
  intros Hmin Hlo Hhi.
  assert (Hkeep : ∀ s, percentage_in_range cfg s →
                       percentage_in_range cfg (run_ops cfg ops s)).
  { induction ops as [| op ops IH]; intros s Hs; [exact Hs |].
    simpl. apply IH. by apply apply_op_in_range. }
  split; [| split; [exact Hkeep | reflexivity]].
  apply Hkeep. split; simpl; assumption.
Qed.

Lemma C6_percentage_stays_in_range_witness :
  percentage_in_range sample_settings
    (run_ops sample_settings
       [OpLoss 10; OpLoss 10; OpAdjust; OpLoss 10; OpAdjust; OpWin 8; OpAdjust;
        OpWin 8; OpWin 8; OpAdjust; OpWin 8; OpAdjust]
       (new_trading_state sample_settings)).
Proof.
  refine (proj1 (C6_percentage_stays_in_range sample_settings _ _ _ _)).
  - vm_compute. discriminate.
  - vm_compute. discriminate.
  - vm_compute. discriminate.
Defined.

(** ** The submission step *)

(** C8.  When [client.buy] raises, or returns a false check, or returns no
    usable order id, the submission step leaves the whole trading state as it
    was.  When it returns a true check with an order id, exactly one order
    (the one just placed) is appended to [open_orders], [last_trade_time] of
    that asset becomes the time of the cycle, the other assets keep their
    times, and the loss, balance, reset time, streak counters and trade
    percentage do not move. *)
Theorem C8_submission_frame (now : Z) (asset : string) (dir : direction)
    (amount : Q) (price : num) (st : TradingState) :
  submit_order BuyRaised now asset dir amount price st = st
  ∧ (∀ oid, submit_order (BuyReturned false oid) now asset dir amount price st = st)
  ∧ (∀ check oid, broker_id_truthy oid = false →
       submit_order (BuyReturned check oid) now asset dir amount price st = st)
  ∧ (∀ oid, broker_id_truthy oid = true →
       let st' := submit_order (BuyReturned true oid) now asset dir amount price st in
       open_orders st'
       = open_orders st
         ++ [ {| order_id := oid; order_asset := asset; order_direction := dir;
                 order_amount := amount; order_open_price := price |} ]
       ∧ length (open_orders st') = S (length (open_orders st))
       ∧ last_trade_time st' !! asset = Some now
       ∧ (∀ other, other ≠ asset →
            last_trade_time st' !! other = last_trade_time st !! other)
       ∧ daily_loss st' = daily_loss st
       ∧ initial_daily_balance st' = initial_daily_balance st
       ∧ last_reset_time st' = last_reset_time st
       ∧ consecutive_losses st' = consecutive_losses st
       ∧ consecutive_wins st' = consecutive_wins st
       ∧ current_trade_percentage st' = current_trade_percentage st).
Proof.
  split; [reflexivity |]. split; [reflexivity |]. split.
  - intros check oid Hid. unfold submit_order.
    rewrite Hid, andb_false_r. reflexivity.
  - intros oid Hid st'. subst st'. unfold submit_order. rewrite Hid. simpl.
    repeat split.
    + rewrite length_app. simpl. lia.
    + apply lookup_insert_eq.
    + intros other Hne. by apply lookup_insert_ne.
Qed.

Lemma C8_submission_frame_witness :
  broker_id_truthy (IdInt 42) = true
  ∧ open_orders
      (submit_order (BuyReturned true (IdInt 42)) 100 "GBPUSD-OTC" Put 20
         (Fin 3) sample_state)
    = [ sample_order;
        {| order_id := IdInt 42; order_asset := "GBPUSD-OTC";
           order_direction := Put; order_amount := 20;
           order_open_price := Fin 3 |} ]
  ∧ broker_id_truthy IdNone = false
  ∧ submit_order (BuyReturned true IdNone) 100 "GBPUSD-OTC" Put 20 (Fin 3)
      sample_state = sample_state.
Proof.
  pose proof (C8_submission_frame 100 "GBPUSD-OTC" Put 20 (Fin 3) sample_state)
    as (_ & _ & Hfail & Hok).
  split; [reflexivity |]. split.
  - apply (Hok (IdInt 42)). reflexivity.
  - split; [reflexivity |]. apply Hfail. reflexivity.
Defined.

(** ** The batch cache key *)

Lemma string_compare_le_trans (a b c : string) :
  String.compare a b ≠ Gt → String.compare b c ≠ Gt → String.compare a c ≠ Gt.
Proof.
  revert b c. induction a as [| x a IH]; intros [| y b] [| z c]; simpl;
    try congruence.
  unfold Ascii.compare.
  destruct (N.compare_spec (Ascii.N_of_ascii x) (Ascii.N_of_ascii y)) as [Hxy | Hxy | Hxy];
    destruct (N.compare_spec (Ascii.N_of_ascii y) (Ascii.N_of_ascii z)) as [Hyz | Hyz | Hyz];
    try congruence; intros H1 H2.
  - rewrite Hxy, Hyz, N.compare_refl. by apply (IH b c).
  - rewrite Hxy. apply N.compare_lt_iff in Hyz. rewrite Hyz. discriminate.
  - rewrite <- Hyz. apply N.compare_lt_iff in Hxy. rewrite Hxy. discriminate.
  - assert (Hxz : (Ascii.N_of_ascii x < Ascii.N_of_ascii z)%N) by lia.
    apply N.compare_lt_iff in Hxz. rewrite Hxz. discriminate.
Qed.

Lemma leb_not_gt (a b : string) : String.leb a b = true ↔ String.compare a b ≠ Gt.
Proof. unfold String.leb. destruct (String.compare a b); split; congruence. Qed.

Global Instance string_le_trans : Transitive string_le.
Proof.
  intros a b c. unfold string_le. rewrite !leb_not_gt.
  apply string_compare_le_trans.
Qed.

Global Instance string_le_total : Total string_le.
Proof. intros a b. apply String.leb_total. Qed.

Global Instance string_le_antisym : AntiSymm (=) string_le.
Proof. intros a b. apply String.leb_antisym. Qed.

Lemma sorted_permutation (l1 l2 : list string) :
  l1 ≡ₚ l2 → sorted l1 = sorted l2.
Proof.
  intros Hperm. unfold sorted.
  apply (StronglySorted_unique string_le).
  - apply StronglySorted_merge_sort; apply _.
  - apply StronglySorted_merge_sort; apply _.
  - by rewrite !merge_sort_Permutation.
Qed.

(** C7.  For every timeframe, two instrument lists that are permutations of
    each other give the same batch cache key. *)
Theorem C7_cache_key_permutation (timeframe : Z) (assets1 assets2 : list string) :
  assets1 ≡ₚ assets2 → cache_key timeframe assets1 = cache_key timeframe assets2.
Proof.
  intros Hperm. unfold cache_key. by rewrite (sorted_permutation _ _ Hperm).
Qed.

Lemma C7_cache_key_permutation_witness :
  ["GBPUSD-OTC"; "EURUSD-OTC"; "AUDCAD-OTC"]
    ≡ₚ ["EURUSD-OTC"; "AUDCAD-OTC"; "GBPUSD-OTC"]
  ∧ cache_key 60 ["GBPUSD-OTC"; "EURUSD-OTC"; "AUDCAD-OTC"]
    = cache_key 60 ["EURUSD-OTC"; "AUDCAD-OTC"; "GBPUSD-OTC"].
Proof.
  assert (H : ["GBPUSD-OTC"; "EURUSD-OTC"; "AUDCAD-OTC"]
                ≡ₚ ["EURUSD-OTC"; "AUDCAD-OTC"; "GBPUSD-OTC"]).
  { change ("GBPUSD-OTC" :: ["EURUSD-OTC"; "AUDCAD-OTC"]
              ≡ₚ ["EURUSD-OTC"; "AUDCAD-OTC"] ++ ["GBPUSD-OTC"]).
    apply Permutation_cons_append. }
  split; [exact H |].
  apply (C7_cache_key_permutation 60 _ _ H).
Defined.

(** ** Dictionaries *)

Lemma dict_find_set_eq {V : Type} (kv : list (string * V)) (k : string) (v : V) :
  dict_find (dict_set kv k v) k = Some v.
Proof.
  induction kv as [| [k' v'] rest IH]; simpl.
  - by rewrite String.eqb_refl.
  - destruct (String.eqb k k') eqn:E; simpl.
    + by rewrite String.eqb_refl.
    + by rewrite E.
Qed.

Lemma dict_find_set_ne {V : Type} (kv : list (string * V)) (k k' : string) (v : V) :
  k ≠ k' → dict_find (dict_set kv k v) k' = dict_find kv k'.
Proof.
  intros Hne. induction kv as [| [k0 v0] rest IH]; simpl.
  - apply String.eqb_neq in Hne. rewrite String.eqb_sym in Hne. by rewrite Hne.
  - destruct (String.eqb k k0) eqn:E; simpl.
    + apply String.eqb_eq in E. subst k0.
      apply String.eqb_neq in Hne. rewrite String.eqb_sym in Hne. by rewrite Hne.
    + destruct (String.eqb k' k0); [reflexivity | exact IH].
Qed.

Lemma dict_find_set {V : Type} (kv : list (string * V)) (k k' : string) (v w : V) :
  dict_find (dict_set kv k v) k' = Some w →
  (k = k' ∧ w = v) ∨ (k ≠ k' ∧ dict_find kv k' = Some w).
Proof.
  destruct (decide (k = k')) as [-> | Hne].
  - rewrite dict_find_set_eq. intros [= ->]. by left.
  - rewrite dict_find_set_ne by assumption. intros H. by right.
Qed.

Lemma fold_left_preserves {A B : Type} (P : A → Prop) (f : A → B → A)
    (l : list B) (a : A) :
  (∀ a x, x ∈ l → P a → P (f a x)) → P a → P (fold_left f l a).
Proof.
  revert a. induction l as [| x l IH]; intros a Hstep Ha; simpl; [exact Ha |].
  apply IH.
  - intros a' y Hy. apply Hstep. by right.
  - apply Hstep; [by left | exact Ha].
Qed.

(** ** What the pipeline can put into a batch *)

Lemma batch_cache_is_fresh (timeframe now : Z) (key : string) :
  cache_contains (get_indicator_cache timeframe) now key = false.
Proof. reflexivity. Qed.

Lemma calculate_indicators_results (cfg : Settings) (tl : Talib)
    (client : CandleSource) (assets : list string) (timeframe now : Z)
    (cache : TTLCache (list Candle)) :
  let out := calculate_indicators cfg tl client assets timeframe now cache in
  co_cache_hit out = false
  ∧ (co_results out = []
     ∨ co_results out = empty_results assets
     ∨ co_results out
       = ps_results
           (fold_left (asset_step cfg tl client timeframe now) assets
              {| ps_results := empty_results assets;
                 ps_candle_cache := cache;
                 ps_fetch_calls := O |})).
Proof.
  unfold calculate_indicators.
  destruct assets as [| a assets]; [simpl; auto |].
  rewrite batch_cache_is_fresh.
  destruct (indicators_config cfg); simpl; auto.
Qed.

Section PipelineInvariant.
Variable cfg : Settings.
Variable tl : Talib.
Variable P : string → pyval → Prop.
Hypothesis P_none :
  ∀ c, c ∈ indicators_config cfg → P (ic_name c) VNone.
Hypothesis P_stored :
  ∀ c value, c ∈ indicators_config cfg →
    P (ic_name c) (stored_value value (ic_min c) (ic_max c)).

Lemma snapshot_inv_set (snap : snapshot) (k : string) (v : pyval) :
  snapshot_inv P snap → P k v → snapshot_inv P (dict_set snap k v).
Proof.
  intros Hsnap Hv name w Hfind.
  apply dict_find_set in Hfind as [[<- ->] | [_ Hold]]; [exact Hv |].
  by apply Hsnap.
Qed.

Lemma indicator_step_inv (closes highs lows : list num) (snap : snapshot)
    (c : indicator_config) :
  c ∈ indicators_config cfg → snapshot_inv P snap →
  snapshot_inv P (indicator_step tl closes highs lows snap c).
Proof.
  intros Hc Hsnap. unfold indicator_step.
  destruct (compute_value tl closes highs lows c);
    apply snapshot_inv_set; auto.
Qed.

Lemma compute_snapshot_inv (candles : list Candle) (snap : snapshot) :
  snapshot_inv P snap → snapshot_inv P (compute_snapshot cfg tl candles snap).
Proof.
  intros Hsnap. unfold compute_snapshot.
  apply fold_left_preserves; [| exact Hsnap].
  intros a c Hc Ha. by apply indicator_step_inv.
Qed.

Lemma batch_inv_set (b : batch) (asset : string) (snap : snapshot) :
  batch_inv P b → snapshot_inv P snap → batch_inv P (dict_set b asset snap).
Proof.
  intros Hb Hsnap a s Hfind.
  apply dict_find_set in Hfind as [[<- ->] | [_ Hold]]; [exact Hsnap |].
  by apply (Hb a).
Qed.

Lemma empty_snapshot_inv : snapshot_inv P [].
Proof. intros name v H. discriminate. Qed.

Lemma empty_results_inv (assets : list string) : batch_inv P (empty_results assets).
Proof.
  unfold empty_results. apply fold_left_preserves.
  - intros b asset _ Hb. apply batch_inv_set; [exact Hb | apply empty_snapshot_inv].
  - intros asset snap H. discriminate.
Qed.

Lemma asset_step_inv (client : CandleSource) (timeframe now : Z)
    (st : pipeline_state) (asset : string) :
  batch_inv P (ps_results st) →
  batch_inv P (ps_results (asset_step cfg tl client timeframe now st asset)).
Proof.
  intros Hb. unfold asset_step.
  set (fetched := match cache_getitem _ _ _ with Some _ => _ | None => _ end).
  destruct fetched as [[[candles | ] cache] calls]; simpl; [| exact Hb].
  destruct ((length candles =? 0)%nat || (Z.of_nat (length candles) <? max_period cfg));
    [exact Hb |].
  apply batch_inv_set; [exact Hb |].
  apply compute_snapshot_inv.
  destruct (dict_find (ps_results st) asset) as [s |] eqn:E.
  - by apply (Hb asset).
  - apply empty_snapshot_inv.
Qed.

Lemma calculate_indicators_inv (client : CandleSource) (assets : list string)
    (timeframe now : Z) (cache : TTLCache (list Candle)) :
  batch_inv P (co_results (calculate_indicators cfg tl client assets timeframe now cache)).
Proof.
  destruct (calculate_indicators_results cfg tl client assets timeframe now cache)
    as [_ [-> | [-> | ->]]].
  - intros asset snap H. discriminate.
  - apply empty_results_inv.
  - apply fold_left_preserves.
    + intros st asset _ Hst. by apply asset_step_inv.
    + apply empty_results_inv.
Qed.

End PipelineInvariant.

Lemma config_names (cfg : Settings) (c : indicator_config) :
  c ∈ indicators_config cfg → ic_name c ∈ indicator_names.
Proof.
  revert c. apply Forall_forall.
  unfold indicators_config, indicator_names.
  destruct (RSI_INDICATOR cfg), (SMA_INDICATOR cfg), (EMA_INDICATOR cfg),
    (STOCHASTIC_INDICATOR cfg), (MACD_INDICATOR cfg);
    simpl; repeat constructor; simpl; apply list_elem_of_In; simpl; tauto.
Qed.

Lemma stored_value_dict (value : pyval) (min_val max_val : num)
    (kv : list (string * pyval)) :
  stored_value value min_val max_val = VDict kv → all_numbers kv = true.
Proof.
  destruct value as [| x | | kv']; simpl; try discriminate.
  - destruct (num_leb min_val x && num_leb x max_val); discriminate.
  - destruct (all_numbers kv') eqn:E; [| discriminate]. by intros [= <-].
Qed.

Lemma pipeline_entries_ok (cfg : Settings) (tl : Talib) (client : CandleSource)
    (assets : list string) (timeframe now : Z) (cache : TTLCache (list Candle)) :
  batch_inv entry_ok
    (co_results (calculate_indicators cfg tl client assets timeframe now cache)).
Proof.
  apply calculate_indicators_inv.
  - intros c Hc. split; [by apply (config_names cfg) | discriminate].
  - intros c value Hc. split; [by apply (config_names cfg) |].
    intros kv. apply stored_value_dict.
Qed.

(** A snapshot made by the pipeline has no key [BB_upper] or [BB_lower]: the
    bands live under the key [BOLLINGER]. *)
Lemma pipeline_snapshot_has_no_band_keys (cfg : Settings) (tl : Talib)
    (client : CandleSource) (assets : list string) (timeframe now : Z)
    (cache : TTLCache (list Candle)) (asset : string) (snap : snapshot) :
  dict_find (co_results (calculate_indicators cfg tl client assets timeframe now cache))
    asset = Some snap →
  dict_get snap "BB_upper" = VNone ∧ dict_get snap "BB_lower" = VNone.
Proof.
  intros Hsnap.
  pose proof (pipeline_entries_ok cfg tl client assets timeframe now cache
                asset snap Hsnap) as Hinv.
  unfold dict_get. split.
  - destruct (dict_find snap "BB_upper") as [v |] eqn:E; [| reflexivity].
    destruct (Hinv _ _ E) as [Hname _].
    apply list_elem_of_In in Hname. simpl in Hname. intuition discriminate.
  - destruct (dict_find snap "BB_lower") as [v |] eqn:E; [| reflexivity].
    destruct (Hinv _ _ E) as [Hname _].
    apply list_elem_of_In in Hname. simpl in Hname. intuition discriminate.
Qed.

(** ** Structured indicator values *)

(** C5, as stated, fails: when [talib] ends the %K series in NaN, the
    snapshot the pipeline computes still stores the stochastic value, with
    the NaN inside. *)
Lemma C5_counterexample :
  ∃ snap,
    dict_find
      (co_results
         (calculate_indicators sample_settings nan_talib sample_source
            ["EURUSD-OTC"] 60 0 candle_cache_init)) "EURUSD-OTC" = Some snap
    ∧ dict_find snap "STOCHASTIC"
      = Some (VDict [("k", VNum NaN); ("d", VNum (Fin 20))])
    ∧ all_finite [("k", VNum NaN); ("d", VNum (Fin 20))] = false.
Proof.
  eexists. split; [vm_compute; reflexivity |]. split; reflexivity.
Qed.

(** C5, amended.  In every snapshot computed by the pipeline, a structured
    indicator value is stored only if every one of its sub-values is a number
    (an int or a float, NaN and the infinities included); and whenever the
    computed structured value has a sub-value that is not a number, the
    indicator is recorded as [None], otherwise the value itself is
    recorded. *)
Theorem C5_structured_values_hold_numbers (cfg : Settings) (tl : Talib) :
  (∀ client assets timeframe now cache asset snap name kv,
     dict_find
       (co_results (calculate_indicators cfg tl client assets timeframe now cache))
       asset = Some snap →
     dict_find snap name = Some (VDict kv) →
     Forall (λ e, is_number (snd e) = true) kv)
  ∧ (∀ closes highs lows snap c kv,
       compute_value tl closes highs lows c = Ok (VDict kv) →
       dict_find (indicator_step tl closes highs lows snap c) (ic_name c)
       = Some (if forallb (λ e, is_number (snd e)) kv then VDict kv else VNone)).
Proof.
  assert (Hnum : ∀ kv, all_numbers kv = forallb (λ e, is_number (snd e)) kv).
  { intros kv. unfold all_numbers.
    induction kv as [| [k v] kv IH]; simpl; [reflexivity |].
    rewrite IH. destruct v; reflexivity. }
  split.
  - intros client assets timeframe now cache asset snap name kv Hsnap Hentry.
    destruct (pipeline_entries_ok cfg tl client assets timeframe now cache
                asset snap Hsnap name _ Hentry) as [_ Hkv].
    specialize (Hkv kv eq_refl). rewrite Hnum in Hkv.
    apply Forall_forall. intros e He.
    rewrite forallb_forall in Hkv. apply Hkv. by apply list_elem_of_In.
  - intros closes highs lows snap c kv Hvalue.
    unfold indicator_step. rewrite Hvalue, dict_find_set_eq. simpl.
    by rewrite Hnum.
Qed.

Lemma C5_structured_values_hold_numbers_witness :
  dict_find sample_batch "EURUSD-OTC"
  = Some
      [("RSI", VNum (Fin 25)); ("SMA", VNum (Fin 100));
       ("STOCHASTIC", VDict [("k", VNum (Fin 15)); ("d", VNum (Fin 20))]);
       ("BOLLINGER",
        VDict [("BB_upper", VNum (Fin 105)); ("BB_lower", VNum (Fin 95))])]
  ∧ Forall (λ e, is_number (snd e) = true)
      [("BB_upper", VNum (Fin 105)); ("BB_lower", VNum (Fin 95))].
Proof.
  assert (H : dict_find sample_batch "EURUSD-OTC"
              = Some
                  [("RSI", VNum (Fin 25)); ("SMA", VNum (Fin 100));
                   ("STOCHASTIC", VDict [("k", VNum (Fin 15)); ("d", VNum (Fin 20))]);
                   ("BOLLINGER",
                    VDict [("BB_upper", VNum (Fin 105)); ("BB_lower", VNum (Fin 95))])])
    by (vm_compute; reflexivity).
  split; [exact H |].
  apply (proj1 (C5_structured_values_hold_numbers sample_settings sample_talib)
           sample_source ["EURUSD-OTC"] 60 0 candle_cache_init "EURUSD-OTC" _
           "BOLLINGER" _ H).
  reflexivity.
Defined.

(** ** The trend strategy on what the pipeline produces *)

(** On a snapshot made by the pipeline the trend strategy finds both bands
    missing, so it never gives a signal. *)
Lemma trend_silent_on_pipeline_snapshots (cfg : Settings) (tl : Talib)
    (client : CandleSource) (assets : list string) (timeframe now : Z)
    (cache : TTLCache (list Candle)) (asset : string) (snap : snapshot)
    (price : num) (dir : direction) :
  dict_find (co_results (calculate_indicators cfg tl client assets timeframe now cache))
    asset = Some snap →
  is_trade_signal_trend cfg snap price ≠ Ok (Some dir).
Proof.
  intros Hsnap.
  destruct (pipeline_snapshot_has_no_band_keys _ _ _ _ _ _ _ _ _ Hsnap) as [Hup Hlow].
  unfold is_trade_signal_trend. rewrite Hup, Hlow.
  destruct (dict_get2 snap "STOCHASTIC" "k"); simpl; [| discriminate].
  destruct (dict_get2 snap "STOCHASTIC" "d"); simpl; [| discriminate].
  destruct (dict_get2 snap "MACD" "macd"); simpl; [| discriminate].
  destruct (dict_get2 snap "MACD" "signal"); simpl; [| discriminate].
  rewrite !orb_true_r. discriminate.
Qed.

(** C4, evaluated.  The pipeline, fed by a [talib] that yields RSI 25, SMA
    100, %K 15, %D 20 and the bands 95 and 105, with MACD disabled and buy
    thresholds 30 and 20, stores the bands under the key [BOLLINGER]; on that
    snapshot the trend strategy at price 101 gives no signal.  Only on a
    snapshot that carries the bands as top-level keys [BB_upper] and
    [BB_lower] does it give call at 101 and nothing at 94. *)
Theorem C4_trend_on_pipeline_snapshot :
  ∃ snap,
    dict_find sample_batch "EURUSD-OTC" = Some snap
    ∧ dict_get snap "RSI" = VNum (Fin 25)
    ∧ dict_get snap "SMA" = VNum (Fin 100)
    ∧ dict_get2 snap "STOCHASTIC" "k" = Ok (VNum (Fin 15))
    ∧ dict_get2 snap "STOCHASTIC" "d" = Ok (VNum (Fin 20))
    ∧ dict_get2 snap "BOLLINGER" "BB_lower" = Ok (VNum (Fin 95))
    ∧ dict_get2 snap "BOLLINGER" "BB_upper" = Ok (VNum (Fin 105))
    ∧ MACD_INDICATOR sample_settings = false
    ∧ is_trade_signal_trend sample_settings snap (Fin 101) = Ok None
    ∧ is_trade_signal_trend sample_settings flat_snapshot (Fin 101) = Ok (Some Call)
    ∧ is_trade_signal_trend sample_settings flat_snapshot (Fin 94) = Ok None.
Proof.
  eexists. split; [vm_compute; reflexivity |].
  repeat split; vm_compute; reflexivity.
Qed.

(** ** The trailing stop on what the pipeline produces *)

(** With the batch of the pipeline in hand, the check of an order changes
    nothing in the trading state, whatever the price: it leaves at the test
    for missing bands, or in the handler when a collaborator raises. *)
Lemma check_order_on_pipeline_batch (cfg : Settings) (tl : Talib)
    (client : CandleSource) (timeframe now : Z) (cache : TTLCache (list Candle))
    (obs : order_obs) (order : Order) (st : TradingState) (to_remove : list Order) :
  oo_indicators obs
  = Ok (co_results
          (calculate_indicators cfg tl client [order_asset order] timeframe now cache)) →
  check_order obs order (st, to_remove)
  = (st, match oo_price obs with
         | Raised => to_remove ++ [order]
         | Ok _ => to_remove
         end).
Proof.
  intros Hind. unfold check_order, check_order_body. rewrite Hind.
  destruct (dict_find _ (order_asset order)) as [snap |] eqn:Hsnap.
  - destruct (pipeline_snapshot_has_no_band_keys _ _ _ _ _ _ _ _ _ Hsnap) as [Hup Hlow].
    rewrite Hup, Hlow. destruct (oo_price obs) as [p |]; [| reflexivity].
    simpl. rewrite orb_true_r. reflexivity.
  - destruct (oo_price obs) as [p |]; [| reflexivity].
    simpl. rewrite orb_true_r. reflexivity.
Qed.

(** C1, evaluated.  [sample_order] is an open call on an asset whose lower
    band, as computed by the pipeline, is 95; the price read in the
    monitoring pass is 94.  The pass leaves the order open and does not touch
    [daily_loss], [consecutive_losses] or [consecutive_wins].  Had the batch
    carried the bands as top-level keys, the same pass would have closed the
    order and counted the loss. *)
Theorem C1_trailing_stop_on_pipeline_batch :
  order_direction sample_order = Call
  ∧ (∃ snap, dict_find sample_batch (order_asset sample_order) = Some snap
             ∧ dict_get2 snap "BOLLINGER" "BB_lower" = Ok (VNum (Fin 95)))
  ∧ oo_price (stop_obs sample_batch 0) = Ok (Some (Fin 94))
  ∧ monitoring_pass (stop_obs sample_batch) sample_state = sample_state
  ∧ open_orders (monitoring_pass (stop_obs flat_batch) sample_state) = []
  ∧ Qeq_bool (daily_loss (monitoring_pass (stop_obs flat_batch) sample_state)) 10 = true
  ∧ consecutive_losses (monitoring_pass (stop_obs flat_batch) sample_state) = 1
  ∧ consecutive_wins (monitoring_pass (stop_obs flat_batch) sample_state) = 0.
Proof.
  split; [reflexivity |].
  split; [eexists; split; vm_compute; reflexivity |].
  repeat split; vm_compute; reflexivity.
Qed.

(** ** The batch cache *)

(** The batch cache is created anew in every call, so the lookup that opens
    [calculate_indicators] never finds the key. *)
Lemma batch_cache_never_hits (cfg : Settings) (tl : Talib) (client : CandleSource)
    (assets : list string) (timeframe now : Z) (cache : TTLCache (list Candle)) :
  co_cache_hit (calculate_indicators cfg tl client assets timeframe now cache) = false.
Proof. apply (calculate_indicators_results cfg tl client assets timeframe now cache). Qed.

(** C2, evaluated.  Two calls for the same one-instrument batch, 10 seconds
    apart with timeframe 60 (window 300) while the market-data source fails:
    the first call stores its result in its own batch cache, where it would
    still be live at the time of the second; the second call does not find
    it and calls the source again.  The same with timeframe 120 and a working
    source, 400 seconds apart (window 600, candle cache already expired). *)
Theorem C2_second_call_fetches_again :
  let key := cache_key 60 ["EURUSD-OTC"] in
  let first :=
    calculate_indicators sample_settings sample_talib failing_source
      ["EURUSD-OTC"] 60 0 candle_cache_init in
  let second :=
    calculate_indicators sample_settings sample_talib failing_source
      ["EURUSD-OTC"] 60 10 (co_candle_cache first) in
  let first' :=
    calculate_indicators sample_settings sample_talib sample_source
      ["EURUSD-OTC"] 120 0 candle_cache_init in
  let second' :=
    calculate_indicators sample_settings sample_talib sample_source
      ["EURUSD-OTC"] 120 400 (co_candle_cache first') in
  cache_contains (co_indicator_cache first) 10 key = true
  ∧ co_cache_hit second = false
  ∧ co_fetch_calls second = 1%nat
  ∧ cache_contains (co_indicator_cache first') 400 (cache_key 120 ["EURUSD-OTC"]) = true
  ∧ co_cache_hit second' = false
  ∧ co_fetch_calls second' = 1%nat.
Proof. repeat split; vm_compute; reflexivity. Qed.

(** ** Equality of orders *)

Lemma broker_id_eqb_eq (a b : broker_id) : broker_id_eqb a b = true ↔ a = b.
Proof.
  destruct a, b; simpl; try (split; congruence).
  - rewrite Z.eqb_eq. split; congruence.
  - rewrite String.eqb_eq. split; congruence.
Qed.

Lemma direction_eqb_eq (a b : direction) : direction_eqb a b = true ↔ a = b.
Proof. destruct a, b; simpl; split; congruence. Qed.

Lemma num_eqb_refl (x : num) : num_eqb x x = true.
Proof. destruct x; simpl; try reflexivity. apply Qeq_bool_refl. Qed.

Lemma num_eqb_sym (x y : num) : num_eqb x y = num_eqb y x.
Proof. destruct x, y; simpl; try reflexivity. apply Qeq_bool_comm. Qed.

Lemma num_eqb_trans (x y z : num) :
  num_eqb x y = true → num_eqb y z = true → num_eqb x z = true.
Proof.
  destruct x, y, z; simpl; try congruence. apply Qeq_bool_trans.
Qed.

Lemma order_eqb_true (a b : Order) :
  order_eqb a b = true
  ↔ order_id a = order_id b ∧ order_asset a = order_asset b
    ∧ order_direction a = order_direction b
    ∧ Qeq_bool (order_amount a) (order_amount b) = true
    ∧ num_eqb (order_open_price a) (order_open_price b) = true.
Proof.
  unfold order_eqb.
  rewrite !andb_true_iff, broker_id_eqb_eq, String.eqb_eq, direction_eqb_eq.
  tauto.
Qed.

Lemma order_eqb_refl (a : Order) : order_eqb a a = true.
Proof.
  apply order_eqb_true. repeat split; [apply Qeq_bool_refl | apply num_eqb_refl].
Qed.

Lemma order_eqb_sym (a b : Order) : order_eqb a b = true → order_eqb b a = true.
Proof.
  rewrite !order_eqb_true. intros (H1 & H2 & H3 & H4 & H5).
  repeat split; try congruence.
  - by rewrite Qeq_bool_comm.
  - by rewrite num_eqb_sym.
Qed.

Lemma order_eqb_trans (a b c : Order) :
  order_eqb a b = true → order_eqb b c = true → order_eqb a c = true.
Proof.
  rewrite !order_eqb_true.
  intros (H1 & H2 & H3 & H4 & H5) (G1 & G2 & G3 & G4 & G5).
  repeat split; try congruence.
  - by apply Qeq_bool_trans with (order_amount b).
  - by apply num_eqb_trans with (order_open_price b).
Qed.

(** ** Removing orders *)

Lemma count_order_cons (o y : Order) (l : list Order) :
  count_order o (y :: l)
  = ((if order_eqb o y then 1 else 0) + count_order o l)%nat.
Proof. unfold count_order. simpl. destruct (order_eqb o y); reflexivity. Qed.

Lemma count_after_remove (o x : Order) (l : list Order) :
  count_order o (remove_from l x)
  = if order_eqb x o then Nat.pred (count_order o l) else count_order o l.
Proof.
  unfold remove_from. induction l as [| y rest IH]; simpl.
  - by destruct (order_eqb x o).
  - rewrite count_order_cons.
    destruct (order_eqb y x) eqn:Eyx.
    + destruct (order_eqb x o) eqn:Exo.
      * assert (Hoy : order_eqb o y = true).
        { apply order_eqb_sym. by apply order_eqb_trans with x. }
        rewrite Hoy. reflexivity.
      * destruct (order_eqb o y) eqn:Eoy; [| reflexivity].
        assert (order_eqb x o = true).
        { apply order_eqb_sym. by apply order_eqb_trans with y. }
        congruence.
    + assert (Hoy : order_eqb x o = true → order_eqb o y = false).
      { intros Hxo. destruct (order_eqb o y) eqn:Eoy; [| reflexivity].
        assert (order_eqb y x = true).
        { apply order_eqb_sym. by apply order_eqb_trans with o. }
        congruence. }
      destruct (list_remove rest x) as [rest' |].
      * rewrite count_order_cons, IH.
        destruct (order_eqb x o); [by rewrite Hoy | reflexivity].
      * rewrite count_order_cons.
        destruct (order_eqb x o); [| reflexivity].
        rewrite Hoy by reflexivity. simpl. exact IH.
Qed.

Lemma open_orders_remove_order (st : TradingState) (x : Order) :
  open_orders (remove_order st x) = remove_from (open_orders st) x.
Proof.
  unfold remove_order, remove_from.
  by destruct (list_remove (open_orders st) x).
Qed.

Lemma count_after_removals (o : Order) (to_remove : list Order) (st : TradingState) :
  (count_order o (open_orders (fold_left remove_order to_remove st))
   <= count_order o (open_orders st))%nat
  ∧ (In o to_remove → (0 < count_order o (open_orders st))%nat →
     (count_order o (open_orders (fold_left remove_order to_remove st))
      < count_order o (open_orders st))%nat).
Proof.
  revert st. induction to_remove as [| x rest IH]; intros st; simpl.
  - split; [lia | tauto].
  - destruct (IH (remove_order st x)) as [IHle IHlt].
    rewrite open_orders_remove_order, count_after_remove in IHle, IHlt.
    destruct (order_eqb x o) eqn:Exo.
    + split; [lia |]. intros _ Hpos. lia.
    + split; [exact IHle |]. intros [-> | Hin] Hpos.
      * rewrite order_eqb_refl in Exo. discriminate.
      * by apply IHlt.
Qed.

(** ** The monitoring loop *)

Lemma acc_extends_refl (acc : TradingState * list Order) : acc_extends acc acc.
Proof. split; [reflexivity | exists []; by rewrite app_nil_r]. Qed.

Lemma acc_extends_trans (a b c : TradingState * list Order) :
  acc_extends a b → acc_extends b c → acc_extends a c.
Proof.
  intros [H1 [e1 E1]] [H2 [e2 E2]]. split; [congruence |].
  exists (e1 ++ e2). by rewrite E2, E1, app_assoc.
Qed.

Lemma acc_extends_push (acc : TradingState * list Order) (st' : TradingState)
    (order : Order) :
  open_orders st' = open_orders (fst acc) →
  acc_extends acc (st', snd acc ++ [order]).
Proof. intros H. split; [exact H | by exists [order]]. Qed.

Lemma trailing_stop_extends (order : Order) (p : num) (bb_upper bb_lower : pyval)
    (acc acc' : TradingState * list Order) :
  trailing_stop order p bb_upper bb_lower acc = Ok acc' → acc_extends acc acc'.
Proof.
  destruct acc as [st to_remove]. unfold trailing_stop.
  destruct (order_direction order).
  - destruct (py_lt (VNum p) bb_lower) as [[|] |]; simpl; intros [= <-].
    + by apply (acc_extends_push (st, to_remove)).
    + apply acc_extends_refl.
  - destruct (py_lt bb_upper (VNum p)) as [[|] |]; simpl; intros [= <-].
    + by apply (acc_extends_push (st, to_remove)).
    + apply acc_extends_refl.
Qed.

Lemma reconcile_extends (order : Order) (order_status : list broker_order)
    (acc : TradingState * list Order) :
  acc_extends acc (reconcile order order_status acc).
Proof.
  destruct acc as [st to_remove]. unfold reconcile.
  destruct (find_order_info order_status (order_id order)) as [info |];
    [| apply acc_extends_refl].
  destruct (String.eqb (bo_status info) "closed"); [| apply acc_extends_refl].
  apply (acc_extends_push (st, to_remove)).
  by destruct (Qltb 0 _).
Qed.

Lemma check_order_body_extends (obs : order_obs) (order : Order)
    (acc : TradingState * list Order) :
  acc_extends acc (fst (check_order_body obs order acc)).
Proof.
  destruct acc as [st to_remove]. unfold check_order_body.
  destruct (oo_indicators obs) as [ind |]; [| apply acc_extends_refl].
  destruct (oo_price obs) as [price |]; [| apply acc_extends_refl].
  destruct (price_falsy price || _ || _); [apply acc_extends_refl |].
  destruct price as [p |]; [| apply acc_extends_refl].
  destruct (trailing_stop order p _ _ (st, to_remove)) as [[st1 rem1] |] eqn:Hstop;
    [| apply acc_extends_refl].
  apply trailing_stop_extends in Hstop.
  destruct (oo_orders obs) as [order_status |]; [| exact Hstop].
  eapply acc_extends_trans; [exact Hstop |].
  apply (reconcile_extends order order_status (st1, rem1)).
Qed.

Lemma check_order_extends (obs : order_obs) (order : Order)
    (acc : TradingState * list Order) :
  acc_extends acc (check_order obs order acc).
Proof.
  unfold check_order.
  pose proof (check_order_body_extends obs order acc) as H.
  destruct (check_order_body obs order acc) as [[st rem] raised]. simpl in H.
  destruct raised; [| exact H].
  eapply acc_extends_trans; [exact H |].
  by apply (acc_extends_push (st, rem)).
Qed.

Lemma check_order_raised (obs : order_obs) (order : Order)
    (acc : TradingState * list Order) :
  snd (check_order_body obs order acc) = true →
  In order (snd (check_order obs order acc)).
Proof.
  unfold check_order.
  destruct (check_order_body obs order acc) as [[st rem] raised]. simpl.
  intros ->. simpl. apply in_or_app. right. by left.
Qed.

Lemma monitor_orders_extends (obs : nat → order_obs) (orders : list Order) (i : nat)
    (acc : TradingState * list Order) :
  acc_extends acc (monitor_orders obs i orders acc).
Proof.
  revert i acc. induction orders as [| o rest IH]; intros i acc; simpl.
  - apply acc_extends_refl.
  - eapply acc_extends_trans; [apply check_order_extends | apply IH].
Qed.

Lemma monitor_orders_app (obs : nat → order_obs) (before after : list Order)
    (i : nat) (acc : TradingState * list Order) :
  monitor_orders obs i (before ++ after) acc
  = monitor_orders obs (i + length before) after (monitor_orders obs i before acc).
Proof.
  revert i acc. induction before as [| o rest IH]; intros i acc; simpl.
  - by rewrite Nat.add_0_r.
  - rewrite IH. f_equal. lia.
Qed.

Lemma monitor_orders_split (obs : nat → order_obs) (orders : list Order) (i : nat)
    (order : Order) (acc : TradingState * list Order) :
  orders !! i = Some order →
  monitor_orders obs 0 orders acc
  = monitor_orders obs (S i) (drop (S i) orders)
      (check_order (obs i) order (monitor_orders obs 0 (take i orders) acc)).
Proof.
  intros Hi.
  rewrite <- (take_drop_middle orders i order Hi) at 1.
  rewrite monitor_orders_app. simpl.
  rewrite length_take_le; [reflexivity |].
  apply lookup_lt_Some in Hi. lia.
Qed.

Lemma count_order_pos (o : Order) (l : list Order) :
  In o l → (0 < count_order o l)%nat.
Proof.
  induction l as [| y rest IH]; simpl; [tauto |].
  rewrite count_order_cons. intros [-> | Hin].
  - rewrite order_eqb_refl. lia.
  - specialize (IH Hin). lia.
Qed.

Lemma count_order_zero (o : Order) (l : list Order) :
  count_order o l = 0%nat → ∀ y, In y l → order_eqb o y = false.
Proof.
  induction l as [| x rest IH]; simpl; [tauto |].
  rewrite count_order_cons. intros Hcount y [-> | Hin].
  - destruct (order_eqb o y); [simpl in Hcount; lia | reflexivity].
  - apply IH; [| exact Hin]. destruct (order_eqb o x); simpl in Hcount; lia.
Qed.

(** C9.  If the check of an open order ends in the exception handler (the
    indicator call, the price read, a comparison or the broker's order record
    raised), then after the same monitoring pass the order list holds one
    entry equal to that order less than before, so an order that was tracked
    once is tracked no more; and the loop goes on after the handler: the
    pass is the check of the orders before it, the handler's result, and then
    the check of every order after it. *)
Theorem C9_errored_order_is_dropped (obs : nat → order_obs) (st : TradingState)
    (i : nat) (order : Order) :
  open_orders st !! i = Some order →
  check_raised obs st i order = true →
  (count_order order (open_orders (monitoring_pass obs st))
   < count_order order (open_orders st))%nat
  ∧ (count_order order (open_orders st) = 1%nat →
     ∀ o, In o (open_orders (monitoring_pass obs st)) → order_eqb order o = false)
  ∧ monitor_orders obs 0 (open_orders st) (st, [])
    = monitor_orders obs (S i) (drop (S i) (open_orders st))
        (check_order (obs i) order
           (monitor_orders obs 0 (take i (open_orders st)) (st, []))).
Proof.
  intros Hi Hraised.
  pose proof (monitor_orders_split obs (open_orders st) i order (st, []) Hi) as Hsplit.
  assert (Hless :
    (count_order order (open_orders (monitoring_pass obs st))
     < count_order order (open_orders st))%nat).
  { unfold monitoring_pass. rewrite Hsplit.
    set (mid := monitor_orders obs 0 (take i (open_orders st)) (st, [])).
    pose proof (monitor_orders_extends obs (take i (open_orders st)) 0 (st, []))
      as [Hmid _]. fold mid in Hmid. simpl in Hmid.
    pose proof (check_order_extends (obs i) order mid) as [Hchk _].
    pose proof (check_order_raised (obs i) order mid Hraised) as Hin.
    pose proof (monitor_orders_extends obs (drop (S i) (open_orders st)) (S i)
                  (check_order (obs i) order mid)) as [Hend [extra Hextra]].
    destruct (monitor_orders obs (S i) _ (check_order (obs i) order mid))
      as [st1 to_remove]. simpl in Hend, Hextra.
    assert (Horders : open_orders st1 = open_orders st) by congruence.
    rewrite <- Horders.
    apply count_after_removals.
    - rewrite Hextra. apply in_or_app. by left.
    - rewrite Horders. apply count_order_pos.
      apply list_elem_of_In. by eapply list_elem_of_lookup_2. }
  split; [exact Hless |]. split; [| exact Hsplit].
  intros Hone. apply count_order_zero. lia.
Qed.

Lemma C9_errored_order_is_dropped_witness :
  open_orders sample_state !! 0%nat = Some sample_order
  ∧ check_raised broken_profile_obs sample_state 0 sample_order = true
  ∧ (count_order sample_order
       (open_orders (monitoring_pass broken_profile_obs sample_state))
     < count_order sample_order (open_orders sample_state))%nat.
Proof.
  assert (H1 : open_orders sample_state !! 0%nat = Some sample_order)
    by reflexivity.
  assert (H2 : check_raised broken_profile_obs sample_state 0 sample_order = true)
    by (vm_compute; reflexivity).
  split; [exact H1 |]. split; [exact H2 |].
  apply (C9_errored_order_is_dropped broken_profile_obs sample_state 0
           sample_order H1 H2).
Defined.

(* ===================================================================== *)
(** * Further properties of the state machine *)
(* ===================================================================== *)

Lemma set_open_orders_same (s : TradingState) :
  set_open_orders s (open_orders s) = s.
Proof. by destruct s. Qed.

Lemma apply_op_streaks (cfg : Settings) (s : TradingState) (op : state_op) :
  streaks_exclusive s → streaks_exclusive (apply_op cfg s op).
Proof.
  intros (Hl & Hw & Hex). unfold streaks_exclusive.
  destruct op; simpl.
  - repeat split; [lia | lia | by right].
  - repeat split; [lia | lia | by left].
  - unfold adjust_trade_percentage.
    destruct (_ <=? consecutive_losses s); [by simpl |].
    destruct (_ <=? consecutive_wins s); by simpl.
  - unfold check_daily_loss_limit.
    destruct (Qltb 0 _); [| by simpl].
    destruct (_ || _); by simpl.
  - repeat split; [lia | lia | by left].
Qed.

(** X1.  The two streak counters never run together: from a state in which
    both are non-negative and at least one is zero, every sequence of
    [update_loss], [update_win], [adjust_trade_percentage],
    [check_daily_loss_limit] and [reset_daily] leads to such a state again. *)
Theorem streaks_never_run_together (cfg : Settings) (ops : list state_op)
    (s : TradingState) :
  streaks_exclusive s → streaks_exclusive (run_ops cfg ops s).
Proof.
  revert s. induction ops as [| op ops IH]; intros s Hs; simpl; [exact Hs |].
  apply IH. by apply apply_op_streaks.
Qed.

Lemma streaks_never_run_together_witness :
  streaks_exclusive (new_trading_state sample_settings)
  ∧ streaks_exclusive
      (run_ops sample_settings [OpLoss 10; OpLoss 5; OpWin 3; OpAdjust; OpCheck 900]
         (new_trading_state sample_settings)).
Proof.
  assert (H : streaks_exclusive (new_trading_state sample_settings)).
  { unfold streaks_exclusive. simpl. repeat split; [lia | lia | by left]. }
  split; [exact H |].
  apply (streaks_never_run_together sample_settings _ _ H).
Defined.



(** X3.  The verdict of the daily loss gate does not depend on the trade
    percentage it shrinks: asking again, with any balance, gives the same
    verdict.  And for a percentage at or above a non-negative minimum the
    gate never enlarges it. *)
Theorem loss_gate_is_stable (cfg : Settings) (s : TradingState) (balance balance' : Q) :
  (0 <= TRADE_PERCENTAGE_MIN cfg)%Q →
  (TRADE_PERCENTAGE_MIN cfg <= current_trade_percentage s)%Q →
  fst (check_daily_loss_limit cfg (snd (check_daily_loss_limit cfg s balance)) balance')
  = fst (check_daily_loss_limit cfg s balance)
  ∧ (current_trade_percentage (snd (check_daily_loss_limit cfg s balance))
     <= current_trade_percentage s)%Q
  ∧ (TRADE_PERCENTAGE_MIN cfg
     <= current_trade_percentage (snd (check_daily_loss_limit cfg s balance)))%Q.
Proof.
  intros Hmin Hcur. unfold check_daily_loss_limit.
  destruct (Qltb 0 (initial_daily_balance s)) eqn:Hpos.
  - destruct (Qle_bool _ (loss_pct s) || _) eqn:Hhit; simpl.
    + rewrite Hpos. unfold loss_pct in *. simpl. rewrite Hhit. simpl.
      split; [reflexivity |]. split; [apply py_max_upper; lra | apply py_max_lower].
    + rewrite Hpos, Hhit. simpl. split; [reflexivity | split; lra].
  - simpl. rewrite Hpos. simpl. split; [reflexivity | split; lra].
Qed.

Lemma loss_gate_is_stable_witness :
  (0 <= TRADE_PERCENTAGE_MIN sample_settings)%Q
  ∧ (TRADE_PERCENTAGE_MIN sample_settings
     <= current_trade_percentage
          (run_ops sample_settings [OpLoss 40; OpLoss 40; OpLoss 40] sample_state))%Q
  ∧ fst (check_daily_loss_limit sample_settings
           (snd (check_daily_loss_limit sample_settings
                   (run_ops sample_settings [OpLoss 40; OpLoss 40; OpLoss 40]
                      sample_state) 880)) 880)
    = fst (check_daily_loss_limit sample_settings
             (run_ops sample_settings [OpLoss 40; OpLoss 40; OpLoss 40]
                sample_state) 880).
Proof.
  assert (H1 : (0 <= TRADE_PERCENTAGE_MIN sample_settings)%Q)
    by (vm_compute; discriminate).
  assert (H2 : (TRADE_PERCENTAGE_MIN sample_settings
                <= current_trade_percentage
                     (run_ops sample_settings [OpLoss 40; OpLoss 40; OpLoss 40]
                        sample_state))%Q)
    by (vm_compute; discriminate).
  split; [exact H1 |]. split; [exact H2 |].
  apply (loss_gate_is_stable sample_settings _ 880 880 H1 H2).
Defined.

(** X4.  Sizing follows the streak: for a percentage within a non-negative
    range, [adjust_trade_percentage] never enlarges it while the loss streak
    is at its threshold, never shrinks it while (the loss streak being below
    its threshold) the win streak is at its threshold, and otherwise puts it
    back to the base percentage. *)
Theorem adjust_follows_streak (cfg : Settings) (s : TradingState) :
  (0 <= TRADE_PERCENTAGE_MIN cfg)%Q →
  percentage_in_range cfg s →
  let s' := adjust_trade_percentage cfg s in
  (CONSECUTIVE_LOSSES_THRESHOLD cfg <= consecutive_losses s →
   (current_trade_percentage s' <= current_trade_percentage s)%Q)
  ∧ (consecutive_losses s < CONSECUTIVE_LOSSES_THRESHOLD cfg →
     CONSECUTIVE_WINS_THRESHOLD cfg <= consecutive_wins s →
     (current_trade_percentage s <= current_trade_percentage s')%Q)
  ∧ (consecutive_losses s < CONSECUTIVE_LOSSES_THRESHOLD cfg →
     consecutive_wins s < CONSECUTIVE_WINS_THRESHOLD cfg →
     current_trade_percentage s' = TRADE_PERCENTAGE cfg).
Proof.
  intros Hmin [Hlo Hhi] s'. subst s'. unfold adjust_trade_percentage.
  destruct (Z.leb_spec (CONSECUTIVE_LOSSES_THRESHOLD cfg) (consecutive_losses s));
    simpl.
  - split; [intros _; apply py_max_upper; lra |]. split; intros; lia.
  - split; [intros; lia |].
    destruct (Z.leb_spec (CONSECUTIVE_WINS_THRESHOLD cfg) (consecutive_wins s));
      simpl.
    + split; [intros _ _; apply py_min_lower; lra | intros; lia].
    + split; [intros; lia | reflexivity].
Qed.

Lemma adjust_follows_streak_witness :
  (0 <= TRADE_PERCENTAGE_MIN sample_settings)%Q
  ∧ percentage_in_range sample_settings
      (run_ops sample_settings [OpLoss 10; OpLoss 10] sample_state)
  ∧ (current_trade_percentage
       (adjust_trade_percentage sample_settings
          (run_ops sample_settings [OpLoss 10; OpLoss 10] sample_state))
     <= current_trade_percentage
          (run_ops sample_settings [OpLoss 10; OpLoss 10] sample_state))%Q.
Proof.
  assert (H1 : (0 <= TRADE_PERCENTAGE_MIN sample_settings)%Q)
    by (vm_compute; discriminate).
  assert (H2 : percentage_in_range sample_settings
                 (run_ops sample_settings [OpLoss 10; OpLoss 10] sample_state))
    by (split; vm_compute; discriminate).
  split; [exact H1 |]. split; [exact H2 |].
  apply (adjust_follows_streak sample_settings _ H1 H2).
  vm_compute. discriminate.
Defined.

Lemma list_remove_absent (l : list Order) (o : Order) :
  count_order o l = 0%nat → list_remove (l ++ [o]) o = Some l.
Proof.
  induction l as [| y rest IH]; simpl.
  - intros _. by rewrite order_eqb_refl.
  - rewrite count_order_cons. intros Hcount.
    destruct (order_eqb o y) eqn:Eoy; [simpl in Hcount; lia |].
    destruct (order_eqb y o) eqn:Eyo.
    + apply order_eqb_sym in Eyo. congruence.
    + rewrite IH by (simpl in Hcount; lia). reflexivity.
Qed.

(** X5.  Adding an order and removing it again gives the state back, when no
    order equal to it was tracked before. *)
Theorem remove_undoes_add (s : TradingState) (o : Order) :
  count_order o (open_orders s) = 0%nat →
  remove_order (add_order s o) o = s.
Proof.
  intros Hcount. unfold remove_order, add_order. simpl.
  rewrite (list_remove_absent _ _ Hcount).
  destruct s. reflexivity.
Qed.

Lemma remove_undoes_add_witness :
  count_order
    {| order_id := IdInt 8; order_asset := "GBPUSD-OTC"; order_direction := Put;
       order_amount := 3; order_open_price := Fin 2 |}
    (open_orders sample_state) = 0%nat
  ∧ remove_order
      (add_order sample_state
         {| order_id := IdInt 8; order_asset := "GBPUSD-OTC";
            order_direction := Put; order_amount := 3;
            order_open_price := Fin 2 |})
      {| order_id := IdInt 8; order_asset := "GBPUSD-OTC"; order_direction := Put;
         order_amount := 3; order_open_price := Fin 2 |}
    = sample_state.
Proof.
  split; [reflexivity |].
  apply remove_undoes_add. reflexivity.
Defined.

(** X6.  Right after a daily reset the loss gate is open: with a positive
    [DAILY_LOSS_LIMIT], [check_daily_loss_limit] returns true on the state
    [reset_daily] leaves, whatever the balance, and changes nothing. *)
Theorem gate_open_after_reset (cfg : Settings) (s : TradingState)
    (balance balance' : Q) (current_time : Z) :
  (0 < DAILY_LOSS_LIMIT cfg)%Q →
  check_daily_loss_limit cfg (reset_daily cfg s balance current_time) balance'
  = (true, reset_daily cfg s balance current_time).
Proof.
  intros Hlimit. unfold check_daily_loss_limit.
  destruct (Qltb 0 _) eqn:Hpos; [| reflexivity].
  assert (Hno : Qle_bool (DAILY_LOSS_LIMIT cfg)
                  (loss_pct (reset_daily cfg s balance current_time)) = false).
  { apply not_true_iff_false. rewrite Qle_bool_iff.
    unfold loss_pct. simpl.
    assert (H0 : (0 / balance * 100 == 0)%Q) by (unfold Qdiv; ring).
    rewrite H0. lra. }
  rewrite Hno. reflexivity.
Qed.

Lemma gate_open_after_reset_witness :
  (0 < DAILY_LOSS_LIMIT sample_settings)%Q
  ∧ check_daily_loss_limit sample_settings
      (reset_daily sample_settings overdrawn_state 500 86400) 500
    = (true, reset_daily sample_settings overdrawn_state 500 86400).
Proof.
  assert (H : (0 < DAILY_LOSS_LIMIT sample_settings)%Q) by reflexivity.
  split; [exact H |].
  apply (gate_open_after_reset sample_settings overdrawn_state 500 500 86400 H).
Defined.

(* ===================================================================== *)
(** * Further properties of the indicator pipeline *)
(* ===================================================================== *)

Lemma retry_loop_spec (fetch : nat → fetch_outcome) (attempt left : nat) :
  let '(r, n) := retry_loop fetch attempt left in
  (n <= left)%nat
  ∧ (∀ k, (S k < n)%nat → fetch (attempt + k)%nat = FetchTransient)
  ∧ match r with
    | Ok data => (0 < n)%nat ∧ fetch (attempt + n - 1)%nat = FetchData data
    | Raised =>
        ((0 < n)%nat ∧ fetch (attempt + n - 1)%nat = FetchFatal)
        ∨ (n = left ∧ ∀ k, (k < left)%nat → fetch (attempt + k)%nat = FetchTransient)
    end.
Proof.
  revert attempt. induction left as [| left IH]; intros attempt; simpl.
  - split; [lia |]. split; [intros k Hk; lia |]. right. split; [reflexivity |].
    intros k Hk. lia.
  - destruct (fetch attempt) eqn:Hfetch.
    + split; [lia |]. split; [intros k Hk; lia |].
      split; [lia |]. by replace (attempt + 1 - 1)%nat with attempt by lia.
    + specialize (IH (S attempt)).
      destruct (retry_loop fetch (S attempt) left) as [r n].
      destruct IH as (Hle & Hbefore & Hlast).
      split; [lia |]. split.
      * intros [| k] Hk.
        -- by rewrite Nat.add_0_r.
        -- replace (attempt + S k)%nat with (S attempt + k)%nat by lia.
           apply Hbefore. lia.
      * destruct r as [data |].
        -- destruct Hlast as [Hpos Hlast]. split; [lia |].
           by replace (attempt + S n - 1)%nat with (S attempt + n - 1)%nat by lia.
        -- destruct Hlast as [[Hpos Hlast] | [-> Hall]].
           ++ left. split; [lia |].
              by replace (attempt + S n - 1)%nat with (S attempt + n - 1)%nat by lia.
           ++ right. split; [reflexivity |]. intros [| k] Hk.
              ** by rewrite Nat.add_0_r.
              ** replace (attempt + S k)%nat with (S attempt + k)%nat by lia.
                 apply Hall. lia.
    + split; [lia |]. split; [intros k Hk; lia |]. left.
      split; [lia |]. by replace (attempt + 1 - 1)%nat with attempt by lia.
Qed.

(** X7.  One retried fetch calls the client at least once and at most five
    times; every call before the last failed with a retried class of error;
    it returns candles exactly when its last call delivered them, and it
    raises either because its last call failed with an error that is not
    retried or because all five calls failed. *)
Theorem retry_makes_one_to_five_calls (client : CandleSource) (asset : string)
    (timeframe history_size : Z) :
  let fetch := client asset timeframe history_size in
  let r := fst (get_candles_with_retry client asset timeframe history_size) in
  let n := snd (get_candles_with_retry client asset timeframe history_size) in
  (1 <= n <= 5)%nat
  ∧ (∀ k, (S k < n)%nat → fetch k = FetchTransient)
  ∧ match r with
    | Ok data => fetch (n - 1)%nat = FetchData data
    | Raised =>
        fetch (n - 1)%nat = FetchFatal
        ∨ (n = 5%nat ∧ ∀ k, (k < 5)%nat → fetch k = FetchTransient)
    end.
Proof.
  intros fetch r n. subst r n. unfold get_candles_with_retry. fold fetch.
  pose proof (retry_loop_spec fetch 0 5) as H.
  destruct (retry_loop fetch 0 5) as [r n]. simpl in *.
  destruct H as (Hle & Hbefore & Hlast).
  assert (Hpos : (0 < n)%nat).
  { destruct r; [tauto |]. destruct Hlast as [[H _] | [-> _]]; lia. }
  split; [lia |]. split; [exact Hbefore |].
  destruct r as [data |].
  - destruct Hlast as [_ Hlast]. exact Hlast.
  - destruct Hlast as [[_ Hlast] | [Hn Hall]].
    + left. exact Hlast.
    + right. split; assumption.
Qed.

(** The three shapes of what [calculate_indicators] leaves behind. *)
Lemma calculate_indicators_shape (cfg : Settings) (tl : Talib)
    (client : CandleSource) (assets : list string) (timeframe now : Z)
    (cache : TTLCache (list Candle)) :
  let out := calculate_indicators cfg tl client assets timeframe now cache in
  let st :=
    fold_left (asset_step cfg tl client timeframe now) assets
      {| ps_results := empty_results assets;
         ps_candle_cache := cache;
         ps_fetch_calls := O |} in
  (assets = [] ∧ co_results out = [] ∧ co_fetch_calls out = O
   ∧ co_candle_cache out = cache)
  ∨ (assets ≠ [] ∧ co_results out = ps_results st
     ∧ co_fetch_calls out = ps_fetch_calls st
     ∧ co_candle_cache out = ps_candle_cache st).
Proof.
  unfold calculate_indicators.
  destruct assets as [| a assets]; [left; auto |]. right.
  rewrite batch_cache_is_fresh.
  assert (Hcfg : indicators_config cfg ≠ []).
  { unfold indicators_config. intros H.
    apply app_eq_nil in H as [_ H]. apply app_eq_nil in H as [_ H].
    apply app_eq_nil in H as [_ H]. apply app_eq_nil in H as [_ H].
    apply app_eq_nil in H as [_ H]. discriminate. }
  destruct (indicators_config cfg) eqn:E; [contradiction |].
  split; [discriminate |]. auto.
Qed.

Lemma asset_step_calls (cfg : Settings) (tl : Talib) (client : CandleSource)
    (timeframe now : Z) (st : pipeline_state) (asset : string) :
  (ps_fetch_calls (asset_step cfg tl client timeframe now st asset)
   <= ps_fetch_calls st + 5)%nat.
Proof.
  unfold asset_step.
  destruct (cache_getitem _ now _) as [candles |]; simpl; [lia |].
  unfold get_candles_with_retry.
  pose proof (retry_loop_spec (client asset timeframe (history_size cfg timeframe))
                0 5) as H.
  destruct (retry_loop _ 0 5) as [[candles |] n]; destruct H as [Hn _];
    simpl; lia.
Qed.

Lemma fold_asset_step_calls (cfg : Settings) (tl : Talib) (client : CandleSource)
    (timeframe now : Z) (assets : list string) (st : pipeline_state) :
  (ps_fetch_calls (fold_left (asset_step cfg tl client timeframe now) assets st)
   <= ps_fetch_calls st + 5 * length assets)%nat.
Proof.
  revert st. induction assets as [| a assets IH]; intros st; simpl; [lia |].
  pose proof (IH (asset_step cfg tl client timeframe now st a)) as H.
  pose proof (asset_step_calls cfg tl client timeframe now st a) as H'.
  lia.
Qed.

(** X8.  One call of [calculate_indicators] calls the market-data client at
    most five times per requested instrument, and not at all for an empty
    list. *)
Theorem fetch_calls_are_bounded (cfg : Settings) (tl : Talib)
    (client : CandleSource) (assets : list string) (timeframe now : Z)
    (cache : TTLCache (list Candle)) :
  (co_fetch_calls (calculate_indicators cfg tl client assets timeframe now cache)
   <= 5 * length assets)%nat.
Proof.
  destruct (calculate_indicators_shape cfg tl client assets timeframe now cache)
    as [(-> & _ & -> & _) | (_ & _ & -> & _)]; [simpl; lia |].
  pose proof (fold_asset_step_calls cfg tl client timeframe now assets
                {| ps_results := empty_results assets;
                   ps_candle_cache := cache;
                   ps_fetch_calls := O |}) as H.
  simpl in H. exact H.
Qed.

Lemma dict_set_keys {V : Type} (kv : list (string * V)) (k k' : string) (v : V) :
  is_Some (dict_find (dict_set kv k v) k') ↔ k = k' ∨ is_Some (dict_find kv k').
Proof.
  destruct (decide (k = k')) as [-> | Hne].
  - rewrite dict_find_set_eq. split; [by left | by eexists].
  - rewrite dict_find_set_ne by assumption. split; [by right |].
    intros [H | H]; [contradiction | exact H].
Qed.

Lemma empty_results_keys (assets : list string) (acc : batch) (a : string) :
  is_Some (dict_find (fold_left (λ acc asset, dict_set acc asset []) assets acc) a)
  ↔ a ∈ assets ∨ is_Some (dict_find acc a).
Proof.
  revert acc. induction assets as [| x assets IH]; intros acc; simpl.
  - rewrite elem_of_nil. tauto.
  - rewrite IH, dict_set_keys, elem_of_cons. intuition congruence.
Qed.

Lemma asset_step_keys (cfg : Settings) (tl : Talib) (client : CandleSource)
    (timeframe now : Z) (st : pipeline_state) (asset a : string) :
  is_Some (dict_find (ps_results st) asset) →
  is_Some (dict_find (ps_results (asset_step cfg tl client timeframe now st asset)) a)
  ↔ is_Some (dict_find (ps_results st) a).
Proof.
  intros Hasset. unfold asset_step.
  set (fetched := match cache_getitem _ _ _ with Some _ => _ | None => _ end).
  destruct fetched as [[[candles | ] cache] calls]; simpl; [| reflexivity].
  destruct ((length candles =? 0)%nat || _); [reflexivity |].
  rewrite dict_set_keys. split; [| by right].
  intros [<- | H]; assumption.
Qed.

Lemma fold_asset_step_keys (cfg : Settings) (tl : Talib) (client : CandleSource)
    (timeframe now : Z) (assets : list string) (st : pipeline_state) (a : string) :
  (∀ x, x ∈ assets → is_Some (dict_find (ps_results st) x)) →
  is_Some (dict_find
             (ps_results (fold_left (asset_step cfg tl client timeframe now) assets st))
             a)
  ↔ is_Some (dict_find (ps_results st) a).
Proof.
  revert st. induction assets as [| x assets IH]; intros st Hall; simpl;
    [reflexivity |].
  rewrite IH.
  - apply asset_step_keys. apply Hall. by left.
  - intros y Hy. apply asset_step_keys; [apply Hall; by left |].
    apply Hall. by right.
Qed.

(** X9.  The batch returned by [calculate_indicators] has a snapshot,
    possibly empty, for each requested instrument and for nothing else: no
    failure while one instrument is processed drops it or another one from
    the result. *)
Theorem batch_covers_the_request (cfg : Settings) (tl : Talib)
    (client : CandleSource) (assets : list string) (timeframe now : Z)
    (cache : TTLCache (list Candle)) (a : string) :
  is_Some (dict_find
             (co_results (calculate_indicators cfg tl client assets timeframe now cache))
             a)
  ↔ a ∈ assets.
Proof.
  destruct (calculate_indicators_shape cfg tl client assets timeframe now cache)
    as [(-> & -> & _) | (_ & -> & _)].
  - simpl. rewrite elem_of_nil. split; [intros [x H]; discriminate | tauto].
  - assert (Hinit : ∀ x, is_Some (dict_find (empty_results assets) x) ↔ x ∈ assets).
    { intros x. unfold empty_results. rewrite empty_results_keys. simpl.
      split; [intros [H | [y H]]; [exact H | discriminate] | by left]. }
    rewrite fold_asset_step_keys; simpl; [apply Hinit |].
    intros x Hx. by apply Hinit.
Qed.

Lemma dict_find_app_absent {V : Type} (l1 l2 : list (string * V)) (k : string) :
  dict_find l1 k = None → dict_find (l1 ++ l2) k = dict_find l2 k.
Proof.
  induction l1 as [| [k' v] l1 IH]; simpl; [reflexivity |].
  destruct (String.eqb k k'); [discriminate | exact IH].
Qed.

Lemma dict_find_filter_other {V : Type} (l : list (string * V)) (k : string) :
  dict_find (filter (λ e, fst e ≠ k) l) k = None.
Proof.
  induction l as [| [k' v] l IH]; [reflexivity |].
  rewrite filter_cons. simpl. destruct (decide (k' ≠ k)) as [Hne | Heq].
  - simpl. apply String.eqb_neq in Hne. rewrite String.eqb_sym in Hne.
    by rewrite Hne.
  - exact IH.
Qed.

(** A value put into a cache is found again until its time to live is over. *)
Lemma cache_getitem_setitem {V : Type} (c : TTLCache V) (now now' : Z)
    (key : string) (value : V) :
  cache_getitem (cache_setitem c now key value) now' key
  = if now' <? now + cache_ttl c then Some value else None.
Proof.
  unfold cache_getitem, cache_setitem. simpl.
  rewrite dict_find_app_absent by apply dict_find_filter_other.
  simpl. by rewrite String.eqb_refl.
Qed.

Lemma asset_step_live (cfg : Settings) (tl : Talib) (client : CandleSource)
    (timeframe now : Z) (st : pipeline_state) (asset : string)
    (candles : list Candle) :
  cache_getitem (ps_candle_cache st) now
    (cache_key_candles asset timeframe (history_size cfg timeframe)) = Some candles →
  ps_candle_cache (asset_step cfg tl client timeframe now st asset)
  = ps_candle_cache st
  ∧ ps_fetch_calls (asset_step cfg tl client timeframe now st asset)
    = ps_fetch_calls st.
Proof.
  intros Hlive. unfold asset_step. rewrite Hlive. simpl. split; [reflexivity | lia].
Qed.

Lemma fold_asset_step_live (cfg : Settings) (tl : Talib) (client : CandleSource)
    (timeframe now : Z) (assets : list string) (st : pipeline_state) :
  (∀ asset, asset ∈ assets →
     is_Some (cache_getitem (ps_candle_cache st) now
                (cache_key_candles asset timeframe (history_size cfg timeframe)))) →
  ps_candle_cache (fold_left (asset_step cfg tl client timeframe now) assets st)
  = ps_candle_cache st
  ∧ ps_fetch_calls (fold_left (asset_step cfg tl client timeframe now) assets st)
    = ps_fetch_calls st.
Proof.
  revert st. induction assets as [| a assets IH]; intros st Hall; simpl; [auto |].
  destruct (Hall a) as [candles Hlive]; [by left |].
  destruct (asset_step_live cfg tl client timeframe now st a candles Hlive)
    as [Hcache Hcalls].
  destruct (IH (asset_step cfg tl client timeframe now st a)) as [H1 H2].
  - intros b Hb. rewrite Hcache. apply Hall. by right.
  - split; congruence.
Qed.

(** X10.  When the candle cache holds a live entry for every requested
    instrument, [calculate_indicators] does not call the market-data client
    and leaves the candle cache as it found it. *)
Theorem live_candles_need_no_fetch (cfg : Settings) (tl : Talib)
    (client : CandleSource) (assets : list string) (timeframe now : Z)
    (cache : TTLCache (list Candle)) :
  (∀ asset, asset ∈ assets →
     is_Some (cache_getitem cache now
                (cache_key_candles asset timeframe (history_size cfg timeframe)))) →
  co_fetch_calls (calculate_indicators cfg tl client assets timeframe now cache) = O
  ∧ co_candle_cache (calculate_indicators cfg tl client assets timeframe now cache)
    = cache.
Proof.
  intros Hall.
  destruct (calculate_indicators_shape cfg tl client assets timeframe now cache)
    as [(_ & _ & -> & ->) | (_ & _ & -> & ->)]; [auto |].
  destruct (fold_asset_step_live cfg tl client timeframe now assets
              {| ps_results := empty_results assets;
                 ps_candle_cache := cache;
                 ps_fetch_calls := O |} Hall) as [H1 H2].
  auto.
Qed.

Lemma live_candles_need_no_fetch_witness :
  co_fetch_calls
    (calculate_indicators sample_settings sample_talib failing_source
       ["EURUSD-OTC"] 60 200
       (co_candle_cache
          (calculate_indicators sample_settings sample_talib sample_source
             ["EURUSD-OTC"] 60 0 candle_cache_init))) = O
  ∧ co_candle_cache
      (calculate_indicators sample_settings sample_talib failing_source
         ["EURUSD-OTC"] 60 200
         (co_candle_cache
            (calculate_indicators sample_settings sample_talib sample_source
               ["EURUSD-OTC"] 60 0 candle_cache_init)))
    = co_candle_cache
        (calculate_indicators sample_settings sample_talib sample_source
           ["EURUSD-OTC"] 60 0 candle_cache_init).
Proof.
  apply (live_candles_need_no_fetch sample_settings sample_talib failing_source).
  intros asset Hasset. apply list_elem_of_singleton in Hasset. subst asset.
  vm_compute. eexists. reflexivity.
Defined.

(** X11.  Candles fetched by one call are reused by the next: when a call
    for a single instrument misses the candle cache and its fetch succeeds,
    a second call for that instrument made before the candle time to live has
    run out from the first fetches nothing (whatever the client would answer)
    and returns the same batch. *)
Theorem fetched_candles_are_reused (cfg : Settings) (tl : Talib)
    (client client' : CandleSource) (asset : string) (timeframe now now' : Z)
    (cache : TTLCache (list Candle)) (candles : list Candle) (n : nat) :
  cache_getitem cache now
    (cache_key_candles asset timeframe (history_size cfg timeframe)) = None →
  get_candles_with_retry client asset timeframe (history_size cfg timeframe)
  = (Ok candles, n) →
  now' < now + cache_ttl cache →
  let first := calculate_indicators cfg tl client [asset] timeframe now cache in
  let second :=
    calculate_indicators cfg tl client' [asset] timeframe now'
      (co_candle_cache first) in
  co_fetch_calls first = n
  ∧ co_fetch_calls second = O
  ∧ co_results second = co_results first.
Proof.
  intros Hmiss Hfetch Hfresh first second.
  assert (Hlive :
    cache_getitem
      (cache_setitem cache now
         (cache_key_candles asset timeframe (history_size cfg timeframe)) candles)
      now' (cache_key_candles asset timeframe (history_size cfg timeframe))
    = Some candles).
  { rewrite cache_getitem_setitem.
    destruct (Z.ltb_spec now' (now + cache_ttl cache)); [reflexivity | lia]. }
  subst first second.
  destruct (calculate_indicators_shape cfg tl client [asset] timeframe now cache)
    as [(H & _) | (_ & Hr1 & Hc1 & Hk1)]; [discriminate |].
  rewrite Hr1, Hc1, Hk1. clear Hr1 Hc1 Hk1.
  match goal with
  | |- context [calculate_indicators cfg tl client' [asset] timeframe now' ?c] =>
      destruct (calculate_indicators_shape cfg tl client' [asset] timeframe now' c)
        as [(H & _) | (_ & Hr2 & Hc2 & _)]; [discriminate |];
      rewrite Hr2, Hc2; clear Hr2 Hc2
  end.
  simpl. unfold asset_step. simpl. rewrite Hmiss, Hfetch. simpl.
  rewrite Hlive. simpl. auto.
Qed.

Lemma fetched_candles_are_reused_witness :
  co_fetch_calls
    (calculate_indicators sample_settings sample_talib sample_source
       ["EURUSD-OTC"] 60 0 candle_cache_init) = 1%nat
  ∧ co_fetch_calls
      (calculate_indicators sample_settings sample_talib failing_source
         ["EURUSD-OTC"] 60 299
         (co_candle_cache
            (calculate_indicators sample_settings sample_talib sample_source
               ["EURUSD-OTC"] 60 0 candle_cache_init))) = O
  ∧ co_results
      (calculate_indicators sample_settings sample_talib failing_source
         ["EURUSD-OTC"] 60 299
         (co_candle_cache
            (calculate_indicators sample_settings sample_talib sample_source
               ["EURUSD-OTC"] 60 0 candle_cache_init)))
    = co_results
        (calculate_indicators sample_settings sample_talib sample_source
           ["EURUSD-OTC"] 60 0 candle_cache_init).
Proof.
  apply (fetched_candles_are_reused sample_settings sample_talib sample_source
           failing_source "EURUSD-OTC" 60 0 299 candle_cache_init
           (replicate 50 sample_candle) 1).
  - reflexivity.
  - reflexivity.
  - reflexivity.
Defined.

Lemma stored_value_number (value : pyval) (min_val max_val x : num) :
  stored_value value min_val max_val = VNum x →
  num_leb min_val x && num_leb x max_val = true.
Proof.
  destruct value as [| y | | kv]; simpl; try discriminate.
  - destruct (num_leb min_val y && num_leb y max_val) eqn:E; [| discriminate].
    by intros [= <-].
  - destruct (all_numbers kv); discriminate.
Qed.

Lemma pipeline_scalars_ok (cfg : Settings) (tl : Talib) (client : CandleSource)
    (assets : list string) (timeframe now : Z) (cache : TTLCache (list Candle)) :
  batch_inv (scalar_ok cfg)
    (co_results (calculate_indicators cfg tl client assets timeframe now cache)).
Proof.
  apply calculate_indicators_inv.
  - intros c Hc x H. discriminate.
  - intros c value Hc x H. exists c. split; [exact Hc |]. split; [reflexivity |].
    by apply stored_value_number with value.
Qed.

Lemma config_bounds (cfg : Settings) (c : indicator_config) :
  c ∈ indicators_config cfg →
  match scalar_bounds cfg (ic_name c) with
  | Some (lo, hi) => ic_min c = Fin lo ∧ ic_max c = Fin hi
  | None => ic_min c = NInf ∧ ic_max c = PInf
  end.
Proof.
  revert c. apply Forall_forall.
  unfold indicators_config.
  destruct (RSI_INDICATOR cfg), (SMA_INDICATOR cfg), (EMA_INDICATOR cfg),
    (STOCHASTIC_INDICATOR cfg), (MACD_INDICATOR cfg);
    simpl; repeat constructor.
Qed.

(** X12.  A number stored under [RSI], [SMA] or [EMA] in a snapshot of the
    pipeline is finite and lies within the acceptance range configured for
    that indicator: a single-valued result that is NaN, infinite or out of
    range is never stored. *)
Theorem stored_scalars_are_in_range (cfg : Settings) (tl : Talib)
    (client : CandleSource) (assets : list string) (timeframe now : Z)
    (cache : TTLCache (list Candle)) (asset name : string) (snap : snapshot)
    (x : num) (lo hi : Q) :
  dict_find (co_results (calculate_indicators cfg tl client assets timeframe now cache))
    asset = Some snap →
  dict_find snap name = Some (VNum x) →
  scalar_bounds cfg name = Some (lo, hi) →
  ∃ q, x = Fin q ∧ (lo <= q)%Q ∧ (q <= hi)%Q.
Proof.
  intros Hsnap Hentry Hbounds.
  destruct (pipeline_scalars_ok cfg tl client assets timeframe now cache
              asset snap Hsnap name _ Hentry x eq_refl) as (c & Hc & Hname & Hrange).
  pose proof (config_bounds cfg c Hc) as Hb. rewrite Hname, Hbounds in Hb.
  destruct Hb as [Hmin Hmax].
  apply andb_true_iff in Hrange as [Hlo Hhi].
  rewrite Hmin in Hlo. rewrite Hmax in Hhi.
  destruct x as [q | | |]; simpl in Hlo, Hhi; try discriminate.
  exists q. by rewrite <- !Qle_bool_iff.
Qed.

Lemma stored_scalars_are_in_range_witness :
  ∃ q, Fin 25 = Fin q ∧ (0 <= q)%Q ∧ (q <= 100)%Q.
Proof.
  apply (stored_scalars_are_in_range sample_settings sample_talib sample_source
           ["EURUSD-OTC"] 60 0 candle_cache_init "EURUSD-OTC" "RSI"
           [("RSI", VNum (Fin 25)); ("SMA", VNum (Fin 100));
            ("STOCHASTIC", VDict [("k", VNum (Fin 15)); ("d", VNum (Fin 20))]);
            ("BOLLINGER",
             VDict [("BB_upper", VNum (Fin 105)); ("BB_lower", VNum (Fin 95))])]
           (Fin 25) 0 100).
  - vm_compute. reflexivity.
  - reflexivity.
  - reflexivity.
Defined.

Lemma config_names_differ (cfg : Settings) :
  NoDup (map ic_name (indicators_config cfg)).
Proof.
  unfold indicators_config.
  destruct (RSI_INDICATOR cfg), (SMA_INDICATOR cfg), (EMA_INDICATOR cfg),
    (STOCHASTIC_INDICATOR cfg), (MACD_INDICATOR cfg);
    simpl; apply (bool_decide_unpack _); by vm_compute.
Qed.

Lemma indicator_steps_skip (tl : Talib) (closes highs lows : list num)
    (l : list indicator_config) (snap : snapshot) (name : string) :
  name ∉ map ic_name l →
  dict_find (fold_left (indicator_step tl closes highs lows) l snap) name
  = dict_find snap name.
Proof.
  revert snap. induction l as [| c l IH]; intros snap Hname; simpl; [reflexivity |].
  simpl in Hname. apply not_elem_of_cons in Hname as [Hne Hrest].
  rewrite IH by exact Hrest. unfold indicator_step.
  destruct (compute_value tl closes highs lows c);
    by rewrite dict_find_set_ne by congruence.
Qed.

Lemma indicator_steps_record (tl : Talib) (closes highs lows : list num)
    (l : list indicator_config) (snap : snapshot) (c : indicator_config) :
  NoDup (map ic_name l) → c ∈ l →
  dict_find (fold_left (indicator_step tl closes highs lows) l snap) (ic_name c)
  = Some (recorded_value tl closes highs lows c).
Proof.
  revert snap. induction l as [| c0 l IH]; intros snap Hnodup Hc; simpl.
  - by apply elem_of_nil in Hc.
  - simpl in Hnodup. apply NoDup_cons in Hnodup as [Hfresh Hnodup].
    apply elem_of_cons in Hc as [-> | Hc].
    + rewrite indicator_steps_skip by exact Hfresh.
      unfold indicator_step, recorded_value.
      destruct (compute_value tl closes highs lows c0); apply dict_find_set_eq.
    + by apply IH.
Qed.

(** X13.  Within one snapshot every configured indicator is recorded with
    the outcome of its own computation: the validated value, or [None] when
    the computation raised or the value failed validation.  What happens to
    one indicator neither stops nor changes the next; names that are not
    configured keep what the snapshot held before. *)
Theorem indicators_are_recorded_independently (cfg : Settings) (tl : Talib)
    (candles : list Candle) (snap : snapshot) :
  (∀ c, c ∈ indicators_config cfg →
     dict_find (compute_snapshot cfg tl candles snap) (ic_name c)
     = Some (recorded_value tl (map close candles) (map cmax candles)
               (map cmin candles) c))
  ∧ (∀ name, name ∉ map ic_name (indicators_config cfg) →
       dict_find (compute_snapshot cfg tl candles snap) name = dict_find snap name).
Proof.
  unfold compute_snapshot. split.
  - intros c Hc. apply indicator_steps_record; [apply config_names_differ | exact Hc].
  - intros name Hname. by apply indicator_steps_skip.
Qed.

Lemma indicators_are_recorded_independently_witness :
  dict_find
    (compute_snapshot sample_settings broken_stoch_talib
       (replicate 50 sample_candle) []) "STOCHASTIC" = Some VNone
  ∧ dict_find
      (compute_snapshot sample_settings broken_stoch_talib
         (replicate 50 sample_candle) []) "BOLLINGER"
    = Some (VDict [("BB_upper", VNum (Fin 105)); ("BB_lower", VNum (Fin 95))]).
Proof.
  pose proof (indicators_are_recorded_independently sample_settings
                broken_stoch_talib (replicate 50 sample_candle) []) as [H _].
  split.
  - apply (H {| ic_name := "STOCHASTIC"; ic_params := ParamsStochastic 14 3;
                ic_min := NInf; ic_max := PInf; ic_period := 14 |}).
    vm_compute. apply list_elem_of_In. simpl. tauto.
  - apply (H {| ic_name := "BOLLINGER"; ic_params := ParamsBollinger 50 2;
                ic_min := NInf; ic_max := PInf; ic_period := 50 |}).
    vm_compute. apply list_elem_of_In. simpl. tauto.
Defined.

(* ===================================================================== *)
(** * Further properties of the strategies *)
(* ===================================================================== *)

Lemma py_lt_true (a b : pyval) :
  py_lt a b = Ok true → ∃ x y, a = VNum x ∧ b = VNum y ∧ num_ltb x y = true.
Proof.
  destruct a as [| x | |], b as [| y | |]; simpl; try discriminate.
  intros [= H]. by exists x, y.
Qed.

Lemma py_le_true (a b : pyval) :
  py_le a b = Ok true → ∃ x y, a = VNum x ∧ b = VNum y ∧ num_leb x y = true.
Proof.
  destruct a as [| x | |], b as [| y | |]; simpl; try discriminate.
  intros [= H]. by exists x, y.
Qed.

Lemma and_then_true (a b : result bool) :
  a &&& b = Ok true → a = Ok true ∧ b = Ok true.
Proof. destruct a as [[|] |]; simpl; [auto | discriminate | discriminate]. Qed.

Lemma first_signal_call (buy sell : result bool) :
  first_signal buy sell = Ok (Some Call) → buy = Ok true.
Proof.
  destruct buy as [[|] |]; simpl; [auto | | discriminate].
  destruct sell as [[|] |]; discriminate.
Qed.

Lemma first_signal_put (buy sell : result bool) :
  first_signal buy sell = Ok (Some Put) → sell = Ok true.
Proof.
  destruct buy as [[|] |]; simpl; [discriminate | | discriminate].
  destruct sell as [[|] |]; [auto | discriminate | discriminate].
Qed.





Lemma unavailable_stochastic_raises (cfg : Settings) (strategy : string)
    (snap : snapshot) (price : num) :
  strategy = "trend" ∨ strategy = "reversal" →
  dict_find snap "STOCHASTIC" = Some VNone →
  get_signal_for_strategy cfg strategy snap price = Raised.
Proof.
  intros [-> | ->] Hstoch; unfold get_signal_for_strategy; simpl.
  - unfold is_trade_signal_trend, dict_get2. by rewrite Hstoch.
  - unfold is_trade_signal_reversal, dict_get2. by rewrite Hstoch.
Qed.

(** X15.  Under the trend or the reversal strategy, a snapshot that records
    the stochastic oscillator as unavailable ([None]) does not yield "no
    signal": reading %K from it raises.  When such an instrument is the next
    candidate that is free of an open order, out of cooldown and has a
    price, the error leaves [execute_trades]: the state stays as it is and no
    later candidate of the cycle is tried. *)
Theorem unavailable_stochastic_aborts_entries (cfg : Settings) (now : Z)
    (obs : nat → entry_obs) (indicators : batch) (i : nat) (asset : string)
    (rest : list string) (st : TradingState) (snap : snapshot) (p : num) :
  STRATEGY cfg = "trend" ∨ STRATEGY cfg = "reversal" →
  dict_find indicators asset = Some snap →
  dict_find snap "STOCHASTIC" = Some VNone →
  existsb (λ o, String.eqb (order_asset o) asset) (open_orders st) = false →
  TRADE_COOLDOWN cfg <= now - default 0 (last_trade_time st !! asset) →
  eo_price (obs i) = Ok (Some p) →
  entry_pass cfg now obs indicators i (asset :: rest) st = (st, false).
Proof.
  intros Hstrategy Hsnap Hstoch Hfree Hcool Hprice. simpl.
  unfold try_entry. rewrite Hfree.
  destruct (Z.ltb_spec (now - default 0 (last_trade_time st !! asset))
              (TRADE_COOLDOWN cfg)); [lia |].
  rewrite Hsnap, Hprice. cbn [mbind result_bind].
  by rewrite (unavailable_stochastic_raises cfg _ snap p Hstrategy Hstoch).
Qed.

Lemma unavailable_stochastic_aborts_entries_witness :
  entry_pass reversal_settings 1000 willing_entry_obs
    [("EURUSD-OTC", no_stoch_snapshot); ("GBPUSD-OTC", flat_snapshot)] 0
    ["EURUSD-OTC"; "GBPUSD-OTC"] (new_trading_state reversal_settings)
  = (new_trading_state reversal_settings, false).
Proof.
  apply (unavailable_stochastic_aborts_entries reversal_settings 1000
           willing_entry_obs _ 0 "EURUSD-OTC" ["GBPUSD-OTC"] _ no_stoch_snapshot
           (Fin 101)).
  - by right.
  - reflexivity.
  - reflexivity.
  - reflexivity.
  - vm_compute. discriminate.
  - reflexivity.
Defined.

(* ===================================================================== *)
(** * Further properties of a trading cycle *)
(* ===================================================================== *)

Lemma monitoring_frame_refl (s : TradingState) : monitoring_frame s s.
Proof. by repeat split. Qed.

Lemma monitoring_frame_trans (a b c : TradingState) :
  monitoring_frame a b → monitoring_frame b c → monitoring_frame a c.
Proof.
  intros (H1 & H2 & H3 & H4) (G1 & G2 & G3 & G4). repeat split; congruence.
Qed.

Lemma check_order_frame (obs : order_obs) (order : Order) (st : TradingState)
    (to_remove : list Order) :
  monitoring_frame st (fst (check_order obs order (st, to_remove))).
Proof.
  unfold check_order, check_order_body, trailing_stop, reconcile, mbind,
    result_bind.
  repeat case_match; simplify_eq/=; by repeat split.
Qed.

Lemma monitor_orders_frame (obs : nat → order_obs) (orders : list Order) (i : nat)
    (acc : TradingState * list Order) :
  monitoring_frame (fst acc) (fst (monitor_orders obs i orders acc)).
Proof.
  revert i acc. induction orders as [| o rest IH]; intros i [st rem]; simpl.
  - apply monitoring_frame_refl.
  - eapply monitoring_frame_trans; [apply (check_order_frame (obs i) o st rem) |].
    destruct (check_order (obs i) o (st, rem)) as [st' rem'] eqn:E.
    apply (IH (S i) (st', rem')).
Qed.

Lemma list_remove_sublist (l l' : list Order) (x : Order) :
  list_remove l x = Some l' → l' `sublist_of` l.
Proof.
  revert l'. induction l as [| y rest IH]; intros l'; simpl; [discriminate |].
  destruct (order_eqb y x).
  - intros [= <-]. by apply sublist_cons.
  - destruct (list_remove rest x) as [rest' |]; [| discriminate].
    intros [= <-]. apply sublist_skip. by apply IH.
Qed.

Lemma remove_order_shrinks (st : TradingState) (x : Order) :
  open_orders (remove_order st x) `sublist_of` open_orders st
  ∧ monitoring_frame st (remove_order st x).
Proof.
  unfold remove_order.
  destruct (list_remove (open_orders st) x) as [l |] eqn:E.
  - split; [by apply list_remove_sublist with x | by repeat split].
  - split; [reflexivity | by repeat split].
Qed.

Lemma removals_shrink (to_remove : list Order) (st : TradingState) :
  open_orders (fold_left remove_order to_remove st) `sublist_of` open_orders st
  ∧ monitoring_frame st (fold_left remove_order to_remove st).
Proof.
  revert st. induction to_remove as [| x rest IH]; intros st; simpl.
  - split; [reflexivity | apply monitoring_frame_refl].
  - destruct (IH (remove_order st x)) as [Hsub Hframe].
    destruct (remove_order_shrinks st x) as [Hsub' Hframe'].
    split; [by etrans | by eapply monitoring_frame_trans].
Qed.

(** X16.  The monitoring pass only takes orders away: the orders tracked
    after it are a sublist (same orders, same sequence, some left out) of
    those tracked before, and it leaves the cooldown clock, the initial daily
    balance, the time of the last reset and the trade percentage as they
    were. *)
Theorem monitoring_only_removes (obs : nat → order_obs) (st : TradingState) :
  open_orders (monitoring_pass obs st) `sublist_of` open_orders st
  ∧ monitoring_frame st (monitoring_pass obs st).
Proof.
  unfold monitoring_pass.
  pose proof (monitor_orders_extends obs (open_orders st) 0 (st, [])) as [Hsame _].
  pose proof (monitor_orders_frame obs (open_orders st) 0 (st, [])) as Hframe.
  destruct (monitor_orders obs 0 (open_orders st) (st, [])) as [st1 to_remove].
  simpl in Hsame, Hframe.
  destruct (removals_shrink to_remove st1) as [Hsub Hframe'].
  split; [by rewrite <- Hsame | by eapply monitoring_frame_trans].
Qed.

Lemma monitor_orders_inert (obs : nat → order_obs) (orders : list Order) (i : nat)
    (st : TradingState) :
  (∀ j order, orders !! j = Some order →
     check_order (obs (i + j)%nat) order (st, []) = (st, [])) →
  monitor_orders obs i orders (st, []) = (st, []).
Proof.
  revert i. induction orders as [| o rest IH]; intros i Hall; simpl; [reflexivity |].
  pose proof (Hall 0%nat o eq_refl) as H0. rewrite Nat.add_0_r in H0. rewrite H0.
  apply IH. intros j order Hj.
  replace (S i + j)%nat with (i + S j)%nat by lia. by apply Hall.
Qed.

(** X17.  Fed by the pipeline, the monitoring pass is inert: when every
    order check receives the batch [calculate_indicators] computes for the
    order's instrument and reads a price without an error, the pass returns
    the state it was given.  No order is closed, and the broker's record of
    wins and losses is never consulted. *)
Theorem monitoring_is_inert_on_pipeline_batches (cfg : Settings) (tl : Talib)
    (obs : nat → order_obs) (st : TradingState) :
  (∀ i order, open_orders st !! i = Some order →
     (∃ client timeframe now cache,
        oo_indicators (obs i)
        = Ok (co_results
                (calculate_indicators cfg tl client [order_asset order]
                   timeframe now cache)))
     ∧ oo_price (obs i) ≠ Raised) →
  monitoring_pass obs st = st.
Proof.
  intros Hall. unfold monitoring_pass.
  rewrite monitor_orders_inert; [reflexivity |].
  intros j order Hj. simpl.
  destruct (Hall j order Hj) as [(client & timeframe & now & cache & Hind) Hprice].
  rewrite (check_order_on_pipeline_batch cfg tl client timeframe now cache
             (obs j) order st [] Hind).
  by destruct (oo_price (obs j)).
Qed.

Lemma monitoring_is_inert_on_pipeline_batches_witness :
  monitoring_pass (stop_obs sample_batch) sample_state = sample_state.
Proof.
  apply (monitoring_is_inert_on_pipeline_batches sample_settings sample_talib).
  intros i order Hi.
  destruct i as [| i]; [| discriminate]. injection Hi as <-.
  split; [| discriminate].
  exists sample_source, 60, 0, candle_cache_init. reflexivity.
Defined.

Lemma entry_rejected_effect (cfg : Settings) (st st' : TradingState)
    (balance amount : Q) (verdict : bool) :
  entry_rejected cfg st balance amount = (verdict, st') →
  entry_frame st st' ∧ open_orders st' = open_orders st
  ∧ last_trade_time st' = last_trade_time st.
Proof.
  unfold entry_rejected, check_daily_loss_limit.
  repeat case_match; simplify_eq/=; intros; simplify_eq/=; by repeat split.
Qed.

Lemma try_entry_effect (cfg : Settings) (now : Z) (obs : entry_obs)
    (indicators : batch) (asset : string) (st st' : TradingState) :
  try_entry cfg now obs indicators asset st = Ok st' →
  entry_frame st st'
  ∧ ((open_orders st' = open_orders st
      ∧ last_trade_time st' = last_trade_time st)
     ∨ (∃ o, open_orders st' = open_orders st ++ [o]
             ∧ order_asset o = asset
             ∧ (1 <= order_amount o)%Q ∧ (order_amount o <= 5000)%Q
             ∧ existsb (λ o, String.eqb (order_asset o) asset) (open_orders st)
               = false
             ∧ TRADE_COOLDOWN cfg <= now - default 0 (last_trade_time st !! asset)
             ∧ last_trade_time st' = <[asset := now]> (last_trade_time st))).
Proof.
  assert (Hsame : entry_frame st st ∧
                  (open_orders st = open_orders st
                   ∧ last_trade_time st = last_trade_time st
                   ∨ ∃ o, open_orders st = open_orders st ++ [o]
                          ∧ order_asset o = asset
                          ∧ (1 <= order_amount o)%Q ∧ (order_amount o <= 5000)%Q
                          ∧ existsb (λ o, String.eqb (order_asset o) asset)
                              (open_orders st) = false
                          ∧ TRADE_COOLDOWN cfg
                            <= now - default 0 (last_trade_time st !! asset)
                          ∧ last_trade_time st
                            = <[asset := now]> (last_trade_time st)))
    by (split; [by repeat split | by left]).
  unfold try_entry.
  destruct (existsb _ (open_orders st)) eqn:Hfree; [by intros [= <-] |].
  destruct (Z.ltb_spec (now - default 0 (last_trade_time st !! asset))
              (TRADE_COOLDOWN cfg)) as [Hcool | Hcool]; [by intros [= <-] |].
  destruct (eo_price obs) as [[price |] |]; cbn [mbind result_bind];
    [| by intros [= <-] | discriminate].
  destruct (get_signal_for_strategy cfg (STRATEGY cfg) _ price) as [signal |];
    cbn [mbind result_bind]; [| discriminate].
  destruct (audit_row (eo_audit obs) _) as [[] |]; cbn [mbind result_bind];
    [| discriminate].
  destruct signal as [dir |]; [| by intros [= <-]].
  destruct (eo_balance obs) as [balance |]; cbn [mbind result_bind];
    [| discriminate].
  destruct (entry_rejected cfg st balance (stake_amount st balance))
    as [verdict st1] eqn:Hgate.
  destruct (entry_rejected_effect cfg st st1 balance _ verdict Hgate)
    as ((F1 & F2 & F3 & F4 & F5) & Horders & Htimes).
  destruct verdict.
  - intros [= <-]. split; [by repeat split | left; by split].
  - intros [= <-]. unfold submit_order.
    destruct (eo_buy obs (stake_amount st balance) dir) as [| check oid];
      [split; [by repeat split | left; by split] |].
    destruct (check && broker_id_truthy oid);
      [| split; [by repeat split | left; by split]].
    split; [by repeat split |]. right.
    destruct (stake_amount_bounds st balance) as [Hlo Hhi].
    eexists. simpl. rewrite Horders, Htimes. repeat split; auto.
Qed.

Lemma entry_frame_refl (s : TradingState) : entry_frame s s.
Proof. by repeat split. Qed.

Lemma entry_frame_trans (a b c : TradingState) :
  entry_frame a b → entry_frame b c → entry_frame a c.
Proof.
  intros (H1 & H2 & H3 & H4 & H5) (G1 & G2 & G3 & G4 & G5).
  repeat split; congruence.
Qed.

Lemma entry_pass_frame (cfg : Settings) (now : Z) (obs : nat → entry_obs)
    (indicators : batch) (assets : list string) (i : nat) (st : TradingState) :
  entry_frame st (fst (entry_pass cfg now obs indicators i assets st)).
Proof.
  revert i st. induction assets as [| asset rest IH]; intros i st; simpl.
  - apply entry_frame_refl.
  - destruct (try_entry cfg now (obs i) indicators asset st) as [st1 |] eqn:E;
      [| apply entry_frame_refl].
    apply try_entry_effect in E as [Hframe _].
    eapply entry_frame_trans; [exact Hframe | apply IH].
Qed.

Lemma entry_pass_keeps_times (cfg : Settings) (now : Z) (obs : nat → entry_obs)
    (indicators : batch) (assets : list string) (i : nat) (st : TradingState)
    (a : string) :
  last_trade_time st !! a = Some now →
  last_trade_time (fst (entry_pass cfg now obs indicators i assets st)) !! a
  = Some now.
Proof.
  revert i st. induction assets as [| asset rest IH]; intros i st Ha; simpl;
    [exact Ha |].
  destruct (try_entry cfg now (obs i) indicators asset st) as [st1 |] eqn:E;
    [| exact Ha].
  apply IH. apply try_entry_effect in E as [_ [[_ Htimes] | (o & _ & _ & _ & _ & _ & _ & Htimes)]];
    rewrite Htimes; [exact Ha |].
  destruct (decide (asset = a)) as [-> | Hne].
  - apply lookup_insert_eq.
  - by rewrite lookup_insert_ne.
Qed.

Lemma placed_order_more (asset : string) (rest : list string) (o : Order) :
  placed_order rest o → placed_order (asset :: rest) o.
Proof. intros (H1 & H2 & H3). split; [by right | by split]. Qed.

(** X18.  The entry pass only appends: the orders tracked after it are those
    tracked before, in the same sequence, followed by the orders it placed.
    Every order it placed is on one of the candidate instruments, has a
    stake between 1 and 5000, and has set the cooldown clock of its
    instrument to the time of the cycle; the loss ledger, the figures of the
    daily reset and the streak counters are left alone. *)
Theorem entry_pass_only_appends (cfg : Settings) (now : Z) (obs : nat → entry_obs)
    (indicators : batch) (assets : list string) (i : nat) (st : TradingState) :
  let st' := fst (entry_pass cfg now obs indicators i assets st) in
  entry_frame st st'
  ∧ ∃ placed,
      open_orders st' = open_orders st ++ placed
      ∧ Forall (placed_order assets) placed
      ∧ Forall (λ o, last_trade_time st' !! order_asset o = Some now) placed.
Proof.
  intros st'. subst st'. split; [apply entry_pass_frame |].
  revert i st. induction assets as [| asset rest IH]; intros i st; simpl.
  - exists []. by rewrite app_nil_r.
  - destruct (try_entry cfg now (obs i) indicators asset st) as [st1 |] eqn:E.
    + destruct (IH (S i) st1) as (placed & Horders & Hplaced & Htimes).
      apply try_entry_effect in E
        as [_ [[Hsame _] | (o & Hadd & Hasset & Hlo & Hhi & _ & _ & Hclock)]].
      * exists placed. rewrite Horders, Hsame. split; [reflexivity |].
        split; [| exact Htimes].
        eapply Forall_impl; [exact Hplaced |]. intros p. apply placed_order_more.
      * exists (o :: placed). rewrite Horders, Hadd, <- app_assoc.
        split; [reflexivity |]. split.
        -- constructor.
           ++ split; [rewrite Hasset; by left | by split].
           ++ eapply Forall_impl; [exact Hplaced |]. intros p.
              apply placed_order_more.
        -- constructor; [| exact Htimes].
           apply entry_pass_keeps_times. rewrite Hclock, Hasset.
           apply lookup_insert_eq.
    + exists []. simpl. by rewrite app_nil_r.
Qed.

Lemma no_order_on_asset (asset : string) (orders : list Order) :
  existsb (λ o, String.eqb (order_asset o) asset) orders = false →
  asset ∉ map order_asset orders.
Proof.
  induction orders as [| o rest IH]; simpl; [intros _; apply not_elem_of_nil |].
  intros H. apply orb_false_iff in H as [Ho Hrest].
  apply not_elem_of_cons. split; [| by apply IH].
  apply String.eqb_neq in Ho. congruence.
Qed.

Lemma entry_pass_one_order_per_asset (cfg : Settings) (now : Z)
    (obs : nat → entry_obs) (indicators : batch) (assets : list string) (i : nat)
    (st : TradingState) :
  one_order_per_asset st →
  one_order_per_asset (fst (entry_pass cfg now obs indicators i assets st)).
Proof.
  unfold one_order_per_asset.
  revert i st. induction assets as [| asset rest IH]; intros i st Hst; simpl;
    [exact Hst |].
  destruct (try_entry cfg now (obs i) indicators asset st) as [st1 |] eqn:E;
    [| exact Hst].
  apply IH.
  apply try_entry_effect in E
    as [_ [[-> _] | (o & -> & Hasset & _ & _ & Hfree & _)]]; [exact Hst |].
  rewrite map_app. simpl. apply NoDup_app. split; [exact Hst |]. split.
  - intros a Ha Hin. apply list_elem_of_singleton in Hin. subst a.
    rewrite Hasset in Ha. by apply (no_order_on_asset asset (open_orders st)).
  - apply NoDup_singleton.
Qed.

Lemma monitoring_pass_shrinks (obs : nat → order_obs) (st : TradingState) :
  open_orders (monitoring_pass obs st) `sublist_of` open_orders st
  ∧ monitoring_frame st (monitoring_pass obs st)
  ∧ initial_daily_balance (monitoring_pass obs st) = initial_daily_balance st
  ∧ last_reset_time (monitoring_pass obs st) = last_reset_time st.
Proof.
  unfold monitoring_pass.
  pose proof (monitor_orders_extends obs (open_orders st) 0 (st, [])) as [Hsame _].
  pose proof (monitor_orders_frame obs (open_orders st) 0 (st, [])) as Hframe.
  destruct (monitor_orders obs 0 (open_orders st) (st, [])) as [st1 to_remove].
  simpl in Hsame, Hframe.
  destruct (removals_shrink to_remove st1) as [Hsub Hframe'].
  pose proof (monitoring_frame_trans _ _ _ Hframe Hframe') as Hall.
  split; [by rewrite <- Hsame |]. split; [exact Hall |].
  destruct Hall as (_ & H2 & H3 & _). by split.
Qed.

(** X19.  At most one open order per instrument: if no two tracked orders
    are on the same instrument when [execute_trades] starts, then none are
    when it ends, whatever the collaborators answer and wherever the cycle
    stops. *)
Theorem one_order_per_asset_is_kept (cfg : Settings) (w : World)
    (assets : list string) (indicators : batch) (st : TradingState) :
  one_order_per_asset st →
  one_order_per_asset (fst (execute_trades cfg w assets indicators st)).
Proof.
  intros Hst. unfold execute_trades.
  destruct (negb (TRADE_ENABLED cfg) || (length assets =? 0)%nat); [exact Hst |].
  assert (Hreset :
    ∀ st0, (if reset_due st (w_now w)
            then balance ← w_reset_balance w;
                 Ok (reset_daily cfg st balance (w_now w))
            else Ok st) = Ok st0 →
           one_order_per_asset st0).
  { intros st0. destruct (reset_due st (w_now w)); [| by intros [= <-]].
    destruct (w_reset_balance w) as [balance |]; simpl; [| discriminate].
    by intros [= <-]. }
  destruct (if reset_due st (w_now w) then _ else _) as [st0 |]; [| exact Hst].
  specialize (Hreset st0 eq_refl).
  apply entry_pass_one_order_per_asset.
  assert (Hmon : one_order_per_asset (monitoring_pass (w_order_obs w) st0)).
  { unfold one_order_per_asset in *.
    destruct (monitoring_pass_shrinks (w_order_obs w) st0) as [Hsub _].
    apply (sublist_NoDup _ (map order_asset (open_orders st0)));
      [exact Hreset |].
    apply (fmap_sublist order_asset). exact Hsub. }
  unfold one_order_per_asset in *. unfold adjust_trade_percentage.
  destruct (_ <=? consecutive_losses _); [exact Hmon |].
  destruct (_ <=? consecutive_wins _); exact Hmon.
Qed.

Lemma one_order_per_asset_is_kept_witness :
  one_order_per_asset sample_state
  ∧ one_order_per_asset
      (fst (execute_trades sample_settings sample_world
              ["EURUSD-OTC"; "GBPUSD-OTC"] flat_batch sample_state)).
Proof.
  assert (H : one_order_per_asset sample_state).
  { unfold one_order_per_asset. simpl. apply NoDup_singleton. }
  split; [exact H |].
  apply (one_order_per_asset_is_kept sample_settings sample_world _ _ _ H).
Defined.

(** X20.  A stop-out that the broker also reports is counted twice.  When
    the bands are present, a call is checked at a price under the lower band
    and, in the same turn, the broker's record lists the order as closed,
    the loss of the trailing stop is followed by a second booking: a second
    loss of the stake when the recorded profit is not positive, or a win of
    the recorded profit otherwise (which resets the loss streak just
    counted).  The order is queued twice for removal. *)
Theorem stop_out_is_booked_twice (obs : order_obs) (order : Order)
    (st : TradingState) (to_remove : list Order) (indicators : batch)
    (snap : snapshot) (lower upper p : num) (order_status : list broker_order)
    (info : broker_order) :
  oo_indicators obs = Ok indicators →
  dict_find indicators (order_asset order) = Some snap →
  dict_get snap "BB_lower" = VNum lower →
  dict_get snap "BB_upper" = VNum upper →
  oo_price obs = Ok (Some p) →
  price_falsy (Some p) = false →
  order_direction order = Call →
  num_ltb p lower = true →
  oo_orders obs = Ok order_status →
  find_order_info order_status (order_id order) = Some info →
  bo_status info = "closed" →
  check_order obs order (st, to_remove)
  = (match bo_profit info with
     | Some profit =>
         if Qltb 0 profit
         then update_win (update_loss st (order_amount order)) profit
         else update_loss (update_loss st (order_amount order)) (order_amount order)
     | None => update_loss (update_loss st (order_amount order)) (order_amount order)
     end,
     to_remove ++ [order; order]).
Proof.
  intros Hind Hsnap Hlow Hup Hprice Htruthy Hdir Hhit Horders Hinfo Hclosed.
  unfold check_order, check_order_body.
  rewrite Hind, Hsnap, Hlow, Hup, Hprice, Htruthy. simpl.
  unfold trailing_stop. rewrite Hdir. simpl. rewrite Hhit. simpl.
  rewrite Horders. unfold reconcile. rewrite Hinfo, Hclosed. simpl.
  rewrite <- app_assoc. simpl.
  destruct (bo_profit info) as [profit |]; [| reflexivity].
  by destruct (Qltb 0 profit).
Qed.

Lemma stop_out_is_booked_twice_witness :
  check_order stopped_and_closed_obs sample_order (sample_state, [])
  = (update_loss (update_loss sample_state 10) 10, [sample_order; sample_order]).
Proof.
  apply (stop_out_is_booked_twice stopped_and_closed_obs sample_order
           sample_state [] flat_batch flat_snapshot (Fin 95) (Fin 105) (Fin 94)
           [ {| bo_id := IdInt 7; bo_status := "closed"; bo_profit := Some 0%Q |} ]
           {| bo_id := IdInt 7; bo_status := "closed"; bo_profit := Some 0%Q |});
    reflexivity.
Defined.

Lemma adjust_keeps_reset (cfg : Settings) (st : TradingState) :
  last_reset_time (adjust_trade_percentage cfg st) = last_reset_time st
  ∧ initial_daily_balance (adjust_trade_percentage cfg st)
    = initial_daily_balance st.
Proof.
  unfold adjust_trade_percentage.
  destruct (_ <=? consecutive_losses st); [by split |].
  destruct (_ <=? consecutive_wins st); by split.
Qed.

Lemma cycle_keeps_reset (cfg : Settings) (w : World) (assets : list string)
    (indicators : batch) (st0 : TradingState) :
  let st' :=
    fst (entry_pass cfg (w_now w) (w_entry_obs w) indicators 0 assets
           (adjust_trade_percentage cfg (monitoring_pass (w_order_obs w) st0))) in
  last_reset_time st' = last_reset_time st0
  ∧ initial_daily_balance st' = initial_daily_balance st0.
Proof.
  intros st'. subst st'.
  pose proof (entry_pass_frame cfg (w_now w) (w_entry_obs w) indicators assets 0
                (adjust_trade_percentage cfg
                   (monitoring_pass (w_order_obs w) st0)))
    as (_ & E1 & E2 & _).
  destruct (adjust_keeps_reset cfg (monitoring_pass (w_order_obs w) st0))
    as [A1 A2].
  destruct (monitoring_pass_shrinks (w_order_obs w) st0) as (_ & _ & M1 & M2).
  split; congruence.
Qed.

(** X21.  The daily reset comes first and nothing after it undoes it.  For
    an enabled cycle with candidates, when the balance can be read: if no
    reset was ever made or the last one is 86400 seconds old or more, the
    state [execute_trades] leaves has the time of the cycle as its reset time
    and the balance read as its initial daily balance; otherwise both are as
    before.  Either way the reset time it leaves is less than 86400 seconds
    before the time of the cycle. *)
Theorem cycle_resets_once_a_day (cfg : Settings) (w : World)
    (assets : list string) (indicators : batch) (st : TradingState) (balance : Q) :
  TRADE_ENABLED cfg = true →
  assets ≠ [] →
  w_reset_balance w = Ok balance →
  let st' := fst (execute_trades cfg w assets indicators st) in
  (if reset_due st (w_now w)
   then last_reset_time st' = Some (w_now w) ∧ initial_daily_balance st' = balance
   else last_reset_time st' = last_reset_time st
        ∧ initial_daily_balance st' = initial_daily_balance st)
  ∧ ∃ t, last_reset_time st' = Some t ∧ w_now w - t < 86400.
Proof.
  intros Henabled Hassets Hbalance st'. subst st'. unfold execute_trades.
  rewrite Henabled. destruct assets as [| a assets]; [contradiction |].
  cbn [negb orb length Nat.eqb]. rewrite Hbalance. cbn [mbind result_bind].
  destruct (reset_due st (w_now w)) eqn:Hdue.
  - destruct (cycle_keeps_reset cfg w (a :: assets) indicators
                (reset_daily cfg st balance (w_now w))) as [H1 H2].
    simpl in H1, H2. split; [by split |].
    exists (w_now w). split; [exact H1 | lia].
  - destruct (cycle_keeps_reset cfg w (a :: assets) indicators st) as [H1 H2].
    split; [by split |].
    unfold reset_due in Hdue. destruct (last_reset_time st) as [t |] eqn:Ht;
      [| discriminate].
    exists t. split; [exact H1 |].
    destruct (Z.leb_spec 86400 (w_now w - t)); [discriminate | lia].
Qed.

Lemma cycle_resets_once_a_day_witness :
  (if reset_due sample_state (w_now sample_world)
   then last_reset_time
          (fst (execute_trades sample_settings sample_world ["GBPUSD-OTC"]
                  flat_batch sample_state)) = Some (w_now sample_world)
        ∧ initial_daily_balance
            (fst (execute_trades sample_settings sample_world ["GBPUSD-OTC"]
                    flat_batch sample_state)) = 1000%Q
   else last_reset_time
          (fst (execute_trades sample_settings sample_world ["GBPUSD-OTC"]
                  flat_batch sample_state)) = last_reset_time sample_state
        ∧ initial_daily_balance
            (fst (execute_trades sample_settings sample_world ["GBPUSD-OTC"]
                    flat_batch sample_state))
          = initial_daily_balance sample_state)
  ∧ ∃ t, last_reset_time
           (fst (execute_trades sample_settings sample_world ["GBPUSD-OTC"]
                   flat_batch sample_state)) = Some t
         ∧ w_now sample_world - t < 86400.
Proof.
  apply (cycle_resets_once_a_day sample_settings sample_world ["GBPUSD-OTC"]
           flat_batch sample_state 1000).
  - reflexivity.
  - discriminate.
  - reflexivity.
Defined.

Lemma try_entry_idle (cfg : Settings) (now : Z) (obs : entry_obs)
    (indicators : batch) (asset : string) (st : TradingState) :
  (∀ price dir,
     get_signal_for_strategy cfg (STRATEGY cfg)
       (match dict_find indicators asset with Some s => s | None => [] end)
       price ≠ Ok (Some dir)) →
  try_entry cfg now obs indicators asset st = Ok st
  ∨ try_entry cfg now obs indicators asset st = Raised.
Proof.
  intros Hsilent. unfold try_entry.
  destruct (existsb _ (open_orders st)); [by left |].
  destruct (_ <? TRADE_COOLDOWN cfg); [by left |].
  destruct (eo_price obs) as [[price |] |]; cbn [mbind result_bind];
    [| by left | by right].
  specialize (Hsilent price).
  destruct (get_signal_for_strategy cfg (STRATEGY cfg) _ price)
    as [[dir |] |]; cbn [mbind result_bind]; [| | by right].
  - by destruct (Hsilent dir eq_refl).
  - destruct (audit_row (eo_audit obs) _) as [[] |]; cbn [mbind result_bind];
      [by left | by right].
Qed.

Lemma trend_on_empty_snapshot (cfg : Settings) (price : num) :
  is_trade_signal_trend cfg [] price = Ok None.
Proof. reflexivity. Qed.

(** X22.  Under the trend strategy a cycle fed by the pipeline places no
    order: when the indicator batch handed to the entry pass is one that
    [calculate_indicators] returned, the pass leaves the trading state as it
    found it, for every list of candidates and whatever prices, balances and
    broker answers it meets. *)
Theorem trend_places_no_order_on_pipeline_batches (cfg cfg' : Settings)
    (tl : Talib) (client : CandleSource) (requested : list string)
    (timeframe t : Z) (cache : TTLCache (list Candle)) (now : Z)
    (obs : nat → entry_obs) (assets : list string) (i : nat) (st : TradingState) :
  STRATEGY cfg = "trend" →
  fst (entry_pass cfg now obs
         (co_results (calculate_indicators cfg' tl client requested timeframe t cache))
         i assets st) = st.
Proof.
  intros Hstrategy.
  revert i. induction assets as [| asset rest IH]; intros i; simpl; [reflexivity |].
  destruct (try_entry_idle cfg now (obs i)
              (co_results (calculate_indicators cfg' tl client requested timeframe t cache))
              asset st) as [-> | ->]; [| apply IH | reflexivity].
  intros price dir. rewrite Hstrategy. unfold get_signal_for_strategy. simpl.
  destruct (dict_find _ asset) as [snap |] eqn:Hsnap.
  - pose proof (pipeline_snapshot_has_no_band_keys cfg' tl client requested
                  timeframe t cache asset snap Hsnap) as [Hup Hlow].
    unfold is_trade_signal_trend. rewrite Hup, Hlow.
    destruct (dict_get2 snap "STOCHASTIC" "k"); simpl; [| discriminate].
    destruct (dict_get2 snap "STOCHASTIC" "d"); simpl; [| discriminate].
    destruct (dict_get2 snap "MACD" "macd"); simpl; [| discriminate].
    destruct (dict_get2 snap "MACD" "signal"); simpl; [| discriminate].
    rewrite !orb_true_r. discriminate.
  - rewrite trend_on_empty_snapshot. discriminate.
Qed.

Lemma trend_places_no_order_on_pipeline_batches_witness :
  fst (entry_pass sample_settings 1000 willing_entry_obs sample_batch 0
         ["EURUSD-OTC"; "GBPUSD-OTC"] (new_trading_state sample_settings))
  = new_trading_state sample_settings.
Proof.
  apply (trend_places_no_order_on_pipeline_batches sample_settings sample_settings
           sample_talib sample_source ["EURUSD-OTC"] 60 0 candle_cache_init 1000
           willing_entry_obs ["EURUSD-OTC"; "GBPUSD-OTC"] 0
           (new_trading_state sample_settings)).
  reflexivity.
Defined.

(* ===================================================================== *)
(** * Properties of the outer loop *)
(* ===================================================================== *)

(** X23.  The low-liquidity pause of the main loop is never taken: no hour
    is at once 22 or later and 2 or earlier, so the test is false for every
    value of the clock and the one-hour sleep behind it is unreachable. *)
Theorem low_liquidity_pause_is_never_taken (utc_hour : Z) :
  low_liquidity_period utc_hour = false.
Proof.
  unfold low_liquidity_period.
  destruct (Z.leb_spec 22 utc_hour); [| reflexivity].
  destruct (Z.leb_spec utc_hour 2); [lia | reflexivity].
Qed.

Lemma reconnect_delay_bounds (attempt : Z) :
  1 <= attempt → 10 <= reconnect_delay attempt <= 60.
Proof.
  intros H. unfold reconnect_delay.
  assert (2 ^ 1 <= 2 ^ attempt) by (apply Z.pow_le_mono_r; lia).
  change (2 ^ 1) with 2 in *. lia.
Qed.

Lemma reconnect_loop_spec (outcome : Z → attempt_outcome) (left : nat) (attempt : Z) :
  1 <= attempt →
  let '(r, slept) := reconnect_loop outcome attempt left in
  (r = true ↔ ∃ k, attempt <= k < attempt + Z.of_nat left ∧ outcome k = AttemptOk)
  ∧ (∀ k, attempt <= k < attempt + Z.of_nat (length slept) → outcome k ≠ AttemptOk)
  ∧ slept = map reconnect_delay (map (λ j, attempt + Z.of_nat j) (seq 0 (length slept)))
  ∧ (length slept <= left)%nat
  ∧ (r = true → outcome (attempt + Z.of_nat (length slept)) = AttemptOk)
  ∧ (r = false → length slept = left).
Proof.
  revert attempt. induction left as [| left IH]; intros attempt Hpos.
  - cbn [reconnect_loop length].
    split; [split; [discriminate | intros (k & Hk & _); lia] |].
    split; [intros k Hk; lia |].
    split; [reflexivity |]. split; [lia |]. split; [discriminate | reflexivity].
  - cbn [reconnect_loop].
    assert (Hfail : outcome attempt ≠ AttemptOk →
      let '(r, slept) :=
        (let '(r, slept) := reconnect_loop outcome (attempt + 1) left in
         (r, reconnect_delay attempt :: slept)) in
      (r = true ↔ ∃ k, attempt <= k < attempt + Z.of_nat (S left) ∧ outcome k = AttemptOk)
      ∧ (∀ k, attempt <= k < attempt + Z.of_nat (length slept) → outcome k ≠ AttemptOk)
      ∧ slept = map reconnect_delay (map (λ j, attempt + Z.of_nat j) (seq 0 (length slept)))
      ∧ (length slept <= S left)%nat
      ∧ (r = true → outcome (attempt + Z.of_nat (length slept)) = AttemptOk)
      ∧ (r = false → length slept = S left)).
    { intros Hout. specialize (IH (attempt + 1) ltac:(lia)).
      destruct (reconnect_loop outcome (attempt + 1) left) as [r slept].
      destruct IH as (Hiff & Hnone & Hslept & Hlen & Hlast & Hall).
      split.
      { rewrite Hiff. split; intros (k & Hk & Hok); exists k; (split; [| exact Hok]); [lia |].
        destruct (decide (k = attempt)) as [-> | Hne]; [congruence | lia]. }
      split.
      { intros k Hk. cbn [length] in Hk.
        destruct (decide (k = attempt)) as [-> | Hne]; [exact Hout |].
        apply Hnone. lia. }
      split.
      { cbn [length seq map]. rewrite Z.add_0_r. f_equal. rewrite Hslept at 1.
        rewrite <- seq_shift, !map_map. apply map_ext. intros j. f_equal. lia. }
      split; [cbn [length]; lia |]. split.
      { intros Hr. cbn [length]. specialize (Hlast Hr).
        replace (attempt + Z.of_nat (S (length slept)))
          with (attempt + 1 + Z.of_nat (length slept)) by lia. exact Hlast. }
      intros Hr. cbn [length]. by rewrite (Hall Hr). }
    destruct (outcome attempt) eqn:Hout.
    + cbn [length].
      split; [split; [intros _; exists attempt; split; [lia | exact Hout] | reflexivity] |].
      split; [intros k Hk; lia |].
      split; [reflexivity |]. split; [lia |].
      split; [intros _; rewrite Z.add_0_r; exact Hout | discriminate].
    + apply Hfail. discriminate.
    + apply Hfail. discriminate.
Qed.

(** X24.  [reconnect] answers true exactly when one of the attempts
    1..max_attempts succeeds; it stops at the first one that does, having
    slept once after each failed attempt before it, the n-th sleep lasting
    min(5 * 2^n, 60) seconds, which is between 10 and 60; when it gives up
    it has slept after every attempt, the last one included. *)
Theorem reconnect_stops_at_first_success (outcome : Z → attempt_outcome) (max_attempts : Z) :
  let '(r, slept) := reconnect outcome max_attempts in
  let failed := Z.of_nat (length slept) in
  (r = true ↔ ∃ k, 1 <= k <= max_attempts ∧ outcome k = AttemptOk)
  ∧ (∀ k, 1 <= k <= failed → outcome k ≠ AttemptOk)
  ∧ (r = true → outcome (failed + 1) = AttemptOk)
  ∧ (r = false → failed = Z.max 0 max_attempts)
  ∧ slept = map (λ j, reconnect_delay (1 + Z.of_nat j)) (seq 0 (length slept))
  ∧ Forall (λ d, 10 <= d <= 60) slept.
Proof.
  unfold reconnect.
  pose proof (reconnect_loop_spec outcome (Z.to_nat max_attempts) 1 ltac:(lia)) as H.
  destruct (reconnect_loop outcome 1 (Z.to_nat max_attempts)) as [r slept].
  destruct H as (Hiff & Hnone & Hslept & Hlen & Hlast & Hall).
  cbv zeta. split.
  { rewrite Hiff. split; intros (k & Hk & Hok); exists k; (split; [lia | exact Hok]). }
  split; [intros k Hk; apply Hnone; lia |].
  split; [intros Hr; rewrite Z.add_comm; exact (Hlast Hr) |].
  split; [intros Hr; rewrite (Hall Hr); lia |].
  rewrite map_map in Hslept. split; [exact Hslept |].
  rewrite Hslept. apply List.Forall_forall. intros d Hd.
  apply in_map_iff in Hd as (j & <- & _).
  apply reconnect_delay_bounds. lia.
Qed.

(* ===================================================================== *)
(** * Properties of the asset listing *)
(* ===================================================================== *)

Lemma num_ltb_leb (a b : num) : num_ltb a b = true → num_leb a b = true.
Proof.
  destruct a as [p | | |], b as [q | | |]; simpl; try done.
  rewrite Qltb_lt, Qle_bool_iff. apply Qlt_le_weak.
Qed.

Lemma num_leb_total (a b : num) :
  a ≠ NaN → b ≠ NaN → num_ltb a b = false → num_leb b a = true.
Proof.
  destruct a as [p | | |], b as [q | | |]; simpl; try done.
  intros _ _. by rewrite Qltb_ge, Qle_bool_iff.
Qed.

Lemma num_leb_trans (a b c : num) :
  num_leb a b = true → num_leb b c = true → num_leb a c = true.
Proof.
  destruct a as [p | | |], b as [q | | |], c as [r | | |]; simpl; try done.
  rewrite !Qle_bool_iff. apply Qle_trans.
Qed.

Lemma num_leb_number (a b : num) : num_leb a b = true → a ≠ NaN ∧ b ≠ NaN.
Proof. destruct a, b; simpl; try done. Qed.

Lemma sort_insert_perm {A : Type} (key : A → num) (reverse : bool) (x : A)
    (l : list A) :
  sort_insert key reverse x l ≡ₚ x :: l.
Proof.
  induction l as [| y rest IH]; simpl; [done |].
  destruct (if reverse then _ else _); [| done].
  rewrite IH. apply Permutation_swap.
Qed.

Lemma list_sort_perm {A : Type} (key : A → num) (reverse : bool) (l : list A) :
  list_sort key reverse l ≡ₚ l.
Proof.
  induction l as [| x rest IH]; simpl; [done |].
  rewrite sort_insert_perm. by rewrite IH.
Qed.

Lemma sort_insert_sorted {A : Type} (key : A → num) (reverse : bool) (x : A)
    (l : list A) :
  let R := λ a b, (if reverse then num_leb (key b) (key a)
                   else num_leb (key a) (key b)) = true in
  key x ≠ NaN → Forall (λ y, key y ≠ NaN) l →
  StronglySorted R l → StronglySorted R (sort_insert key reverse x l).
Proof.
  intros R Hx Hl Hs. induction Hs as [| y rest Hs IH Hy]; simpl.
  - constructor; [constructor | constructor].
  - apply Forall_cons in Hl as [Hyn Hl].
    destruct (if reverse then num_ltb (key x) (key y) else num_ltb (key y) (key x))
      eqn:Hcmp.
    + constructor; [by apply IH |].
      rewrite sort_insert_perm. constructor; [| exact Hy].
      unfold R. destruct reverse; by apply num_ltb_leb.
    + assert (Hxy : R x y).
      { unfold R. destruct reverse; by apply num_leb_total. }
      constructor; [by constructor |].
      constructor; [exact Hxy |].
      eapply Forall_impl; [exact Hy |]. intros z Hz. unfold R in *.
      destruct reverse; eapply num_leb_trans; eauto.
Qed.

Lemma list_sort_sorted {A : Type} (key : A → num) (reverse : bool) (l : list A) :
  Forall (λ y, key y ≠ NaN) l →
  StronglySorted (λ a b, (if reverse then num_leb (key b) (key a)
                          else num_leb (key a) (key b)) = true)
    (list_sort key reverse l).
Proof.
  induction l as [| x rest IH]; intros Hl; simpl; [constructor |].
  apply Forall_cons in Hl as [Hx Hl].
  apply sort_insert_sorted; [exact Hx | | by apply IH].
  by rewrite list_sort_perm.
Qed.

Lemma otc_names_of_elem (open_assets : list (string * bool)) (asset : string) :
  asset ∈ otc_names_of open_assets →
  (asset, true) ∈ open_assets ∧ ends_with asset "-OTC" = true.
Proof.
  unfold otc_names_of. intros H.
  apply list_elem_of_fmap in H as ([name is_open] & -> & H).
  apply list_elem_of_In, filter_In in H as [Hin Hcond].
  apply andb_true_iff in Hcond as [Hends Hopen]. simpl in *. subst is_open.
  split; [by apply list_elem_of_In | exact Hends].
Qed.

Lemma name_in_elem (a : string) (names : list string) :
  name_in a names = true → a ∈ names.
Proof.
  unfold name_in. intros H. apply existsb_exists in H as (b & Hin & Heq).
  apply String.eqb_eq in Heq as ->. by apply list_elem_of_In.
Qed.

Lemma apply_assets_filter_elem (acfg : AssetSettings) (strip : string → string)
    (otc_names : list string) (asset : string) :
  asset ∈ apply_assets_filter acfg strip otc_names →
  asset ∈ otc_names
  ∧ (existsb (λ a, nonempty (strip a)) (ASSETS acfg) = true →
     asset ∈ map strip (ASSETS acfg)).
Proof.
  unfold apply_assets_filter.
  destruct (existsb _ (ASSETS acfg)) eqn:Hany.
  - destruct (ASSETS acfg) as [| a0 rest] eqn:Hassets; [discriminate |].
    cbn [negb andb]. intros H.
    apply list_elem_of_In, filter_In in H as [Hsel Hin].
    split; [by apply name_in_elem |]. intros _.
    apply in_map_iff in Hsel as (a & <- & Ha).
    apply filter_In in Ha as [Ha _].
    apply list_elem_of_In, in_map. exact Ha.
  - rewrite andb_false_r. intros H. split; [exact H | discriminate].
Qed.

Lemma collect_candidates_elem (acfg : AssetSettings)
    (billing : nat → result (option pyval)) (otc_names : list string) (i : nat)
    (asset : string) (payout : num) :
  (asset, payout) ∈ collect_candidates acfg billing i otc_names →
  asset ∈ otc_names
  ∧ num_leb (Fin (MIN_PAYOUT acfg)) payout = true
  ∧ ∃ j, billed_payout (billing j) = Ok (VNum payout).
Proof.
  revert i. induction otc_names as [| name rest IH]; intros i; simpl.
  - intros H. by apply elem_of_nil in H.
  - destruct (candidate_payout acfg (billing i)) as [p |] eqn:Hp.
    + intros H. apply elem_of_cons in H as [[= -> ->] | H].
      * split; [left |]. unfold candidate_payout in Hp.
        destruct (billed_payout (billing i)) as [[| x | |] |] eqn:Hb; try discriminate.
        destruct (num_leb _ x) eqn:Hle; [| discriminate].
        injection Hp as ->. split; [exact Hle | by exists i].
      * destruct (IH _ H) as (Hin & Hrest). split; [by right | exact Hrest].
    + intros H. destruct (IH _ H) as (Hin & Hrest). split; [by right | exact Hrest].
Qed.

Lemma fetch_prices_elem (fetch_price : nat → result (option num))
    (assets : list string) (i : nat) (prices : list (string * num))
    (asset : string) (price : num) :
  dict_find (fetch_prices fetch_price i assets prices) asset = Some price →
  dict_find prices asset = Some price
  ∨ ∃ j, assets !! j = Some asset ∧ fetch_price (i + j)%nat = Ok (Some price).
Proof.
  revert i prices. induction assets as [| a rest IH]; intros i prices; simpl.
  - by left.
  - intros H. apply IH in H as [H | (j & Hj & Hf)].
    + destruct (fetch_price i) as [[p |] |] eqn:Hf; [| by left | by left].
      apply dict_find_set in H as [[-> ->] | [_ H]]; [| by left].
      right. exists O. split; [reflexivity | by rewrite Nat.add_0_r].
    + right. exists (S j). split; [exact Hj | by rewrite Nat.add_succ_r].
Qed.

Lemma prefilter_tradable (cfg : Settings) (vals : snapshot) (price : option num) :
  prefilter cfg vals price = Ok Tradable →
  (∃ p, price = Some p ∧ num_ltb p (Fin (1 # 10000)) = false)
  ∧ dict_get vals "RSI" ≠ VNone
  ∧ dict_get vals "SMA" ≠ VNone
  ∧ ∃ stoch_k stoch_d,
      dict_get2 vals "STOCHASTIC" "k" = Ok stoch_k ∧ stoch_k ≠ VNone
      ∧ dict_get2 vals "STOCHASTIC" "d" = Ok stoch_d ∧ stoch_d ≠ VNone.
Proof.
  unfold prefilter.
  destruct (dict_get2 vals "STOCHASTIC" "k") as [stoch_k |]; [| discriminate].
  destruct (dict_get2 vals "STOCHASTIC" "d") as [stoch_d |]; [| discriminate].
  destruct (dict_get2 vals "MACD" "macd") as [macd |]; [| discriminate].
  destruct (dict_get2 vals "MACD" "signal") as [signal |]; [| discriminate].
  cbn [mbind result_bind].
  destruct price as [p |]; [| discriminate].
  destruct (num_ltb p _) eqn:Hp; [discriminate |].
  destruct (is_none (dict_get vals "RSI") || is_none (dict_get vals "SMA")) eqn:Hrs;
    [discriminate |].
  destruct (is_none stoch_k || is_none stoch_d) eqn:Hkd; [discriminate |].
  apply orb_false_iff in Hrs as [Hr Hs]. apply orb_false_iff in Hkd as [Hk Hd].
  intros _. split; [by exists p |].
  split; [by destruct (dict_get vals "RSI") |].
  split; [by destruct (dict_get vals "SMA") |].
  exists stoch_k, stoch_d. repeat split; try done.
  - by destruct stoch_k.
  - by destruct stoch_d.
Qed.

Lemma prefilter_candidates_elem (cfg : Settings) (indicators : batch)
    (prices : list (string * num)) (candidates tradable : list (string * num))
    (x : string * num) :
  prefilter_candidates cfg indicators prices candidates = Ok tradable →
  x ∈ tradable →
  x ∈ candidates
  ∧ prefilter cfg (vals_of indicators (fst x)) (dict_find prices (fst x))
    = Ok Tradable.
Proof.
  revert tradable. induction candidates as [| [asset payout] rest IH];
    intros tradable; simpl.
  - intros [= <-] H. by apply elem_of_nil in H.
  - destruct (prefilter cfg (vals_of indicators asset) (dict_find prices asset))
      as [v |] eqn:Hv; [| discriminate].
    destruct (prefilter_candidates cfg indicators prices rest) as [tail |];
      [| discriminate].
    cbn [mbind result_bind]. intros [= <-] Hx.
    assert (Htail : x ∈ tail →
      x ∈ (asset, payout) :: rest
      ∧ prefilter cfg (vals_of indicators (fst x)) (dict_find prices (fst x))
        = Ok Tradable).
    { intros H. destruct (IH tail eq_refl H) as [Hin Hok].
      split; [by right | exact Hok]. }
    destruct v; try (by apply Htail).
    apply elem_of_cons in Hx as [-> | Hx]; [| by apply Htail].
    split; [left | exact Hv].
Qed.

Lemma prefilter_candidates_raises (cfg : Settings) (indicators : batch)
    (prices : list (string * num)) (candidates : list (string * num))
    (x : string * num) :
  x ∈ candidates →
  prefilter cfg (vals_of indicators (fst x)) (dict_find prices (fst x)) = Raised →
  prefilter_candidates cfg indicators prices candidates = Raised.
Proof.
  intros Hin Hraised. induction candidates as [| [asset payout] rest IH]; simpl.
  - by apply elem_of_nil in Hin.
  - apply elem_of_cons in Hin as [-> | Hin].
    + simpl in Hraised. by rewrite Hraised.
    + rewrite (IH Hin).
      by destruct (prefilter cfg (vals_of indicators asset) (dict_find prices asset)).
Qed.

Lemma list_open_otc_assets_steps (cfg : Settings) (acfg : AssetSettings)
    (strip : string → string) (w : AssetsWorld) (tradable : list (string * num))
    (x : string * num) :
  list_open_otc_assets cfg acfg strip w = Ok tradable →
  x ∈ tradable →
  ∃ open_assets indicators accepted,
    aw_open_assets w = Ok open_assets
    ∧ aw_indicators w = Ok indicators
    ∧ prefilter_candidates cfg indicators
        (get_realtime_prices (aw_fetch_price w)
           (map fst (candidates_of acfg strip w open_assets)))
        (candidates_of acfg strip w open_assets) = Ok accepted
    ∧ tradable ≡ₚ accepted.
Proof.
  unfold list_open_otc_assets.
  destruct (aw_open_assets w) as [open_assets |].
  2:{ intros [= <-] H. by apply elem_of_nil in H. }
  destruct (candidates_of acfg strip w open_assets) as [| c rest] eqn:Hc.
  { intros [= <-] H. by apply elem_of_nil in H. }
  destruct (aw_indicators w) as [indicators |]; [| discriminate].
  cbn [mbind result_bind].
  destruct (prefilter_candidates cfg indicators _ (c :: rest)) as [accepted |] eqn:Hacc;
    [| discriminate].
  intros [= <-] _. exists open_assets, indicators, accepted.
  split; [reflexivity |]. split; [reflexivity |].
  split; [by rewrite Hc | apply list_sort_perm].
Qed.

(** X25.  Every instrument [list_open_otc_assets] returns passed every
    filter: its name ends in -OTC and the broker's table marks it open; when
    the ASSETS setting has a non-blank entry it is the stripped form of one
    of them; it is a candidate, with a payout that is a number of at least
    MIN_PAYOUT; a price task started for this very instrument delivered a
    price that is not under 0.0001; and the batch of indicators records RSI,
    SMA and both stochastic lines for it. *)
Theorem listed_assets_passed_every_filter (cfg : Settings) (acfg : AssetSettings)
    (strip : string → string) (w : AssetsWorld) (tradable : list (string * num))
    (asset : string) (payout : num) :
  list_open_otc_assets cfg acfg strip w = Ok tradable →
  (asset, payout) ∈ tradable →
  ends_with asset "-OTC" = true
  ∧ (existsb (λ a, nonempty (strip a)) (ASSETS acfg) = true →
     asset ∈ map strip (ASSETS acfg))
  ∧ num_leb (Fin (MIN_PAYOUT acfg)) payout = true
  ∧ (∃ open_assets,
       aw_open_assets w = Ok open_assets
       ∧ (asset, true) ∈ open_assets
       ∧ (asset, payout) ∈ candidates_of acfg strip w open_assets
       ∧ ∃ price i,
           map fst (candidates_of acfg strip w open_assets) !! i = Some asset
           ∧ aw_fetch_price w i = Ok (Some price)
           ∧ num_ltb price (Fin (1 # 10000)) = false)
  ∧ (∃ indicators stoch_k stoch_d,
       aw_indicators w = Ok indicators
       ∧ dict_get (vals_of indicators asset) "RSI" ≠ VNone
       ∧ dict_get (vals_of indicators asset) "SMA" ≠ VNone
       ∧ dict_get2 (vals_of indicators asset) "STOCHASTIC" "k" = Ok stoch_k
       ∧ stoch_k ≠ VNone
       ∧ dict_get2 (vals_of indicators asset) "STOCHASTIC" "d" = Ok stoch_d
       ∧ stoch_d ≠ VNone).
Proof.
  intros Hlist Hin.
  destruct (list_open_otc_assets_steps _ _ _ _ _ _ Hlist Hin)
    as (open_assets & indicators & accepted & Hopen & Hind & Hacc & Hperm).
  rewrite Hperm in Hin.
  destruct (prefilter_candidates_elem _ _ _ _ _ _ Hacc Hin) as [Hcand Hok].
  simpl in Hok.
  pose proof Hcand as Hcand'.
  apply collect_candidates_elem in Hcand' as (Hname & Hpay & _).
  apply apply_assets_filter_elem in Hname as [Hname Hwanted].
  apply otc_names_of_elem in Hname as [Hlisted Hends].
  apply prefilter_tradable in Hok
    as ((p & Hp & Hvalid) & Hrsi & Hsma & k & d & Hk & Hkn & Hd & Hdn).
  apply fetch_prices_elem in Hp as [Hp | (j & Hj & Hf)]; [discriminate |].
  split; [exact Hends |].
  split; [exact Hwanted |].
  split; [exact Hpay |].
  split.
  { exists open_assets. split; [exact Hopen |]. split; [exact Hlisted |].
    split; [exact Hcand |]. by exists p, j. }
  by exists indicators, k, d.
Qed.

Lemma listed_assets_passed_every_filter_witness :
  ends_with "GBPUSD-OTC" "-OTC" = true
  ∧ (existsb (λ a, nonempty (strip_blanks a)) (ASSETS sample_asset_settings) = true →
     "GBPUSD-OTC" ∈ map strip_blanks (ASSETS sample_asset_settings))
  ∧ num_leb (Fin (MIN_PAYOUT sample_asset_settings)) (Fin 90) = true
  ∧ (∃ open_assets,
       aw_open_assets (sample_assets_world sample_talib) = Ok open_assets
       ∧ ("GBPUSD-OTC", true) ∈ open_assets
       ∧ ("GBPUSD-OTC", Fin 90)
         ∈ candidates_of sample_asset_settings strip_blanks
             (sample_assets_world sample_talib) open_assets
       ∧ ∃ price i,
           map fst (candidates_of sample_asset_settings strip_blanks
                      (sample_assets_world sample_talib) open_assets) !! i
           = Some "GBPUSD-OTC"
           ∧ aw_fetch_price (sample_assets_world sample_talib) i = Ok (Some price)
           ∧ num_ltb price (Fin (1 # 10000)) = false)
  ∧ (∃ indicators stoch_k stoch_d,
       aw_indicators (sample_assets_world sample_talib) = Ok indicators
       ∧ dict_get (vals_of indicators "GBPUSD-OTC") "RSI" ≠ VNone
       ∧ dict_get (vals_of indicators "GBPUSD-OTC") "SMA" ≠ VNone
       ∧ dict_get2 (vals_of indicators "GBPUSD-OTC") "STOCHASTIC" "k" = Ok stoch_k
       ∧ stoch_k ≠ VNone
       ∧ dict_get2 (vals_of indicators "GBPUSD-OTC") "STOCHASTIC" "d" = Ok stoch_d
       ∧ stoch_d ≠ VNone).
Proof.
  apply (listed_assets_passed_every_filter sample_settings sample_asset_settings
           strip_blanks (sample_assets_world sample_talib)
           [("GBPUSD-OTC", Fin 90); ("EURUSD-OTC", Fin 85)] "GBPUSD-OTC" (Fin 90)).
  - vm_compute. reflexivity.
  - left.
Defined.

(** X26.  Unless SORT_BY is "price", the list [list_open_otc_assets] returns
    is ordered by payout: every entry's payout is at most that of each later
    entry when SORT_ORDER is "asc", and at least that of each later entry
    for any other value of SORT_ORDER. *)
Theorem listing_is_ordered_by_payout (cfg : Settings) (acfg : AssetSettings)
    (strip : string → string) (w : AssetsWorld) (tradable : list (string * num)) :
  list_open_otc_assets cfg acfg strip w = Ok tradable →
  SORT_BY acfg ≠ "price" →
  StronglySorted
    (λ a b, (if String.eqb (SORT_ORDER acfg) "asc"
             then num_leb (snd a) (snd b) else num_leb (snd b) (snd a)) = true)
    tradable.
Proof.
  unfold list_open_otc_assets. intros Hlist Hby.
  destruct (aw_open_assets w) as [open_assets |].
  2:{ injection Hlist as <-. constructor. }
  destruct (candidates_of acfg strip w open_assets) as [| c rest] eqn:Hc.
  { injection Hlist as <-. constructor. }
  destruct (aw_indicators w) as [indicators |]; [| discriminate].
  cbn [mbind result_bind] in Hlist.
  destruct (prefilter_candidates cfg indicators _ (c :: rest)) as [accepted |] eqn:Hacc;
    [| discriminate].
  injection Hlist as <-.
  assert (Hnum : Forall (λ y : string * num, snd y ≠ NaN) accepted).
  { apply Forall_forall. intros [asset payout] Hin.
    destruct (prefilter_candidates_elem _ _ _ _ _ _ Hacc Hin) as [Hcand _].
    rewrite <- Hc in Hcand.
    apply collect_candidates_elem in Hcand as (_ & Hpay & _).
    by apply num_leb_number in Hpay as [_ Hpay]. }
  assert (Hkey : ∀ prices (x : string * num),
    sort_key (if String.eqb (SORT_BY acfg) "payout"
                 || String.eqb (SORT_BY acfg) "price"
              then SORT_BY acfg else "payout") prices x = snd x).
  { intros prices x. unfold sort_key.
    destruct (String.eqb (SORT_BY acfg) "payout") eqn:Hp; cbn [orb].
    - by rewrite Hp.
    - apply String.eqb_neq in Hby. by rewrite Hby. }
  pose proof (list_sort_sorted snd
    (String.eqb (if String.eqb (SORT_ORDER acfg) "asc"
                    || String.eqb (SORT_ORDER acfg) "desc"
                 then SORT_ORDER acfg else "desc") "desc") accepted Hnum) as Hs.
  assert (Hsame : ∀ key reverse (l : list (string * num)),
    (∀ x, key x = snd x) →
    list_sort key reverse l = list_sort snd reverse l).
  { intros key reverse l Hk. induction l as [| x l IH]; simpl; [done |].
    rewrite IH. generalize (list_sort snd reverse l). intros s.
    induction s as [| y s IHs]; simpl; [done |].
    by rewrite !Hk, IHs. }
  rewrite (Hsame _ _ _ (Hkey _)).
  assert (Hrev : String.eqb (if String.eqb (SORT_ORDER acfg) "asc"
                                || String.eqb (SORT_ORDER acfg) "desc"
                             then SORT_ORDER acfg else "desc") "desc"
                 = negb (String.eqb (SORT_ORDER acfg) "asc")).
  { destruct (String.eqb (SORT_ORDER acfg) "asc") eqn:Hasc; cbn [orb negb].
    - apply String.eqb_eq in Hasc. by rewrite Hasc.
    - destruct (String.eqb (SORT_ORDER acfg) "desc") eqn:Hdesc; [exact Hdesc | done]. }
  rewrite Hrev in Hs |- *.
  destruct (String.eqb (SORT_ORDER acfg) "asc"); exact Hs.
Qed.

Lemma listing_is_ordered_by_payout_witness :
  StronglySorted
    (λ a b, (if String.eqb (SORT_ORDER sample_asset_settings) "asc"
             then num_leb (snd a) (snd b) else num_leb (snd b) (snd a)) = true)
    [("GBPUSD-OTC", Fin 90); ("EURUSD-OTC", Fin 85)].
Proof.
  apply (listing_is_ordered_by_payout sample_settings sample_asset_settings
           strip_blanks (sample_assets_world sample_talib)).
  - vm_compute. reflexivity.
  - discriminate.
Defined.

(** X27.  One malformed snapshot aborts the whole listing.  The loop over
    the candidates reads the stochastic and MACD lines of a snapshot before
    it tests anything; when, for any candidate, the batch records STOCHASTIC
    or MACD as something that is not a dict (the pipeline writes None there
    when the indicator could not be computed), [list_open_otc_assets] raises
    and returns no instrument at all. *)
Theorem malformed_snapshot_aborts_listing (cfg : Settings) (acfg : AssetSettings)
    (strip : string → string) (w : AssetsWorld)
    (open_assets : list (string * bool)) (indicators : batch) (asset : string)
    (payout : num) (vals : snapshot) (key : string) (v : pyval) :
  aw_open_assets w = Ok open_assets →
  (asset, payout) ∈ candidates_of acfg strip w open_assets →
  aw_indicators w = Ok indicators →
  dict_find indicators asset = Some vals →
  key = "STOCHASTIC" ∨ key = "MACD" →
  dict_find vals key = Some v →
  is_dict v = false →
  list_open_otc_assets cfg acfg strip w = Raised.
Proof.
  intros Hopen Hcand Hind Hvals Hkey Hv Hdict.
  unfold list_open_otc_assets. rewrite Hopen, Hind.
  destruct (candidates_of acfg strip w open_assets) as [| c rest] eqn:Hc.
  { by apply elem_of_nil in Hcand. }
  cbn [mbind result_bind].
  rewrite (prefilter_candidates_raises cfg indicators _ (c :: rest) (asset, payout));
    [reflexivity | exact Hcand |].
  cbn [fst]. unfold vals_of. rewrite Hvals. unfold prefilter, dict_get2.
  destruct Hkey as [-> | ->]; rewrite Hv.
  - by destruct v.
  - destruct v; try discriminate;
      by destruct (match dict_find vals "STOCHASTIC" with
                   | Some x => py_get x "k" | None => Ok VNone end),
                  (match dict_find vals "STOCHASTIC" with
                   | Some x => py_get x "d" | None => Ok VNone end).
Qed.

Lemma malformed_snapshot_aborts_listing_witness :
  list_open_otc_assets sample_settings sample_asset_settings strip_blanks
    (sample_assets_world broken_stoch_talib) = Raised.
Proof.
  apply (malformed_snapshot_aborts_listing sample_settings sample_asset_settings
           strip_blanks (sample_assets_world broken_stoch_talib)
           [("EURUSD-OTC", true); ("EURUSD", true); ("GBPUSD-OTC", true);
            ("USDJPY-OTC", false)]
           (two_asset_batch broken_stoch_talib) "GBPUSD-OTC" (Fin 90)
           [("RSI", VNum (Fin 25)); ("SMA", VNum (Fin 100)); ("STOCHASTIC", VNone);
            ("BOLLINGER",
             VDict [("BB_upper", VNum (Fin 105)); ("BB_lower", VNum (Fin 95))])]
           "STOCHASTIC" VNone).
  - reflexivity.
  - vm_compute. right. left.
  - reflexivity.
  - vm_compute. reflexivity.
  - by left.
  - reflexivity.
  - reflexivity.
Defined.

(** X28.  The listing never discards an opportunity of the trend strategy.
    Whenever [is_trade_signal_trend] gives a signal on a snapshot and a price
    that is not under 0.0001, and both bands of the snapshot are numbers,
    the loop of [list_open_otc_assets] keeps a candidate with that snapshot
    and that price. *)
Theorem prefilter_keeps_trend_signals (cfg : Settings) (vals : snapshot)
    (price : num) (dir : direction) :
  is_trade_signal_trend cfg vals price = Ok (Some dir) →
  num_ltb price (Fin (1 # 10000)) = false →
  is_number (dict_get vals "BB_upper") = true →
  is_number (dict_get vals "BB_lower") = true →
  prefilter cfg vals (Some price) = Ok Tradable.
Proof.
  unfold is_trade_signal_trend, prefilter. intros H Hprice Hupper Hlower.
  destruct (dict_get2 vals "STOCHASTIC" "k") as [stoch_k |]; [| discriminate].
  destruct (dict_get2 vals "STOCHASTIC" "d") as [stoch_d |]; [| discriminate].
  destruct (dict_get2 vals "MACD" "macd") as [macd |]; [| discriminate].
  destruct (dict_get2 vals "MACD" "signal") as [signal |]; [| discriminate].
  cbn [mbind result_bind] in H |- *. rewrite Hprice.
  destruct (dict_get vals "BB_upper") as [| upper | |]; try discriminate.
  destruct (dict_get vals "BB_lower") as [| lower | |]; try discriminate.
  destruct (existsb is_none _) eqn:Hnone; [discriminate |].
  cbn [existsb] in Hnone.
  apply orb_false_iff in Hnone as [Hrsi Hnone].
  apply orb_false_iff in Hnone as [Hsma Hnone].
  apply orb_false_iff in Hnone as [Hk Hnone].
  apply orb_false_iff in Hnone as [Hd _].
  rewrite Hrsi, Hsma, Hk, Hd. cbn [orb].
  unfold macd_guard, band_guard. cbn [is_none].
  destruct (MACD_INDICATOR cfg) eqn:Hmacd; cbn [negb].
  - destruct (is_none macd) eqn:Hm; [discriminate |].
    destruct (is_none signal) eqn:Hs; [discriminate |].
    cbn [orb andb] in H. cbv beta iota in H.
    destruct dir.
    + apply first_signal_call in H.
      apply and_then_true in H as [H Hcross].
      apply and_then_true in H as [H Hband].
      apply and_then_true in H as [H _].
      apply and_then_true in H as [Hr Hst].
      rewrite Hr, Hst, Hcross, Hband. cbn [and_then mbind result_bind].
      apply py_lt_true in Hr as (r & ? & -> & _ & _).
      apply py_lt_true in Hst as (k & ? & -> & _ & _).
      apply py_lt_true in Hcross as (s & m & -> & -> & _).
      unfold threshold. cbn [py_lt].
      repeat destruct (num_ltb _ _); reflexivity.
    + apply first_signal_put in H.
      apply and_then_true in H as [H Hcross].
      apply and_then_true in H as [H Hband].
      apply and_then_true in H as [Hr Hst].
      rewrite Hr, Hst, Hcross, Hband. cbn [and_then].
      apply py_lt_true in Hr as (? & r & _ & -> & _).
      apply py_lt_true in Hst as (? & k & _ & -> & _).
      apply py_lt_true in Hcross as (m & s & -> & -> & _).
      unfold threshold. cbn [py_lt].
      repeat destruct (num_ltb _ _); reflexivity.
  - cbv beta iota in H.
    destruct dir.
    + apply first_signal_call in H.
      apply and_then_true in H as [H Hband].
      apply and_then_true in H as [H _].
      apply and_then_true in H as [Hr Hst].
      rewrite Hr, Hst, Hband. cbn [and_then mbind result_bind].
      apply py_lt_true in Hr as (r & ? & -> & _ & _).
      apply py_lt_true in Hst as (k & ? & -> & _ & _).
      unfold threshold. cbn [py_lt].
      repeat destruct (num_ltb _ _); reflexivity.
    + apply first_signal_put in H.
      apply and_then_true in H as [H Hband].
      apply and_then_true in H as [Hr Hst].
      rewrite Hr, Hst, Hband. cbn [and_then].
      apply py_lt_true in Hr as (? & r & _ & -> & _).
      apply py_lt_true in Hst as (? & k & _ & -> & _).
      unfold threshold. cbn [py_lt].
      repeat destruct (num_ltb _ _); reflexivity.
Qed.

Lemma prefilter_keeps_trend_signals_witness :
  prefilter sample_settings flat_snapshot (Some (Fin 101)) = Ok Tradable.
Proof.
  apply (prefilter_keeps_trend_signals sample_settings flat_snapshot (Fin 101) Call).
  - vm_compute. reflexivity.
  - reflexivity.
  - reflexivity.
  - reflexivity.
Defined.
